(** * KMC dashboard: data reconciliation and metric aggregation

    A shallow embedding of the record helpers of [utils/dashboard_utils.py],
    of the aggregators of [dashboard_metrics.py] and of the verification
    monitor of [kmc_dashboard.py], with the properties the design document
    states about them.

    Records are the loosely typed documents the loaders hand over: a
    dictionary from field names to dynamically typed values.  Python
    exceptions are results of their own ([Raise]), so that "never raises" is
    a statement that can be proved or refuted. *)

From Stdlib Require Import ZArith QArith Qround List String Ascii Bool Lia.
From Stdlib Require Import DecimalString Lqa.
Import ListNotations.

Set Warnings "-register-all".


Local Open Scope Z_scope.
Local Open Scope string_scope.
Local Open Scope list_scope.

(* ================================================================== *)
(** * Python values                                                    *)
(* ================================================================== *)

Module Py.

(** The result of [float(text)]: a finite number, an infinity or NaN.
    A finite double is the rational it denotes.  Where the code divides or
    converts and the value is used further, the rounding to the nearest
    double is written out ([nearest_double]); sums and quotients that are
    only compared or reported keep the exact rational. *)
Inductive pyfloat : Type :=
| FFin (q : Q)
| FInf (neg : bool)
| FNan.

(** A document value.  Integers are Python's, of any size; floats are
    finite. *)
Inductive pyval : Type :=
| VNone
| VBool (b : bool)
| VInt (z : Z)
| VFloat (q : Q)
| VStr (s : string)
| VList (l : list pyval)
| VDict (d : list (string * pyval)).

Definition dict : Type := list (string * pyval).

Inductive exn : Type :=
| TypeError | ValueError | AttributeError | OverflowError | OSError.

Inductive res (A : Type) : Type :=
| Ok (a : A)
| Raise (e : exn).
Arguments Ok {A} a.
Arguments Raise {A} e.

Definition bind {A B : Type} (c : res A) (k : A -> res B) : res B :=
  match c with
  | Ok a => k a
  | Raise e => Raise e
  end.

Declare Scope py_scope.
Delimit Scope py_scope with py.
Notation "x <- c ;; k" := (bind c (fun x => k))
  (at level 61, c at next level, right associativity) : py_scope.
Notation "' p <- c ;; k" := (bind c (fun x => let p := x in k))
  (at level 61, p pattern, c at next level, right associativity) : py_scope.
Local Open Scope py_scope.

(** [try: c  except (handled): h]. *)
Definition try_except {A : Type} (c : res A) (handled : exn -> bool)
    (h : res A) : res A :=
  match c with
  | Ok a => Ok a
  | Raise e => if handled e then h else Raise e
  end.

(** [for x in l: s = f(s, x)], an exception leaving the loop. *)
Fixpoint for_each {A S : Type} (f : S -> A -> res S) (l : list A) (s : S)
    : res S :=
  match l with
  | [] => Ok s
  | x :: t => s' <- f s x ;; for_each f t s'
  end.

(** ** Truth value, [bool(v)] *)
Definition truthy (v : pyval) : bool :=
  match v with
  | VNone => false
  | VBool b => b
  | VInt z => negb (z =? 0)%Z
  | VFloat q => negb (Qeq_bool q 0)
  | VStr s => negb (s =? "")
  | VList l => match l with [] => false | _ :: _ => true end
  | VDict d => match d with [] => false | _ :: _ => true end
  end.

(** [a or b] when evaluating [b] cannot raise. *)
Definition py_or (a b : pyval) : pyval := if truthy a then a else b.

(** ** Dictionaries *)
Fixpoint lookup (k : string) (d : dict) : option pyval :=
  match d with
  | [] => None
  | (k', v) :: t => if k' =? k then Some v else lookup k t
  end.

(** [d.get(k)] *)
Definition get (d : dict) (k : string) : pyval :=
  match lookup k d with Some v => v | None => VNone end.

(** [d.get(k, default)] *)
Definition get_or (d : dict) (k : string) (default : pyval) : pyval :=
  match lookup k d with Some v => v | None => default end.

(** [k in d] *)
Definition has_key (d : dict) (k : string) : bool :=
  match lookup k d with Some _ => true | None => false end.

(** [d[k] = v] *)
Fixpoint set_item (d : dict) (k : string) (v : pyval) : dict :=
  match d with
  | [] => [(k, v)]
  | (k', v') :: t =>
      if k' =? k then (k, v) :: t else (k', v') :: set_item t k v
  end.

(** [v.get] exists on dictionaries only. *)
Definition as_dict (v : pyval) : res dict :=
  match v with
  | VDict d => Ok d
  | _ => Raise AttributeError
  end.

(** The one-character strings of [for c in text]; UTF-8 continuation bytes
    belong to the character before them. *)
Definition is_continuation (c : ascii) : bool :=
  let n := N_of_ascii c in ((128 <=? n) && (n <? 192))%N.

Fixpoint chars_aux (cur : string) (s : string) : list string :=
  match s with
  | EmptyString => [cur]
  | String c t =>
      if is_continuation c then chars_aux (cur ++ String c EmptyString)%string t
      else cur :: chars_aux (String c EmptyString) t
  end.

Definition chars (s : string) : list string :=
  match s with
  | EmptyString => []
  | String c t => chars_aux (String c EmptyString) t
  end.

(** [for x in v]: the items a loop over [v] visits. *)
Definition py_iter (v : pyval) : res (list pyval) :=
  match v with
  | VList l => Ok l
  | VStr s => Ok (map VStr (chars s))
  | VDict d => Ok (map (fun kv => VStr (fst kv)) d)
  | VNone | VBool _ | VInt _ | VFloat _ => Raise TypeError
  end.

(** ** Numbers *)

(** [isinstance(v, (int, float))]; [bool] is a subclass of [int]. *)
Definition as_number (v : pyval) : option Q :=
  match v with
  | VBool b => Some (inject_Z (if b then 1 else 0))
  | VInt z => Some (inject_Z z)
  | VFloat q => Some q
  | _ => None
  end.

Definition Qltb (a b : Q) : bool :=
  match Qcompare a b with Lt => true | _ => false end.

(** Rounding to the nearest integer, ties to the even one. *)
Definition round_half_even (q : Q) : Z :=
  let d := Zpos (Qden q) in
  let fl := (Qnum q / d)%Z in
  match (2 * (Qnum q mod d) ?= d)%Z with
  | Lt => fl
  | Gt => fl + 1
  | Eq => if Z.even fl then fl else fl + 1
  end.

(** [2 ** p] *)
Definition pow2 (p : Z) : Q :=
  if (0 <=? p)%Z then inject_Z (2 ^ p) else 1 # Z.to_pos (2 ^ (- p)).

(** The binary exponent of a rational above zero: the [e] with
    [2 ** e <= n / d < 2 ** (e + 1)]. *)
Definition binary_exponent (n : Z) (d : positive) : Z :=
  let c := (Z.log2 n - Z.log2 (Zpos d))%Z in
  if Qle_bool (pow2 c) (n # d) then c else (c - 1)%Z.

(** The double nearest to a rational, ties to the even significand (53
    bits, fewer below [2 ** -1022]); [None] when the rounded value is
    beyond the largest double.  A whole number below [2 ** 53] is a
    double. *)
Definition nearest_double (q : Q) : option Q :=
  let n := Z.abs (Qnum q) in
  let d := Qden q in
  if (n =? 0)%Z then Some 0%Q
  else if (n mod Zpos d =? 0)%Z && (n / Zpos d <? 2 ^ 53)%Z
  then Some (inject_Z (Qnum q / Zpos d))
  else
    let e := binary_exponent n d in
    let p := (Z.max e (-1022) - 52)%Z in
    let m := round_half_even ((n # d) / pow2 p) in
    let r := Qred (inject_Z m * pow2 p) in
    if Qle_bool (pow2 1024) r then None
    else Some (if (Qnum q <? 0)%Z then Qred (- r) else r).

(** The double of a quotient or a product that cannot pass the largest
    double *)
Definition rounded (q : Q) : Q :=
  match nearest_double q with Some r => r | None => q end.

(** [a < b], [a <= b] on floats; every comparison with NaN is false. *)
Definition flt (a b : pyfloat) : bool :=
  match a, b with
  | FNan, _ | _, FNan => false
  | FFin x, FFin y => Qltb x y
  | FInf true, FInf true => false
  | FInf true, _ => true
  | FInf false, _ => false
  | FFin _, FInf neg => negb neg
  end.

Definition fle (a b : pyfloat) : bool :=
  match a, b with
  | FNan, _ | _, FNan => false
  | FFin x, FFin y => Qle_bool x y
  | FInf true, _ => true
  | FInf false, FInf false => true
  | FInf false, _ => false
  | FFin _, FInf neg => negb neg
  end.

(** ** Equality, hashing *)

(** [a == b] for values that can be keys; numbers compare by value across
    [bool], [int] and [float]. *)
Definition py_eqb (a b : pyval) : bool :=
  match as_number a, as_number b with
  | Some x, Some y => Qeq_bool x y
  | _, _ =>
      match a, b with
      | VNone, VNone => true
      | VStr s, VStr t => s =? t
      | _, _ => false
      end
  end.

Definition py_eq_str (v : pyval) (s : string) : bool := py_eqb v (VStr s).
Definition py_eq_int (v : pyval) (n : Z) : bool := py_eqb v (VInt n).

(** [v is True], [v is False] *)
Definition is_True (v : pyval) : bool :=
  match v with VBool true => true | _ => false end.
Definition is_False (v : pyval) : bool :=
  match v with VBool false => true | _ => false end.

(** [hash(v)] raises [TypeError] on lists and dictionaries. *)
Definition hashable (v : pyval) : bool :=
  match v with
  | VList _ | VDict _ => false
  | _ => true
  end.

(** [v in keys] for a set, or for the keys of a dictionary. *)
Definition set_mem (v : pyval) (keys : list pyval) : res bool :=
  if hashable v then Ok (existsb (py_eqb v) keys) else Raise TypeError.

(** [v in [a, b, ...]] for a list of scalars: equality only. *)
Definition list_mem (v : pyval) (l : list pyval) : bool :=
  existsb (py_eqb v) l.

(** [a == b] for any two values: lists are equal item by item,
    dictionaries when they hold equal values under the same keys. *)
Fixpoint py_equal (a b : pyval) {struct a} : bool :=
  match a with
  | VList l =>
      match b with
      | VList m =>
          (fix items (l m : list pyval) {struct l} : bool :=
             match l, m with
             | [], [] => true
             | x :: l', y :: m' => py_equal x y && items l' m'
             | _, _ => false
             end) l m
      | _ => false
      end
  | VDict d =>
      match b with
      | VDict e =>
          (List.length d =? List.length e)%nat
          && (fix entries (d : list (string * pyval)) {struct d} : bool :=
                match d with
                | [] => true
                | (k, v) :: d' =>
                    match lookup k e with
                    | Some w => py_equal v w
                    | None => false
                    end && entries d'
                end) d
      | _ => false
      end
  | _ => py_eqb a b
  end.

(** ** Strings *)

(** [text.lower()] on the ASCII letters.  The texts the code compares with
    after lower-casing are ASCII words without the letter k, which no
    other character lower-cases into. *)
Definition lower_ascii (c : ascii) : ascii :=
  let n := N_of_ascii c in
  if ((65 <=? n) && (n <=? 90))%N then ascii_of_N (n + 32) else c.

Fixpoint lower (s : string) : string :=
  match s with
  | EmptyString => EmptyString
  | String c t => String (lower_ascii c) (lower t)
  end.

(** [v.lower()] exists on strings only. *)
Definition str_lower (v : pyval) : res string :=
  match v with
  | VStr s => Ok (lower s)
  | _ => Raise AttributeError
  end.

Fixpoint prefixb (p s : string) : bool :=
  match p, s with
  | EmptyString, _ => true
  | String a p', String b s' => (a =? b)%char && prefixb p' s'
  | String _ _, EmptyString => false
  end.

(** [p in s] for two strings *)
Fixpoint contains (p s : string) : bool :=
  prefixb p s ||
  match s with
  | EmptyString => false
  | String _ t => contains p t
  end.

(** The length in bytes of the white-space character [s] starts with, as
    [str.strip] and [str.isspace] know white space; 0 when it starts with
    none. *)
Definition space_prefix (s : string) : nat :=
  N.to_nat match map N_of_ascii (list_ascii_of_string s) with
  | 9 :: _ | 10 :: _ | 11 :: _ | 12 :: _ | 13 :: _
  | 28 :: _ | 29 :: _ | 30 :: _ | 31 :: _ | 32 :: _ => 1
  | 194 :: 133 :: _ | 194 :: 160 :: _ => 2
  | 225 :: 154 :: 128 :: _ => 3
  | 226 :: 128 :: b :: _ =>
      if ((128 <=? b) && (b <=? 138) || (b =? 168) || (b =? 169)
          || (b =? 175))%N then 3 else 0
  | 226 :: 129 :: 159 :: _ => 3
  | 227 :: 128 :: 128 :: _ => 3
  | _ => 0
  end%N.

Fixpoint drop (n : nat) (s : string) : string :=
  match n, s with
  | O, _ => s
  | S n', String _ t => drop n' t
  | S _, EmptyString => EmptyString
  end.

(** [text.lstrip()]; the fuel is the length of the text. *)
Fixpoint lstrip_aux (fuel : nat) (s : string) : string :=
  match fuel with
  | O => s
  | S fuel' =>
      match space_prefix s with
      | O => s
      | n => lstrip_aux fuel' (drop n s)
      end
  end.

Definition lstrip (s : string) : string := lstrip_aux (String.length s) s.

(** [text.strip()]: what is left between the first and the last character
    that is not white space. *)
Fixpoint rstrip (s : string) : string :=
  match s with
  | EmptyString => EmptyString
  | String c t =>
      match lstrip s with
      | EmptyString => EmptyString
      | _ => String c (rstrip t)
      end
  end.

Definition strip (s : string) : string := rstrip (lstrip s).

(** ** Date-times *)

(** What [convert_unix_to_datetime] returns when it returns a date-time:
    a naive [datetime] of the standard library, as the microseconds
    between 1970-01-01T00:00:00 and it on its own clock, or an object of
    another making, into which the model does not look: what pandas made
    of a text, a list or a dictionary (a [Timestamp], naive or zoned, a
    [DatetimeIndex], ...), or a zoned [datetime]. *)
Inductive moment_of (F : Type) : Type :=
| Naive (us : Z)
| Foreign (f : F).
Arguments Naive {F} us.
Arguments Foreign {F} f.

(** What the model leaves to the interpreter and to pandas: the text of a
    float, a list or a dictionary, the parsing of a text as a float, and
    every operation on a date-time that is not a naive [datetime]. *)
Class Runtime : Type := {
  (** [repr] of a float, a list or a dictionary *)
  repr_other : pyval -> string;
  (** [float(text)]: [None] stands for [ValueError] *)
  float_of_str : string -> option pyfloat;
  (** The objects that are date-times and not naive [datetime]s *)
  foreign : Type;
  (** [result = pd.to_datetime(v, errors='coerce')], [if pd.isna(result):
      return None], [return result] on a value [v] that is not a number:
      the exception the three lines raise, [None], or the object
      returned *)
  pd_to_datetime : pyval -> res (option foreign);
  (** [bool(f)] *)
  foreign_bool : foreign -> res bool;
  (** [f.date()], in days since 1970-01-01 *)
  foreign_date : foreign -> res Z;
  (** [(a - b).total_seconds() / 3600] when [a] or [b] is foreign *)
  foreign_hours : moment_of foreign -> moment_of foreign -> res Q;
  (** [(a - b).days] when [a] or [b] is foreign *)
  foreign_days : moment_of foreign -> moment_of foreign -> res Z;
  (** [a < b] when [a] or [b] is foreign *)
  foreign_lt : moment_of foreign -> moment_of foreign -> res bool;
  (** [datetime.now(f.tzinfo) if f.tzinfo else datetime.now()], the
      second being [now] *)
  foreign_now : foreign -> Z -> res (moment_of foreign);
  (** [sum(l) / len(l)] for a list of numbers that holds a float: the
      additions are the interpreter's, in doubles *)
  float_mean : list pyval -> res pyfloat
}.

Definition py_str `{Runtime} (v : pyval) : string :=
  match v with
  | VStr s => s
  | VNone => "None"
  | VBool true => "True"
  | VBool false => "False"
  | VInt z => NilZero.string_of_int (Z.to_int z)
  | VFloat _ | VList _ | VDict _ => repr_other v
  end.

(** [float(v)] *)
Definition py_float `{Runtime} (v : pyval) : res pyfloat :=
  match v with
  | VBool b => Ok (FFin (inject_Z (if b then 1 else 0)))
  | VInt z =>
      match nearest_double (inject_Z z) with
      | Some q => Ok (FFin q)
      | None => Raise OverflowError
      end
  | VFloat q => Ok (FFin q)
  | VStr s =>
      match float_of_str s with
      | Some f => Ok f
      | None => Raise ValueError
      end
  | VNone | VList _ | VDict _ => Raise TypeError
  end.

End Py.

Import Py.
Local Open Scope py_scope.

(* ================================================================== *)
(** * Civil date-times                                                 *)
(* ================================================================== *)

(** A naive [datetime] is the number of microseconds between
    1970-01-01T00:00:00 and it, on its own clock; a [date] is the number of
    days since 1970-01-01; a [timedelta] is a number of microseconds. *)
Module Civil.

Definition datetime : Type := Z.
Definition date : Type := Z.

Definition US_PER_SECOND : Z := 1000000.
Definition US_PER_DAY : Z := 86400 * US_PER_SECOND.

(** [datetime.min] is 0001-01-01T00:00:00 and [datetime.max] is
    9999-12-31T23:59:59.999999. *)
Definition DATETIME_MIN : datetime := -62135596800 * US_PER_SECOND.
Definition DATETIME_MAX : datetime := 253402300799 * US_PER_SECOND + 999999.

Definition in_range (t : Z) : bool :=
  (DATETIME_MIN <=? t)%Z && (t <=? DATETIME_MAX)%Z.

(** [timedelta(hours=h, minutes=m)] *)
Definition timedelta_hm (h m : Z) : Z := (h * 3600 + m * 60) * US_PER_SECOND.

(** [timedelta(days=n)] *)
Definition timedelta_days (n : Z) : Z := n * US_PER_DAY.

(** The whole part of a number, towards zero *)
Definition truncate (q : Q) : Z := Z.quot (Qnum q) (Zpos (Qden q)).

(** [datetime.fromtimestamp(secs, tz=timezone.utc)]: the fraction of the
    seconds is multiplied by a million, in doubles, and rounded to whole
    microseconds, ties to even; whole seconds are exact.  An instant
    outside [datetime.min] .. [datetime.max] is a [ValueError] (an
    [OverflowError] or [OSError] where the platform's clock gives up
    first). *)
Definition fromtimestamp_utc (secs : Q) : res datetime :=
  let whole := truncate secs in
  let fraction := (secs - inject_Z whole)%Q in
  let us :=
    (whole * US_PER_SECOND
     + round_half_even (rounded (fraction * inject_Z US_PER_SECOND)))%Z in
  if in_range us then Ok us else Raise ValueError.

(** [utc_dt.astimezone(tz).replace(tzinfo=None)] for a fixed offset *)
Definition astimezone_naive (utc_dt : datetime) (offset : Z) : res datetime :=
  let local := utc_dt + offset in
  if in_range local then Ok local else Raise OverflowError.

(** [dt.date()] *)
Definition date_of (dt : datetime) : date := (dt / US_PER_DAY)%Z.

(** [(a - b).total_seconds() / 3600] *)
Definition hours_between (a b : datetime) : Q :=
  (inject_Z (a - b) / inject_Z US_PER_SECOND) / 3600.

(** [(a - b).days] *)
Definition days_between (a b : datetime) : Z := ((a - b) / US_PER_DAY)%Z.

(** ** Date-times of either making *)

Section Moments.
Context `{RT : Runtime}.

Definition moment : Type := moment_of foreign.

(** [bool(m)] of what is a date-time or [None]; a naive [datetime] is
    true. *)
Definition is_set (m : option moment) : res bool :=
  match m with
  | None => Ok false
  | Some (Naive _) => Ok true
  | Some (Foreign f) => foreign_bool f
  end.

(** [m.date()] *)
Definition moment_date (m : moment) : res date :=
  match m with
  | Naive dt => Ok (date_of dt)
  | Foreign f => foreign_date f
  end.

(** [(a - b).total_seconds() / 3600] *)
Definition moment_hours (a b : moment) : res Q :=
  match a, b with
  | Naive a, Naive b => Ok (hours_between a b)
  | _, _ => foreign_hours a b
  end.

(** [(a - b).days] *)
Definition moment_days (a b : moment) : res Z :=
  match a, b with
  | Naive a, Naive b => Ok (days_between a b)
  | _, _ => foreign_days a b
  end.

(** [a < b] *)
Definition moment_lt (a b : moment) : res bool :=
  match a, b with
  | Naive a, Naive b => Ok (a <? b)%Z
  | _, _ => foreign_lt a b
  end.

(** What [m] is as a condition: [m] itself where [bool(m)] is true. *)
Definition when_set (m : option moment) : res (option moment) :=
  set <- is_set m ;;
  Ok (if set then m else None).

(** [datetime.now(m.tzinfo) if m.tzinfo else datetime.now()]; [now] is
    what [datetime.now()] answers. *)
Definition now_for (now : datetime) (m : moment) : res moment :=
  match m with
  | Naive _ => Ok (Naive now)
  | Foreign f => foreign_now f now
  end.

(** [m or other] *)
Definition or_else (m : option moment) (other : moment) : res moment :=
  m <- when_set m ;;
  Ok (match m with Some m => m | None => other end).

End Moments.

End Civil.
Import Civil.

(* ================================================================== *)
(** * utils/dashboard_utils.py                                         *)
(* ================================================================== *)

Module Utils.
Section WithRuntime.
Context `{RT : Runtime}.

(** [except (ValueError, OSError, OverflowError)] *)
Definition convert_handles (e : exn) : bool :=
  match e with
  | ValueError | OSError | OverflowError => true
  | TypeError | AttributeError => false
  end.

(** [timestamp / 1000] for a number: the quotient in doubles; of an
    integer too large for the quotient to be a double, an
    [OverflowError]. *)
Definition thousandth (t : Q) : res Q :=
  match nearest_double (t / 1000) with
  | Some secs => Ok secs
  | None => Raise OverflowError
  end.

Definition convert_unix_to_datetime (timestamp : pyval)
    : res (option moment) :=
  if negb (truthy timestamp) then Ok None
  else
    try_except
      (let target_tz := timedelta_hm 5 30 in
       let IST := target_tz in
       match as_number timestamp with
       | Some t =>
           utc_dt <- (if Qltb 1000000000000 t
                      then secs <- thousandth t ;; fromtimestamp_utc secs
                      else fromtimestamp_utc t) ;;
           ist_dt <- astimezone_naive utc_dt IST ;;
           Ok (Some (Naive ist_dt))
       | None =>
           result <- pd_to_datetime timestamp ;;
           match result with
           | None => Ok None
           | Some result => Ok (Some (Foreign result))
           end
       end)
      convert_handles
      (Ok None).

(** [except (ValueError, TypeError)] *)
Definition parse_handles (e : exn) : bool :=
  match e with
  | ValueError | TypeError => true
  | AttributeError | OverflowError | OSError => false
  end.

Definition check_kmc_stability (baby : dict) : res string :=
  let instability_indicators :=
    [ py_eqb (get baby "oxygenTherapy") (VBool true);
      py_eqb (get baby "onOxygen") (VBool true);
      py_eqb (get baby "mechanicalVentilation") (VBool true);
      py_eqb (get baby "onVentilator") (VBool true);
      py_eqb (get baby "sepsis") (VBool true);
      py_eqb (get baby "jaundice") (VBool true);
      py_eqb (get baby "hypoglycemia") (VBool true);
      py_eqb (get baby "hypothermia") (VBool true);
      py_eqb (get baby "apnea") (VBool true);
      py_eqb (get baby "feedingDifficulty") (VBool true);
      py_eqb (get baby "lethargy") (VBool true);
      py_eqb (get baby "seizures") (VBool true) ] in
  let birth_weight := py_or (get baby "birthWeight") (get baby "weight") in
  instability_indicators <-
    (if truthy birth_weight then
       try_except
         (w <- py_float birth_weight ;;
          if flt w (FFin 1500) then Ok (instability_indicators ++ [true])
          else Ok instability_indicators)
         parse_handles
         (Ok instability_indicators)
     else Ok instability_indicators) ;;
  if existsb (fun b => b) instability_indicators then Ok "unstable"
  else Ok "stable".

(** ** Hierarchical data access helpers *)

(** [if matching_discharge:] on what [next(..., None)] found: a record
    that is not empty. *)
Definition found (matching_discharge : option dict) : option dict :=
  match matching_discharge with
  | Some d => if truthy (VDict d) then Some d else None
  | None => None
  end.

Definition get_prioritized_discharge_weight (baby : dict)
    (matching_discharge : option dict) : pyval :=
  let discharge_weight := VStr "N/A" in
  let discharge_weight :=
    match found matching_discharge with
    | Some d => get_or d "dischargeWeight" (VStr "N/A")
    | None => discharge_weight
    end in
  let discharge_weight :=
    if py_eq_str discharge_weight "N/A"
    then get_or baby "dischargeWeight" (VStr "N/A")
    else discharge_weight in
  discharge_weight.

Definition get_prioritized_discharge_temperature (baby : dict)
    (matching_discharge : option dict) : pyval :=
  let discharge_temp := VStr "N/A" in
  let discharge_temp :=
    match found matching_discharge with
    | Some d => get_or d "dischargeTemperature" (VStr "N/A")
    | None => discharge_temp
    end in
  let discharge_temp :=
    if py_eq_str discharge_temp "N/A"
    then get_or baby "babyTemperatureDischarge2" (VStr "N/A")
    else discharge_temp in
  discharge_temp.

Definition get_prioritized_discharge_rr (baby : dict)
    (matching_discharge : option dict) : pyval :=
  let discharge_rr := VStr "N/A" in
  let discharge_rr :=
    match found matching_discharge with
    | Some d => get_or d "dischargeRR" (VStr "N/A")
    | None => discharge_rr
    end in
  let discharge_rr :=
    if py_eq_str discharge_rr "N/A"
    then get_or baby "babyRRdischarge" (VStr "N/A")
    else discharge_rr in
  discharge_rr.

Definition get_prioritized_feed_mode (baby : dict)
    (matching_discharge : option dict) : pyval :=
  let feed_mode := VStr "N/A" in
  let feed_mode :=
    match found matching_discharge with
    | Some d => get_or d "feedMode" (VStr "N/A")
    | None => feed_mode
    end in
  let feed_mode :=
    if py_eq_str feed_mode "N/A"
    then get_or baby "whatFeedMode" (VStr "N/A")
    else feed_mode in
  feed_mode.

Definition get_prioritized_baby_health (baby : dict)
    (matching_discharge : option dict) : pyval :=
  let baby_health := VStr "N/A" in
  let baby_health :=
    match found matching_discharge with
    | Some d => get_or d "dischargeDangerSigns" (VStr "N/A")
    | None => baby_health
    end in
  let baby_health :=
    if py_eq_str baby_health "N/A"
    then get_or baby "howsBabyHealth" (VStr "N/A")
    else baby_health in
  baby_health.

Definition get_prioritized_critical_reasons (baby : dict)
    (matching_discharge : option dict) : pyval :=
  let critical_reasons := VStr "N/A" in
  let critical_reasons :=
    match found matching_discharge with
    | Some d => get_or d "criticalReasons" (VStr "N/A")
    | None => critical_reasons
    end in
  let critical_reasons :=
    if py_eq_str critical_reasons "N/A"
    then get_or baby "criticalReasons" (VStr "N/A")
    else critical_reasons in
  critical_reasons.

Definition get_prioritized_discharge_reason (baby : dict)
    (matching_discharge : option dict) : pyval :=
  let discharge_reason := VStr "N/A" in
  let discharge_reason :=
    match found matching_discharge with
    | Some d => get_or d "dischargeReason" (VStr "N/A")
    | None => discharge_reason
    end in
  let discharge_reason :=
    if py_eq_str discharge_reason "N/A"
    then get_or baby "dischargeReason" (VStr "N/A")
    else discharge_reason in
  discharge_reason.

(** The [if] / [elif] chain the three branches of [categorize_discharge]
    share, on the lower-cased status and type. *)
Definition category_of (status type : string) : string :=
  if (status =? "critical") && (type =? "home") then "critical_home"
  else if (status =? "stable") && (type =? "home") then "stable_home"
  else if (status =? "critical") && (type =? "referred")
  then "critical_referred"
  else if type =? "died" then "died"
  else "other".

Definition categorize_discharge (record : dict) (source : string)
    : res string :=
  if source =? "discharges" then
    discharge_status <- str_lower (get_or record "dischargeStatus" (VStr "")) ;;
    discharge_type <- str_lower (get_or record "dischargeType" (VStr "")) ;;
    Ok (category_of discharge_status discharge_type)
  else if source =? "baby" then
    last_discharge_status <-
      str_lower (get_or record "lastDischargeStatus" (VStr "")) ;;
    last_discharge_type <-
      str_lower (get_or record "lastDischargeType" (VStr "")) ;;
    Ok (category_of last_discharge_status last_discharge_type)
  else if source =? "babyBackUp" then
    last_discharge_status <-
      str_lower (get_or record "lastDischargeStatus" (VStr "")) ;;
    last_discharge_type <-
      str_lower (get_or record "lastDischargeType" (VStr "")) ;;
    Ok (category_of last_discharge_status last_discharge_type)
  else Ok "other".

(** ** get_hierarchical_discharge_date, get_hierarchical_discharge_info *)

(** The loop over the discharges collection of
    [get_hierarchical_discharge_date]: it is left, with the date, at the
    first record of the baby whose date converts. *)
Fixpoint discharge_date_walk (baby_uid : pyval) (discharge_data : list dict)
    : res (option moment) :=
  match discharge_data with
  | [] => Ok None
  | discharge :: rest =>
      if py_equal (get discharge "UID") baby_uid then
        discharge_date <-
          convert_unix_to_datetime (get discharge "dischargeDate") ;;
        discharge_date <- when_set discharge_date ;;
        match discharge_date with
        | Some d => Ok (Some d)
        | None => discharge_date_walk baby_uid rest
        end
      else discharge_date_walk baby_uid rest
  end.

Definition get_hierarchical_discharge_date (baby : dict)
    (discharge_data : list dict) : res (option moment) :=
  let baby_uid := get baby "UID" in
  returned <- discharge_date_walk baby_uid discharge_data ;;
  match returned with
  | Some d => Ok (Some d)
  | None =>
      if truthy (get baby "discharged") then
        discharge_date <-
          convert_unix_to_datetime
            (py_or (get baby "lastDischargeDate") (get baby "dischargeDate")) ;;
        when_set discharge_date
      else Ok None
  end.

(** The loop of [get_hierarchical_discharge_info]: whether its [return]
    was reached, and [discharge_date] and [discharge_weight] as they are
    then. *)
Fixpoint discharge_info_walk (baby_uid : pyval) (discharge_data : list dict)
    (discharge_date : option moment) (discharge_weight : pyval)
    : res (bool * option moment * pyval) :=
  match discharge_data with
  | [] => Ok (false, discharge_date, discharge_weight)
  | discharge :: rest =>
      if py_equal (get discharge "UID") baby_uid then
        discharge_date <-
          convert_unix_to_datetime (get discharge "dischargeDate") ;;
        let discharge_weight := get discharge "dischargeWeight" in
        set <- is_set discharge_date ;;
        if set then Ok (true, discharge_date, discharge_weight)
        else discharge_info_walk baby_uid rest discharge_date discharge_weight
      else discharge_info_walk baby_uid rest discharge_date discharge_weight
  end.

Definition get_hierarchical_discharge_info (baby : dict)
    (discharge_data : list dict) : res (option moment * pyval) :=
  let baby_uid := get baby "UID" in
  '(returned, discharge_date, discharge_weight) <-
    discharge_info_walk baby_uid discharge_data None VNone ;;
  if returned then Ok (discharge_date, discharge_weight)
  else if truthy (get baby "discharged") then
    discharge_date <-
      convert_unix_to_datetime
        (py_or (get baby "lastDischargeDate") (get baby "dischargeDate")) ;;
    Ok (discharge_date, get baby "dischargeWeight")
  else Ok (discharge_date, discharge_weight).

End WithRuntime.
End Utils.

(* ================================================================== *)
(** * kmc_dashboard.py                                                 *)
(* ================================================================== *)

Module Dashboard.

Record verification_stats : Type := {
  correct : nat;
  incorrect : nat;
  unable_to_verify : nat;
  not_verified : nat;
  total_observations : nat
}.

Record verification_row : Type := {
  row_UID : pyval;
  row_hospitalName : pyval;
  row_observationDate : pyval;
  row_ageDay : pyval;
  row_status : string;
  row_filledCorrectly : pyval;
  row_kmcfilledcorrectly : pyval;
  row_mnecomment : pyval;
  row_observation_data : dict
}.

Record verification_state : Type := {
  processed_uids : list pyval;
  stats : verification_stats;
  detailed_data : list verification_row
}.

Record verification_result : Type := {
  res_verification_stats : verification_stats;
  res_detailed_data : list verification_row;
  res_total_babies : nat
}.

(** [verification_stats['total_observations'] += 1] *)
Definition count_observation (s : verification_stats) : verification_stats :=
  {| correct := correct s; incorrect := incorrect s;
     unable_to_verify := unable_to_verify s; not_verified := not_verified s;
     total_observations := S (total_observations s) |}.

(** [verification_stats[status] += 1] *)
Definition count_status (s : verification_stats) (status : string)
    : verification_stats :=
  {| correct := if status =? "correct" then S (correct s) else correct s;
     incorrect :=
       if status =? "incorrect" then S (incorrect s) else incorrect s;
     unable_to_verify :=
       if status =? "unable_to_verify" then S (unable_to_verify s)
       else unable_to_verify s;
     not_verified :=
       if status =? "not_verified" then S (not_verified s)
       else not_verified s;
     total_observations := total_observations s |}.

(** [mne_comment and mne_comment.strip()] as a condition *)
Definition comment_present (mne_comment : pyval) : res bool :=
  if truthy mne_comment then
    match mne_comment with
    | VStr s => Ok (truthy (VStr (strip s)))
    | _ => Raise AttributeError
    end
  else Ok false.

(** The status of one observation day: the body of the inner loop of
    [calculate_kmc_verification_monitoring] between [status =
    'not_verified'] and the count. *)
Definition verification_status (obs_day : dict) : res string :=
  let filled_correctly := get obs_day "filledCorrectly" in
  let kmc_filled_correctly := get obs_day "kmcfilledcorrectly" in
  let mne_comment := get_or obs_day "mnecomment" (VStr "") in
  let status := "not_verified" in
  has_comment <- comment_present mne_comment ;;
  if has_comment then Ok "incorrect"
  else if is_True filled_correctly then Ok "correct"
  else if is_False filled_correctly then Ok "incorrect"
  else if is_True kmc_filled_correctly then Ok "correct"
  else if is_False kmc_filled_correctly then Ok "incorrect"
  else
    match kmc_filled_correctly with
    | VStr t =>
        if truthy (VStr t) then
          let kmc_lower := lower t in
          if (kmc_lower =? "correct") || (kmc_lower =? "true")
          then Ok "correct"
          else if (kmc_lower =? "incorrect") || (kmc_lower =? "false")
          then Ok "incorrect"
          else if contains "unable" kmc_lower then Ok "unable_to_verify"
          else Ok status
        else Ok status
    | _ => Ok status
    end.

Definition observation_keys : list string :=
  ["filledCorrectly"; "kmcfilledcorrectly"; "mnecomment"; "date"; "ageDay"].

Definition observe (baby : dict) (uid : pyval) (st : verification_state)
    (item : pyval) : res verification_state :=
  obs_day <- as_dict item ;;
  let stats1 := count_observation (stats st) in
  status <- verification_status obs_day ;;
  Ok {| processed_uids := processed_uids st;
        stats := count_status stats1 status;
        detailed_data :=
          detailed_data st ++
          [ {| row_UID := uid;
               row_hospitalName := get_or baby "hospitalName" (VStr "Unknown");
               row_observationDate := get_or obs_day "date" (VStr "Unknown");
               row_ageDay := get_or obs_day "ageDay" (VStr "Unknown");
               row_status := status;
               row_filledCorrectly := get obs_day "filledCorrectly";
               row_kmcfilledcorrectly := get obs_day "kmcfilledcorrectly";
               row_mnecomment := get_or obs_day "mnecomment" (VStr "");
               row_observation_data :=
                 filter (fun kv =>
                           negb (existsb (String.eqb (fst kv))
                                   observation_keys))
                        obs_day |} ] |}.

Definition verification_step (st : verification_state) (baby : dict)
    : res verification_state :=
  let uid := get baby "UID" in
  if negb (truthy uid) then Ok st
  else
    seen <- set_mem uid (processed_uids st) ;;
    if seen then Ok st
    else
      let st1 := {| processed_uids := processed_uids st ++ [uid];
                    stats := stats st;
                    detailed_data := detailed_data st |} in
      observation_days <- py_iter (get_or baby "observationDay" (VList [])) ;;
      for_each (observe baby uid) observation_days st1.

Definition calculate_kmc_verification_monitoring (baby_data : list dict)
    : res verification_result :=
  let init :=
    {| processed_uids := [];
       stats := {| correct := 0; incorrect := 0; unable_to_verify := 0;
                   not_verified := 0; total_observations := 0 |};
       detailed_data := [] |} in
  st <- for_each verification_step baby_data init ;;
  Ok {| res_verification_stats := stats st;
        res_detailed_data := detailed_data st;
        res_total_babies := List.length (processed_uids st) |}.

(** ** calculate_critical_reason_classification *)

(** [discharge_critical_reasons]: under each reason its [count] and its
    [discharges], in the order the reasons were met. *)
Definition critical_reasons : Type := list (string * (nat * list dict)).

Fixpoint reasons_find (reason : string) (m : critical_reasons)
    : option (nat * list dict) :=
  match m with
  | [] => None
  | (k, v) :: t => if k =? reason then Some v else reasons_find reason t
  end.

(** [if reason not in m: m[reason] = {'count': 0, 'discharges': []}] *)
Definition reasons_ensure (reason : string) (m : critical_reasons)
    : critical_reasons :=
  match reasons_find reason m with
  | Some _ => m
  | None => m ++ [(reason, (0%nat, []))]
  end.

(** [m[reason]['count'] += 1; m[reason]['discharges'].append(row)] *)
Fixpoint reasons_file (reason : string) (row : dict) (m : critical_reasons)
    : critical_reasons :=
  match m with
  | [] => []
  | (k, (n, rows)) :: t =>
      if k =? reason then (k, (S n, rows ++ [row])) :: t
      else (k, (n, rows)) :: reasons_file reason row t
  end.

Record reason_scan : Type := {
  discharge_processed_uids : list pyval;
  discharge_critical_reasons : critical_reasons
}.

(** The body of [for discharge in discharge_data]. *)
Definition reason_step (st : reason_scan) (discharge : dict)
    : res reason_scan :=
  let uid := get discharge "UID" in
  if negb (truthy uid) then Ok st
  else
    seen <- set_mem uid (discharge_processed_uids st) ;;
    if seen then Ok st
    else
      let processed := discharge_processed_uids st ++ [uid] in
      let critical_reasons_field :=
        get_or discharge "criticalReasons" (VStr "") in
      match critical_reasons_field with
      | VStr text =>
          if truthy (VStr (strip text)) then
            let critical_reason := strip text in
            let row :=
              [("UID", uid);
               ("hospitalName",
                get_or discharge "hospitalName" (VStr "Unknown"));
               ("criticalReason", VStr critical_reason);
               ("dischargeType",
                get_or discharge "dischargeType" (VStr "Unknown"));
               ("dischargeStatus",
                get_or discharge "dischargeStatus" (VStr "Unknown"));
               ("source", VStr "discharges collection")] in
            Ok {| discharge_processed_uids := processed;
                  discharge_critical_reasons :=
                    reasons_file critical_reason row
                      (reasons_ensure critical_reason
                         (discharge_critical_reasons st)) |}
          else Ok {| discharge_processed_uids := processed;
                     discharge_critical_reasons :=
                       discharge_critical_reasons st |}
      | _ => Ok {| discharge_processed_uids := processed;
                   discharge_critical_reasons :=
                     discharge_critical_reasons st |}
      end.

Record reason_classification : Type := {
  res_discharge_critical_reasons : critical_reasons;
  total_discharges_with_reasons : nat;
  total_discharges : nat
}.

Definition calculate_critical_reason_classification
    (discharge_data : list dict) : res reason_classification :=
  st <- for_each reason_step discharge_data
          {| discharge_processed_uids := [];
             discharge_critical_reasons := [] |} ;;
  Ok {| res_discharge_critical_reasons := discharge_critical_reasons st;
        total_discharges_with_reasons :=
          fold_right (fun kv n => (fst (snd kv) + n)%nat) 0%nat
                     (discharge_critical_reasons st);
        total_discharges := List.length (discharge_processed_uids st) |}.

(** ** _filter_data *)

Section WithRuntime.
Context `{RT : Runtime}.

(** [set(selected) if selected else set()]: [None] or an empty list gives
    the empty set; every item of the list is hashed. *)
Definition selection_set (selected : option (list pyval))
    : res (list pyval) :=
  match selected with
  | Some items =>
      for_each (fun s v =>
                  seen <- set_mem v s ;;
                  Ok (if seen then s else s ++ [v]))
               items []
  | None => Ok []
  end.

(** [baby.get(field, '').strip()] *)
Definition stripped_field (baby : dict) (field : string) : res pyval :=
  match get_or baby field (VStr "") with
  | VStr s => Ok (VStr (strip s))
  | _ => Raise AttributeError
  end.

(** Whether the body of [for baby in baby_data] gets to
    [filtered_data.append(baby)]. *)
Definition filter_keeps (hospital_set location_set : list pyval)
    (start_date end_date : option date) (baby : dict) : res bool :=
  hospital_ok <-
    (if truthy (VList hospital_set) then
       hospital <- stripped_field baby "hospitalName" ;;
       set_mem hospital hospital_set
     else Ok true) ;;
  if negb hospital_ok then Ok false
  else
    location_ok <-
      (if truthy (VList location_set) then
         location <- stripped_field baby "currentLocationOfBaby" ;;
         set_mem location location_set
       else Ok true) ;;
    if negb location_ok then Ok false
    else
      match start_date, end_date with
      | Some start_date, Some end_date =>
          let date_of_birth := get baby "dateOfBirth" in
          if truthy date_of_birth then
            try_except
              (birth_dt <- Utils.convert_unix_to_datetime date_of_birth ;;
               match birth_dt with
               | None => Ok false
               | Some birth_dt =>
                   birth_date <- moment_date birth_dt ;;
                   Ok ((start_date <=? birth_date)%Z
                       && (birth_date <=? end_date)%Z)
               end)
              (fun e => match e with
                        | ValueError | AttributeError | TypeError => true
                        | _ => false
                        end)
              (Ok false)
          else Ok true
      | _, _ => Ok true
      end.

(** What the [try] block computes. *)
Definition filter_data_body (baby_data : list dict)
    (start_date end_date : option date)
    (selected_hospitals selected_locations : option (list pyval))
    : res (list dict) :=
  hospital_set <- selection_set selected_hospitals ;;
  location_set <- selection_set selected_locations ;;
  for_each (fun filtered_data baby =>
              keep <- filter_keeps hospital_set location_set
                        start_date end_date baby ;;
              Ok (if keep then filtered_data ++ [baby] else filtered_data))
           baby_data [].

(** [_filter_data]: the list it returns, and whether [st.error] was
    called; [except Exception] catches every exception of the body. *)
Definition _filter_data (baby_data : list dict)
    (start_date end_date : option date)
    (selected_hospitals selected_locations : option (list pyval))
    : list dict * bool :=
  match filter_data_body baby_data start_date end_date
          selected_hospitals selected_locations with
  | Ok filtered_data => (filtered_data, false)
  | Raise _ => ([], true)
  end.

End WithRuntime.

End Dashboard.

(* ================================================================== *)
(** * dashboard_metrics.py                                             *)
(* ================================================================== *)

Module Metrics.
Import Utils.

(** The two labels of [placeOfDelivery] that mean "born here". *)
Definition THIS_HOSPITAL : list pyval :=
  [VStr "यह अस्पताल"; VStr "this hospital"].

(** [n / d * 100] on two counts, [d] not zero: the quotient of the two
    integers as a double, and its product with 100 as a double *)
Definition percentage (n d : nat) : Q :=
  rounded (rounded (inject_Z (Z.of_nat n) / inject_Z (Z.of_nat d)) * 100).

(** Counters keyed by a value: [d[k] = d.get(k, 0) + 1].  The key is
    hashed, which a list or a dictionary refuses. *)
Definition counter : Type := list (pyval * nat).

Fixpoint counter_get (k : pyval) (c : counter) : nat :=
  match c with
  | [] => 0%nat
  | (k', n) :: t => if py_eqb k k' then n else counter_get k t
  end.

Fixpoint counter_bump (k : pyval) (c : counter) : counter :=
  match c with
  | [] => [(k, 1%nat)]
  | (k', n) :: t =>
      if py_eqb k k' then (k', S n) :: t else (k', n) :: counter_bump k t
  end.

Definition counter_incr (k : pyval) (c : counter) : res counter :=
  if hashable k then Ok (counter_bump k c) else Raise TypeError.

(** [sorted(keys)] of the keys of a dictionary.  One key, or none, is
    compared with nothing; numbers are ordered among themselves by value
    and texts among themselves by code point; [<] between any other two
    keys is a [TypeError].  No two keys of a dictionary are equal, so the
    order does not depend on how the sort goes about it. *)
Definition is_text (v : pyval) : bool :=
  match v with VStr _ => true | _ => false end.

Definition is_number (v : pyval) : bool :=
  match as_number v with Some _ => true | None => false end.

Definition key_lt (a b : pyval) : bool :=
  match a, b with
  | VStr s, VStr t => String.ltb s t
  | _, _ =>
      match as_number a, as_number b with
      | Some x, Some y => Qltb x y
      | _, _ => false
      end
  end.

Fixpoint insert_key (x : pyval) (l : list pyval) : list pyval :=
  match l with
  | [] => [x]
  | y :: t => if key_lt x y then x :: l else y :: insert_key x t
  end.

Definition sorted_keys (keys : list pyval) : res (list pyval) :=
  match keys with
  | [] | [_] => Ok keys
  | _ =>
      if forallb is_number keys || forallb is_text keys
      then Ok (fold_right insert_key [] keys)
      else Raise TypeError
  end.

(** [s.add(v)] *)
Definition set_add (v : pyval) (s : list pyval) : res (list pyval) :=
  seen <- set_mem v s ;;
  Ok (if seen then s else s ++ [v]).

Section WithRuntime.
Context `{RT : Runtime}.

(** ** calculate_registration_timeliness *)

Record timeliness : Type := {
  total_inborn : nat;
  within_24h_count : nat;
  within_24h_percentage : pyval;
  within_12h_count : nat;
  within_12h_percentage : pyval
}.

(** [baby.get('registrationDate') or
     baby.get('registrationDataType', {}).get('registrationDate')] *)
Definition registration_stamp (baby : dict) : res pyval :=
  let direct := get baby "registrationDate" in
  if truthy direct then Ok direct
  else
    nested <- as_dict (get_or baby "registrationDataType" (VDict [])) ;;
    Ok (get nested "registrationDate").

(** The body of the loop over the inborn babies; the state is
    [(within_24h, within_12h)]. *)
Definition timeliness_step (st : nat * nat) (baby : dict) : res (nat * nat) :=
  let '(within_24h, within_12h) := st in
  birth_time <- convert_unix_to_datetime (get baby "dateOfBirth") ;;
  stamp <- registration_stamp baby ;;
  reg_time <- convert_unix_to_datetime stamp ;;
  birth_time <- when_set birth_time ;;
  match birth_time with
  | Some birth_time =>
      reg_time <- when_set reg_time ;;
      match reg_time with
      | Some reg_time =>
          time_diff <- moment_hours reg_time birth_time ;;
          if Qle_bool 0 time_diff && Qle_bool time_diff 24 then
            let within_24h := S within_24h in
            if Qle_bool time_diff 12 then Ok (within_24h, S within_12h)
            else Ok (within_24h, within_12h)
          else Ok (within_24h, within_12h)
      | None => Ok (within_24h, within_12h)
      end
  | None => Ok (within_24h, within_12h)
  end.

Definition calculate_registration_timeliness (baby_data : list dict)
    : res timeliness :=
  let inborn_babies :=
    filter (fun baby => list_mem (get baby "placeOfDelivery") THIS_HOSPITAL)
           baby_data in
  '(within_24h, within_12h) <-
    for_each timeliness_step inborn_babies (0%nat, 0%nat) ;;
  let total_inborn := List.length inborn_babies in
  Ok {| total_inborn := total_inborn;
        within_24h_count := within_24h;
        within_24h_percentage :=
          if (0 <? total_inborn)%nat
          then VFloat (percentage within_24h total_inborn) else VInt 0;
        within_12h_count := within_12h;
        within_12h_percentage :=
          if (0 <? total_inborn)%nat
          then VFloat (percentage within_12h total_inborn) else VInt 0 |}.

(** ** calculate_death_rates: the pass over the babies *)

Record death_scan : Type := {
  processed_uids : list pyval;
  hospital_deaths : counter;
  hospital_totals : counter;
  inborn_total : nat;
  inborn_deaths : nat;
  outborn_total : nat;
  outborn_deaths : nat;
  dead_uids : list pyval;
  kmc_stable_total : nat;
  kmc_stable_deaths : nat;
  kmc_unstable_total : nat;
  kmc_unstable_deaths : nat;
  neonatal_deaths : nat;
  infant_deaths : nat;
  location_deaths : counter;
  location_totals : counter
}.

Definition death_scan_init : death_scan :=
  {| processed_uids := []; hospital_deaths := []; hospital_totals := [];
     inborn_total := 0; inborn_deaths := 0;
     outborn_total := 0; outborn_deaths := 0;
     dead_uids := [];
     kmc_stable_total := 0; kmc_stable_deaths := 0;
     kmc_unstable_total := 0; kmc_unstable_deaths := 0;
     neonatal_deaths := 0; infant_deaths := 0;
     location_deaths := []; location_totals := [] |}.

(** [n += 1] under a condition *)
Definition bump_if (b : bool) (n : nat) : nat := if b then S n else n.

(** The body of [for baby in baby_data] of [calculate_death_rates]. *)
Definition death_step (st : death_scan) (baby : dict) : res death_scan :=
  let uid := get baby "UID" in
  if negb (truthy uid) then Ok st
  else
    seen <- set_mem uid (processed_uids st) ;;
    if seen then Ok st
    else
      let processed := processed_uids st ++ [uid] in
      let hospital := get_or baby "hospitalName" (VStr "Unknown") in
      let is_dead := py_eqb (get baby "deadBaby") (VBool true) in
      dead <- (if is_dead then set_add uid (dead_uids st)
               else Ok (dead_uids st)) ;;
      h_totals <- counter_incr hospital (hospital_totals st) ;;
      h_deaths <- (if is_dead then counter_incr hospital (hospital_deaths st)
                   else Ok (hospital_deaths st)) ;;
      let place_of_delivery := get_or baby "placeOfDelivery" (VStr "") in
      let inborn := list_mem place_of_delivery THIS_HOSPITAL in
      let location :=
        get_or baby "currentLocationOfTheBaby" (VStr "Unknown") in
      l_totals <- counter_incr location (location_totals st) ;;
      l_deaths <- (if is_dead then counter_incr location (location_deaths st)
                   else Ok (location_deaths st)) ;;
      stability <- check_kmc_stability baby ;;
      let stable := stability =? "stable" in
      '(neonatal, infant) <-
        (if is_dead then
           date_of_birth <- convert_unix_to_datetime (get baby "dateOfBirth") ;;
           date_of_death <- convert_unix_to_datetime (get baby "dateOfDeath") ;;
           date_of_birth <- when_set date_of_birth ;;
           match date_of_birth with
           | Some date_of_birth =>
               date_of_death <- when_set date_of_death ;;
               match date_of_death with
               | Some date_of_death =>
                   age_days <- moment_days date_of_death date_of_birth ;;
                   if (age_days <=? 28)%Z
                   then Ok (S (neonatal_deaths st), infant_deaths st)
                   else Ok (neonatal_deaths st, S (infant_deaths st))
               | None => Ok (neonatal_deaths st, infant_deaths st)
               end
           | None => Ok (neonatal_deaths st, infant_deaths st)
           end
         else Ok (neonatal_deaths st, infant_deaths st)) ;;
      Ok {| processed_uids := processed;
            hospital_deaths := h_deaths;
            hospital_totals := h_totals;
            inborn_total := bump_if inborn (inborn_total st);
            inborn_deaths := bump_if (inborn && is_dead) (inborn_deaths st);
            outborn_total := bump_if (negb inborn) (outborn_total st);
            outborn_deaths :=
              bump_if (negb inborn && is_dead) (outborn_deaths st);
            dead_uids := dead;
            kmc_stable_total := bump_if stable (kmc_stable_total st);
            kmc_stable_deaths :=
              bump_if (stable && is_dead) (kmc_stable_deaths st);
            kmc_unstable_total := bump_if (negb stable) (kmc_unstable_total st);
            kmc_unstable_deaths :=
              bump_if (negb stable && is_dead) (kmc_unstable_deaths st);
            neonatal_deaths := neonatal;
            infant_deaths := infant;
            location_deaths := l_deaths;
            location_totals := l_totals |}.

(** [hospital_data]: the hospitals in sorted order, and for each its
    babies, its deaths and its rate. *)
Record hospital_figures : Type := {
  hospitals : list pyval;
  totals : list nat;
  deaths : list nat;
  rates : list pyval
}.

(** The figures [calculate_death_rates] returns from that pass: every key
    of its result but [discharge_outcomes]. *)
Record death_figures : Type := {
  total_babies : nat;
  dead_babies : nat;
  mortality_rate : pyval;
  hospital_data : hospital_figures;
  birth_place : (nat * nat) * (nat * nat);
  location_analysis : list (pyval * (nat * nat));
  kmc_stability : (nat * nat) * (nat * nat);
  neonatal_vs_infant : nat * nat
}.

Definition death_rates_scan (baby_data : list dict) : res death_scan :=
  for_each death_step baby_data death_scan_init.

Definition death_rates_figures (baby_data : list dict) : res death_figures :=
  st <- death_rates_scan baby_data ;;
  let total_babies := List.length (processed_uids st) in
  let dead_babies := List.length (dead_uids st) in
  all_hospitals <- sorted_keys (map fst (hospital_totals st)) ;;
  let deaths_list :=
    map (fun h => counter_get h (hospital_deaths st)) all_hospitals in
  let totals_list :=
    map (fun h => counter_get h (hospital_totals st)) all_hospitals in
  let rates_list :=
    map (fun dt => if (0 <? snd dt)%nat
                   then VFloat (percentage (fst dt) (snd dt)) else VInt 0)
        (combine deaths_list totals_list) in
  Ok {| total_babies := total_babies;
        dead_babies := dead_babies;
        mortality_rate :=
          if (0 <? total_babies)%nat
          then VFloat (percentage dead_babies total_babies) else VInt 0;
        hospital_data :=
          {| hospitals := all_hospitals; totals := totals_list;
             deaths := deaths_list; rates := rates_list |};
        birth_place := ((inborn_total st, inborn_deaths st),
                        (outborn_total st, outborn_deaths st));
        location_analysis :=
          map (fun kv => (fst kv, (snd kv,
                                   counter_get (fst kv) (location_deaths st))))
              (location_totals st);
        kmc_stability := ((kmc_stable_total st, kmc_stable_deaths st),
                          (kmc_unstable_total st, kmc_unstable_deaths st));
        neonatal_vs_infant := (neonatal_deaths st, infant_deaths st) |}.

(** ** calculate_nurse_activity *)

Record nurse_row : Type := {
  nurseName : pyval;
  hospital : pyval;
  followUps : nat;
  discharges : nat;
  registrations : nat
}.

(** [nurse_analysis], keyed by [f"{nurse_name}|{hospital}"] *)
Definition nurse_table : Type := list (string * nurse_row).

Record discharge_counts : Type := {
  discharge_collection : nat;
  baby_collection : nat;
  babybackup_collection : nat
}.

Definition nurse_key (nurse_name hospital : pyval) : string :=
  (py_str nurse_name ++ "|" ++ py_str hospital)%string.

Fixpoint nurse_find (key : string) (t : nurse_table) : option nurse_row :=
  match t with
  | [] => None
  | (k, r) :: rest => if k =? key then Some r else nurse_find key rest
  end.

(** [if key not in nurse_analysis: nurse_analysis[key] = {...}] *)
Definition nurse_ensure (key : string) (nurse_name hospital : pyval)
    (t : nurse_table) : nurse_table :=
  match nurse_find key t with
  | Some _ => t
  | None =>
      t ++ [(key, {| nurseName := nurse_name; hospital := hospital;
                     followUps := 0; discharges := 0; registrations := 0 |})]
  end.

Fixpoint nurse_update (key : string) (f : nurse_row -> nurse_row)
    (t : nurse_table) : nurse_table :=
  match t with
  | [] => []
  | (k, r) :: rest =>
      if k =? key then (k, f r) :: rest else (k, r) :: nurse_update key f rest
  end.

Definition add_followUp (r : nurse_row) : nurse_row :=
  {| nurseName := nurseName r; hospital := hospital r;
     followUps := S (followUps r); discharges := discharges r;
     registrations := registrations r |}.

Definition add_discharge (r : nurse_row) : nurse_row :=
  {| nurseName := nurseName r; hospital := hospital r;
     followUps := followUps r; discharges := S (discharges r);
     registrations := registrations r |}.

Definition add_registration (r : nurse_row) : nurse_row :=
  {| nurseName := nurseName r; hospital := hospital r;
     followUps := followUps r; discharges := discharges r;
     registrations := S (registrations r) |}.

(** What the caller passes besides the records. *)
Record window : Type := {
  start_date : date;
  end_date : date;
  selected_hospitals : option (list pyval)
}.

(** [m and start_date <= m.date() <= end_date] *)
Definition dated_in_window (w : window) (m : option moment) : res bool :=
  m <- when_set m ;;
  match m with
  | Some m =>
      d <- moment_date m ;;
      Ok ((start_date w <=? d)%Z && (d <=? end_date w)%Z)
  | None => Ok false
  end.

(** [not selected_hospitals or hospital in selected_hospitals] *)
Definition hospital_selected (w : window) (hospital : pyval) : bool :=
  match selected_hospitals w with
  | None | Some [] => true
  | Some l => list_mem hospital l
  end.

Definition follow_up_numbers : list pyval :=
  [VInt 1; VInt 2; VInt 3; VInt 7; VInt 14; VInt 28].

(** The body of [for entry in follow_up_array]. *)
Definition followup_entry_step (w : window) (key : string) (hospital : pyval)
    (t : nurse_table) (item : pyval) : res nurse_table :=
  match item with
  | VDict entry =>
      if list_mem (get entry "followUpNumber") follow_up_numbers then
        f_date <- convert_unix_to_datetime
                    (py_or (get entry "date") (get entry "followUpDate")) ;;
        dated <- dated_in_window w f_date ;;
        if dated && hospital_selected w hospital
        then Ok (nurse_update key add_followUp t)
        else Ok t
      else Ok t
  | _ => Ok t
  end.

(** The body of the first loop, "Process Follow-ups". *)
Definition followup_step (w : window) (t : nurse_table) (baby : dict)
    : res nurse_table :=
  let follow_up_array := get_or baby "followUp" (VList []) in
  if negb (truthy follow_up_array) then Ok t
  else
    let nurse_name := get_or baby "nurseName" (VStr "Not specified") in
    let hospital := get_or baby "hospitalName" (VStr "Unknown") in
    if negb (py_eq_str nurse_name "Not specified") then
      let key := nurse_key nurse_name hospital in
      let t := nurse_ensure key nurse_name hospital t in
      entries <- py_iter follow_up_array ;;
      for_each (followup_entry_step w key hospital) entries t
    else Ok t.

(** The body of the second loop, "Process Registrations". *)
Definition registration_step (w : window) (t : nurse_table) (baby : dict)
    : res nurse_table :=
  let nurse_name := get_or baby "nurseName" (VStr "Not specified") in
  let hospital := get_or baby "hospitalName" (VStr "Unknown") in
  if negb (py_eq_str nurse_name "Not specified") then
    let key := nurse_key nurse_name hospital in
    let t := nurse_ensure key nurse_name hospital t in
    reg_date <- convert_unix_to_datetime (get baby "registrationDate") ;;
    dated <- dated_in_window w reg_date ;;
    if dated then Ok (nurse_update key add_registration t) else Ok t
  else Ok t.

(** The state of the three discharge loops. *)
Record discharge_walk : Type := {
  nurse_analysis : nurse_table;
  processed_discharge_uids : list pyval;
  counts : discharge_counts
}.

(** [not d_date or start_date <= d_date.date() <= end_date] *)
Definition date_admits (w : window) (d_date : option moment) : res bool :=
  d_date <- when_set d_date ;;
  match d_date with
  | None => Ok true
  | Some m =>
      d <- moment_date m ;;
      Ok ((start_date w <=? d)%Z && (d <=? end_date w)%Z)
  end.

(** What the three pools do once nurse, hospital and date are read: the
    [if nurse != 'Not specified'] block. *)
Definition credit_discharge (w : window) (uid nurse_name hospital : pyval)
    (d_date : option moment) (pool : discharge_counts -> discharge_counts)
    (st : discharge_walk) : res discharge_walk :=
  if negb (py_eq_str nurse_name "Not specified") then
    allowed <- date_admits w d_date ;;
    if allowed then
      if hospital_selected w hospital then
        let key := nurse_key nurse_name hospital in
        let t := nurse_ensure key nurse_name hospital (nurse_analysis st) in
        processed <- set_add uid (processed_discharge_uids st) ;;
        Ok {| nurse_analysis := nurse_update key add_discharge t;
              processed_discharge_uids := processed;
              counts := pool (counts st) |}
      else Ok st
    else Ok st
  else Ok st.

Definition count_discharge_collection (c : discharge_counts) :=
  {| discharge_collection := S (discharge_collection c);
     baby_collection := baby_collection c;
     babybackup_collection := babybackup_collection c |}.

Definition count_baby_collection (c : discharge_counts) :=
  {| discharge_collection := discharge_collection c;
     baby_collection := S (baby_collection c);
     babybackup_collection := babybackup_collection c |}.

Definition count_babybackup_collection (c : discharge_counts) :=
  {| discharge_collection := discharge_collection c;
     baby_collection := baby_collection c;
     babybackup_collection := S (babybackup_collection c) |}.

(** 1. Discharges collection *)
Definition discharge_pool_step (w : window) (st : discharge_walk)
    (discharge : dict) : res discharge_walk :=
  let uid := get discharge "UID" in
  if negb (truthy uid) then Ok st
  else
    seen <- set_mem uid (processed_discharge_uids st) ;;
    if seen then Ok st
    else
      let discharge_nurse :=
        get_or discharge "dischargeNurseName" (VStr "Not specified") in
      let hospital := get_or discharge "hospitalName" (VStr "Unknown") in
      discharge_date <-
        convert_unix_to_datetime (get discharge "dischargeDate") ;;
      credit_discharge w uid discharge_nurse hospital discharge_date
        count_discharge_collection st.

(** 2. Baby collection *)
Definition baby_pool_step (w : window) (st : discharge_walk) (baby : dict)
    : res discharge_walk :=
  if negb (py_eq_str (get baby "source") "baby") then Ok st
  else
    let uid := get baby "UID" in
    if negb (truthy uid) then Ok st
    else
      seen <- set_mem uid (processed_discharge_uids st) ;;
      if seen then Ok st
      else if truthy (get baby "discharged") then
        let nurse_name := get_or baby "nurseName" (VStr "Not specified") in
        let hospital := get_or baby "hospitalName" (VStr "Unknown") in
        d_date <- convert_unix_to_datetime
                    (py_or (get baby "lastDischargeDate")
                           (get baby "dischargeDate")) ;;
        credit_discharge w uid nurse_name hospital d_date
          count_baby_collection st
      else Ok st.

(** 3. BabyBackUp collection *)
Definition backup_pool_step (w : window) (st : discharge_walk) (baby : dict)
    : res discharge_walk :=
  if negb (py_eq_str (get baby "source") "babyBackUp") then Ok st
  else
    let uid := get baby "UID" in
    if negb (truthy uid) then Ok st
    else
      seen <- set_mem uid (processed_discharge_uids st) ;;
      if seen then Ok st
      else if truthy (get baby "discharged") then
        let nurse_name := get_or baby "nurseName" (VStr "Not specified") in
        let hospital := get_or baby "hospitalName" (VStr "Unknown") in
        d_date <- convert_unix_to_datetime
                    (py_or (get baby "dischargeDate")
                           (get baby "lastDischargeDate")) ;;
        credit_discharge w uid nurse_name hospital d_date
          count_babybackup_collection st
      else Ok st.

Definition calculate_nurse_activity (baby_data discharge_data : list dict)
    (w : window) : res (nurse_table * discharge_counts) :=
  table <- for_each (followup_step w) baby_data [] ;;
  table <- for_each (registration_step w) baby_data table ;;
  let st := {| nurse_analysis := table;
               processed_discharge_uids := [];
               counts := {| discharge_collection := 0; baby_collection := 0;
                            babybackup_collection := 0 |} |} in
  st <- for_each (discharge_pool_step w) discharge_data st ;;
  st <- for_each (baby_pool_step w) baby_data st ;;
  st <- for_each (backup_pool_step w) baby_data st ;;
  Ok (nurse_analysis st, counts st).

(** ** Helpers of the two sandbox functions *)

(** [safe_div]: [n / d if d else 0.0] *)
Definition safe_div (n d : Q) : Q :=
  if negb (Qeq_bool d 0) then Qred (n / d) else 0.

Definition count (n : nat) : Q := inject_Z (Z.of_nat n).

(** [safe_div(n, d) * 100] *)
Definition safe_pct (n d : Q) : Q := Qred (safe_div n d * 100).

(** [v / 60.0]; an integer is turned into a float first, which one too
    large refuses. *)
Definition div_60 (v : pyval) : res Q :=
  match as_number v with
  | Some q =>
      match v, nearest_double q with
      | VInt _, None => Raise OverflowError
      | _, _ => Ok (Qred (q / 60))
      end
  | None => Raise TypeError
  end.

(** [v > 0] *)
Definition gt_zero (v : pyval) : res bool :=
  match as_number v with
  | Some q => Ok (Qltb 0 q)
  | None => Raise TypeError
  end.

(** [max(a, b)] keeps [a] unless [b > a]. *)
Definition py_max (a b : Q) : Q := if Qltb a b then b else a.

(** [defaultdict(float)] keyed by [(bid, date)] *)
Definition daykey : Type := (pyval * date)%type.
Definition daymap : Type := list (daykey * Q).

Definition daykey_eqb (a b : daykey) : bool :=
  py_eqb (fst a) (fst b) && (snd a =? snd b)%Z.

Fixpoint daymap_find (k : daykey) (m : daymap) : option Q :=
  match m with
  | [] => None
  | (k', v) :: t => if daykey_eqb k k' then Some v else daymap_find k t
  end.

(** [m[k]] and [m.get(k, 0)]: a missing key reads as zero *)
Definition daymap_get (k : daykey) (m : daymap) : Q :=
  match daymap_find k m with Some v => v | None => 0 end.

Fixpoint daymap_set (k : daykey) (v : Q) (m : daymap) : daymap :=
  match m with
  | [] => [(k, v)]
  | (k', v') :: t =>
      if daykey_eqb k k' then (k', v) :: t else (k', v') :: daymap_set k v t
  end.

(** [m[(bid, d)] += x] and [m[(bid, d)] = max(m[(bid, d)], x)]; the key
    is hashed first. *)
Definition daymap_add (bid : pyval) (d : date) (x : Q) (m : daymap)
    : res daymap :=
  if hashable bid
  then Ok (daymap_set (bid, d) (Qred (daymap_get (bid, d) m + x)) m)
  else Raise TypeError.

Definition daymap_max (bid : pyval) (d : date) (x : Q) (m : daymap)
    : res daymap :=
  if hashable bid
  then Ok (daymap_set (bid, d) (py_max (daymap_get (bid, d) m) x) m)
  else Raise TypeError.

(** The dates [curr], [curr + 1 day], ... the loop [while curr <= end]
    visits. *)
Definition days_from_to (curr fin : date) : list date :=
  map (fun i => (curr + Z.of_nat i)%Z) (seq 0 (Z.to_nat (fin - curr + 1))).

(** [date.max]; stepping past it is an [OverflowError]. *)
Definition DATE_MAX : date := date_of DATETIME_MAX.

(** [str(v).lower()] *)
Definition lower_str (v : pyval) : string := lower (py_str v).

(** The nested records of a baby under [field], with [UID] written on
    those [unlinked] says have no link to a baby: the records, and the
    baby as the writes leave it. *)
Definition link_nested (field : string) (unlinked : dict -> bool)
    (baby : dict) : res (dict * list dict) :=
  items <- py_iter (get_or baby field (VList [])) ;;
  linked <-
    for_each (fun acc item =>
                r <- as_dict item ;;
                Ok (acc ++ [if unlinked r
                            then set_item r "UID" (get baby "UID") else r]))
             items [] ;;
  match lookup field baby with
  | Some (VList _) => Ok (set_item baby field (VList (map VDict linked)), linked)
  | _ => Ok (baby, linked)
  end.

(** [for baby in eligible_babies: for r in baby.get(field, []): ...
    out.append(r)] *)
Definition collect_nested (field : string) (unlinked : dict -> bool)
    (st : list dict * list dict) (baby : dict)
    : res (list dict * list dict) :=
  let '(babies, out) := st in
  '(baby', linked) <- link_nested field unlinked baby ;;
  Ok (babies ++ [baby'], out ++ linked).

(** [for r in data: if (r.get('idBaby') or r.get('UID')) in eligible_ids:
    out.append(r)] *)
Definition keep_eligible (eligible_ids : list pyval) (out : list dict)
    (r : dict) : res (list dict) :=
  let r_uid := py_or (get r "idBaby") (get r "UID") in
  known <- set_mem r_uid eligible_ids ;;
  Ok (if known then out ++ [r] else out).

(** ** calculate_sandbox_system_metrics *)

Definition system_is_eligible (baby : dict) : res bool :=
  let weight := get baby "birthWeight" in
  let ga := get baby "gestationalAge" in
  let is_eligible := false in
  let is_eligible :=
    if truthy (get baby "babyInProgram") then true else is_eligible in
  is_eligible <-
    (if truthy weight then
       try_except
         (w <- py_float weight ;;
          Ok (if flt w (FFin 2500) then true else is_eligible))
         parse_handles
         (Ok is_eligible)
     else Ok is_eligible) ;;
  is_eligible <-
    (if negb is_eligible && truthy ga then
       try_except
         (g <- py_float ga ;;
          Ok (if fle g (FFin 36) then true else is_eligible))
         parse_handles
         (Ok is_eligible)
     else Ok is_eligible) ;;
  Ok is_eligible.

(** The body of the eligibility loop; the state is
    [(eligible_babies, eligible_ids)]. *)
Definition system_select (st : list dict * list pyval) (baby : dict)
    : res (list dict * list pyval) :=
  let '(eligible_babies, eligible_ids) := st in
  is_eligible <- system_is_eligible baby ;;
  if is_eligible then
    let uid := get baby "UID" in
    ids <- (if truthy uid then set_add uid eligible_ids
            else Ok eligible_ids) ;;
    Ok (eligible_babies ++ [baby], ids)
  else Ok st.

Definition system_unlinked (r : dict) : bool :=
  negb (truthy (get r "idBaby")) && negb (truthy (get r "UID")).

(** [eligible_followups] or [eligible_sessions]: from [data] when it is
    not empty, from the babies' own [field] otherwise. *)
Definition system_nested (field : string) (data : list dict)
    (eligible_babies : list dict) (eligible_ids : list pyval)
    : res (list dict * list dict) :=
  match data with
  | [] => for_each (collect_nested field system_unlinked) eligible_babies
            ([], [])
  | _ :: _ =>
      out <- for_each (keep_eligible eligible_ids) data [] ;;
      Ok (eligible_babies, out)
  end.

(** Metric 1: [placeOfDelivery] missing, or one of the labels of "here" *)
Definition system_inborn (b : dict) : bool :=
  let pod := lower_str (get_or b "placeOfDelivery" (VStr "")) in
  negb (truthy (VStr pod))
  || existsb (String.eqb pod) ["nan"; "none"; "null"; ""]
  || existsb (String.eqb pod) ["यह अस्पताल"; "this hospital"; "hospital"].

(** Metric 3, the body of the loop; [baby_days_details] is written and
    never read, its key a uid [eligible_ids] has hashed already. *)
Definition system_baby_days (now : datetime) (m3_baby_days : Z) (baby : dict)
    : res Z :=
  birth_date <- convert_unix_to_datetime (get baby "dateOfBirth") ;;
  discharge_date <-
    (if truthy (get baby "lastDischargeDate")
     then convert_unix_to_datetime (get baby "lastDischargeDate")
     else if truthy (get baby "dischargeDate")
     then convert_unix_to_datetime (get baby "dischargeDate")
     else Ok None) ;;
  birth_date <- when_set birth_date ;;
  days <-
    match birth_date with
    | Some birth_date =>
        now <- now_for now birth_date ;;
        end_date <- or_else discharge_date now ;;
        days <- moment_days end_date birth_date ;;
        Ok (Z.max 1 days)
    | None => Ok 0%Z
    end ;;
  Ok (m3_baby_days + days)%Z.

(** Metric 7, the body of the loop over [inborn_eligible] *)
Definition system_early_transfer (early_transfer_count : nat) (baby : dict)
    : res nat :=
  let d_type := lower_str (get_or baby "lastDischargeStatus" (VStr "")) in
  if contains "refer" d_type || contains "transfer" d_type then
    birth_dt <- convert_unix_to_datetime (get baby "dateOfBirth") ;;
    disch_dt <- convert_unix_to_datetime (get baby "lastDischargeDate") ;;
    birth_dt <- when_set birth_dt ;;
    match birth_dt with
    | Some birth_dt =>
        disch_dt <- when_set disch_dt ;;
        match disch_dt with
        | Some disch_dt =>
            hours <- moment_hours disch_dt birth_dt ;;
            Ok (if Qltb hours 24 then S early_transfer_count
                else early_transfer_count)
        | None => Ok early_transfer_count
        end
    | None => Ok early_transfer_count
    end
  else Ok early_transfer_count.

(** Metrics 9 to 12: [contact_counts] and [due_counts], keyed by the
    follow-up days 7, 14, 21 and 28. *)
Definition tally : Type := list (Z * nat).

Definition tally_init : tally := [(7, 0%nat); (14, 0%nat); (21, 0%nat); (28, 0%nat)].

Fixpoint tally_get (d : Z) (t : tally) : nat :=
  match t with
  | [] => 0%nat
  | (d', n) :: rest => if (d' =? d)%Z then n else tally_get d rest
  end.

(** [t[num] += 1] *)
Definition tally_bump (num : pyval) (t : tally) : tally :=
  map (fun dn => if py_eq_int num (fst dn) then (fst dn, S (snd dn)) else dn) t.

Definition system_followup_step (st : tally * tally) (f : dict)
    : res (tally * tally) :=
  let '(contact_counts, due_counts) := st in
  let num := get f "followUpNumber" in
  let status := lower_str (get_or f "followUpStatus" (VStr "")) in
  if hashable num then
    if existsb (fun dn => py_eq_int num (fst dn)) contact_counts then
      let due_counts := tally_bump num due_counts in
      if existsb (String.eqb status) ["completed"; "contacted"]
      then Ok (tally_bump num contact_counts, due_counts)
      else Ok (contact_counts, due_counts)
    else Ok st
  else Raise TypeError.

(** Metric 13, first loop: the sessions *)
Definition system_session_step (daily_kmc_map : daymap) (s : dict)
    : res daymap :=
  let bid := py_or (get s "idBaby") (get s "UID") in
  start <- convert_unix_to_datetime (get s "kmcStart") ;;
  duration <- div_60 (py_or (get s "kmcDuration") (VInt 0)) ;;
  if truthy bid then
    start <- when_set start ;;
    match start with
    | Some start =>
        d <- moment_date start ;;
        daymap_add bid d duration daily_kmc_map
    | None => Ok daily_kmc_map
    end
  else Ok daily_kmc_map.

(** Metric 13, second loop: one day aggregate of a baby *)
Definition system_day_step (bid : pyval) (daily_kmc_map : daymap)
    (item : pyval) : res daymap :=
  day <- as_dict item ;;
  let mins := get_or day "totalKMCToday" (VInt 0) in
  positive <- gt_zero mins ;;
  if positive then
    if truthy (get day "ageDayDate") then
      dt <- convert_unix_to_datetime (get day "ageDayDate") ;;
      match dt with
      | Some dt =>
          d <- moment_date dt ;;
          if hashable bid then
            hours <- div_60 mins ;;
            daymap_max bid d hours daily_kmc_map
          else Raise TypeError
      | None => Raise AttributeError
      end
    else Ok daily_kmc_map
  else Ok daily_kmc_map.

Definition system_days_of (daily_kmc_map : daymap) (baby : dict)
    : res daymap :=
  let bid := get baby "UID" in
  if negb (truthy bid) then Ok daily_kmc_map
  else
    days <- py_iter (get_or baby "age_days" (VList [])) ;;
    for_each (system_day_step bid) days daily_kmc_map.

(** [daily_kmc_map] as the two loops leave it *)
Definition system_daily_kmc_map (eligible_sessions eligible_babies : list dict)
    : res daymap :=
  daily_kmc_map <- for_each system_session_step eligible_sessions [] ;;
  for_each system_days_of eligible_babies daily_kmc_map.

Record kmc_bins (A : Type) : Type := {
  bin_0_2h : A;
  bin_2_8h : A;
  bin_8_12h : A;
  bin_12h_plus : A
}.
Arguments bin_0_2h {A}.
Arguments bin_2_8h {A}.
Arguments bin_8_12h {A}.
Arguments bin_12h_plus {A}.

(** The [if hours < 2 ... else] chain of the exposure loop *)
Definition bin_day (hours : Q) (b : kmc_bins nat) : kmc_bins nat :=
  if Qltb hours 2 then
    {| bin_0_2h := S (bin_0_2h b); bin_2_8h := bin_2_8h b;
       bin_8_12h := bin_8_12h b; bin_12h_plus := bin_12h_plus b |}
  else if Qle_bool 2 hours && Qltb hours 8 then
    {| bin_0_2h := bin_0_2h b; bin_2_8h := S (bin_2_8h b);
       bin_8_12h := bin_8_12h b; bin_12h_plus := bin_12h_plus b |}
  else if Qle_bool 8 hours && Qltb hours 12 then
    {| bin_0_2h := bin_0_2h b; bin_2_8h := bin_2_8h b;
       bin_8_12h := S (bin_8_12h b); bin_12h_plus := bin_12h_plus b |}
  else
    {| bin_0_2h := bin_0_2h b; bin_2_8h := bin_2_8h b;
       bin_8_12h := bin_8_12h b; bin_12h_plus := S (bin_12h_plus b) |}.

(** Metric 13, third loop: the days of one baby from birth to discharge
    or now; the state is [(kmc_days_bins, total_analyzed_days)]. *)
Definition system_exposure (now : datetime) (daily_kmc_map : daymap)
    (st : kmc_bins nat * nat) (baby : dict) : res (kmc_bins nat * nat) :=
  let bid := get baby "UID" in
  birth_dt <- convert_unix_to_datetime (get baby "dateOfBirth") ;;
  discharge_dt <-
    convert_unix_to_datetime
      (py_or (get baby "lastDischargeDate") (get baby "dischargeDate")) ;;
  birth_dt <- when_set birth_dt ;;
  match birth_dt with
  | None => Ok st
  | Some birth_dt =>
      now <- now_for now birth_dt ;;
      end_dt <- or_else discharge_dt now ;;
      curr <- moment_date birth_dt ;;
      fin <- moment_date end_dt ;;
      match days_from_to curr fin with
      | [] => Ok st
      | days =>
          if hashable bid then
            if (fin =? DATE_MAX)%Z then Raise OverflowError
            else
              Ok (fold_left
                    (fun acc d =>
                       (bin_day (daymap_get (bid, d) daily_kmc_map) (fst acc),
                        S (snd acc)))
                    days st)
          else Raise TypeError
      end
  end.

Record system_metrics : Type := {
  m1_registered : nat;
  m2_admitted : nat;
  m3_baby_days : Z;
  m4_identified : nat;
  m5_coverage_pct : Q;
  m5_coverage_num : nat;
  m5_coverage_denom : nat;
  m6_completeness_pct : Q;
  m6_completeness_num : nat;
  m6_completeness_denom : nat;
  m7_early_transfer_pct : Q;
  m7_early_transfer_num : nat;
  m7_early_transfer_denom : nat;
  m8_unstable_pct : Q;
  m8_unstable_num : nat;
  m8_unstable_denom : nat;
  m9_d7_pct : Q;
  m9_d7_num : nat;
  m9_d7_denom : nat;
  m10_d14_pct : Q;
  m10_d14_num : nat;
  m10_d14_denom : nat;
  m11_d21_pct : Q;
  m11_d21_num : nat;
  m11_d21_denom : nat;
  m12_d28_pct : Q;
  m12_d28_num : nat;
  m12_d28_denom : nat;
  m13_distribution : kmc_bins Q;
  m13_counts : kmc_bins nat;
  m13_total_days : nat;
  eligible_babies_list : list dict
}.

(** [discharge_data] is a parameter the function never reads; [now] is
    what [datetime.now()] answers during the call.  The loops read the
    babies as they came in: the [UID] written on nested records shows in
    [eligible_babies_list] only. *)
Definition calculate_sandbox_system_metrics (now : datetime)
    (baby_data discharge_data followup_data kmc_session_data : list dict)
    : res system_metrics :=
  '(eligible_babies, eligible_ids) <-
    for_each system_select baby_data ([], []) ;;
  '(babies1, eligible_followups) <-
    system_nested "followUp" followup_data eligible_babies eligible_ids ;;
  '(babies2, eligible_sessions) <-
    system_nested "kmc_sessions" kmc_session_data babies1 eligible_ids ;;
  let inborn_eligible := filter system_inborn eligible_babies in
  let m1_registered := List.length inborn_eligible in
  let m2_admitted := List.length eligible_babies in
  m3_baby_days <- for_each (system_baby_days now) eligible_babies 0%Z ;;
  let m4_identified := List.length eligible_babies in
  let m5_coverage := 100%Q in
  let program_registered :=
    filter (fun b => truthy (get b "babyInProgram")) eligible_babies in
  let m6_completeness_num := List.length program_registered in
  let m6_completeness_pct :=
    safe_pct (count m6_completeness_num) (count m4_identified) in
  early_transfer_count <-
    for_each system_early_transfer inborn_eligible 0%nat ;;
  let m7_early_transfer_pct :=
    safe_pct (count early_transfer_count) (count m1_registered) in
  let m8_unstable_pct := 0%Q in
  let unstable_24h_count := 0%nat in
  '(contact_counts, due_counts) <-
    for_each system_followup_step eligible_followups
      (tally_init, tally_init) ;;
  let pct_of d :=
    safe_pct (count (tally_get d contact_counts))
             (count (tally_get d due_counts)) in
  daily_kmc_map <- system_daily_kmc_map eligible_sessions eligible_babies ;;
  '(kmc_days_bins, total_analyzed_days) <-
    for_each (system_exposure now daily_kmc_map) eligible_babies
      ({| bin_0_2h := 0%nat; bin_2_8h := 0%nat; bin_8_12h := 0%nat;
          bin_12h_plus := 0%nat |}, 0%nat) ;;
  let share n := safe_pct (count n) (count total_analyzed_days) in
  Ok {| m1_registered := m1_registered;
        m2_admitted := m2_admitted;
        m3_baby_days := m3_baby_days;
        m4_identified := m4_identified;
        m5_coverage_pct := m5_coverage;
        m5_coverage_num := m4_identified;
        m5_coverage_denom := m1_registered;
        m6_completeness_pct := m6_completeness_pct;
        m6_completeness_num := m6_completeness_num;
        m6_completeness_denom := m4_identified;
        m7_early_transfer_pct := m7_early_transfer_pct;
        m7_early_transfer_num := early_transfer_count;
        m7_early_transfer_denom := m1_registered;
        m8_unstable_pct := m8_unstable_pct;
        m8_unstable_num := unstable_24h_count;
        m8_unstable_denom := m2_admitted;
        m9_d7_pct := pct_of 7%Z;
        m9_d7_num := tally_get 7 contact_counts;
        m9_d7_denom := tally_get 7 due_counts;
        m10_d14_pct := pct_of 14%Z;
        m10_d14_num := tally_get 14 contact_counts;
        m10_d14_denom := tally_get 14 due_counts;
        m11_d21_pct := pct_of 21%Z;
        m11_d21_num := tally_get 21 contact_counts;
        m11_d21_denom := tally_get 21 due_counts;
        m12_d28_pct := pct_of 28%Z;
        m12_d28_num := tally_get 28 contact_counts;
        m12_d28_denom := tally_get 28 due_counts;
        m13_distribution :=
          {| bin_0_2h := share (bin_0_2h kmc_days_bins);
             bin_2_8h := share (bin_2_8h kmc_days_bins);
             bin_8_12h := share (bin_8_12h kmc_days_bins);
             bin_12h_plus := share (bin_12h_plus kmc_days_bins) |};
        m13_counts := kmc_days_bins;
        m13_total_days := total_analyzed_days;
        eligible_babies_list := babies2 |}.

(** ** calculate_sandbox_program_metrics *)

(** A bare [except:] *)
Definition any_exception (e : exn) : bool := true.

Definition program_is_eligible (baby : dict) : res bool :=
  let weight := get baby "birthWeight" in
  let ga := get baby "gestationalAge" in
  let is_eligible := false in
  let is_eligible :=
    if truthy (get baby "babyInProgram") then true else is_eligible in
  is_eligible <-
    (if truthy weight then
       try_except
         (w <- py_float weight ;;
          Ok (if flt w (FFin 2500) then true else is_eligible))
         any_exception
         (Ok is_eligible)
     else Ok is_eligible) ;;
  is_eligible <-
    (if negb is_eligible && truthy ga then
       try_except
         (g <- py_float ga ;;
          Ok (if fle g (FFin 36) then true else is_eligible))
         any_exception
         (Ok is_eligible)
     else Ok is_eligible) ;;
  Ok is_eligible.

Definition program_select (st : list dict * list pyval) (baby : dict)
    : res (list dict * list pyval) :=
  let '(eligible_babies, eligible_ids) := st in
  is_eligible <- program_is_eligible baby ;;
  if is_eligible then
    let uid := get baby "UID" in
    ids <- (if truthy uid then set_add uid eligible_ids
            else Ok eligible_ids) ;;
    Ok (eligible_babies ++ [baby], ids)
  else Ok st.

Definition program_unlinked (r : dict) : bool := negb (truthy (get r "UID")).

Definition program_nested (field : string) (data : list dict)
    (eligible_babies : list dict) (eligible_ids : list pyval)
    : res (list dict * list dict) :=
  match data with
  | [] => for_each (collect_nested field program_unlinked) eligible_babies
            ([], [])
  | _ :: _ =>
      out <- for_each (keep_eligible eligible_ids) data [] ;;
      Ok (eligible_babies, out)
  end.

(** Metric 1: the babies with a session or a day of KMC *)
Definition program_kmc_session (babies_with_kmc : list pyval) (s : dict)
    : res (list pyval) :=
  positive <- gt_zero (py_or (get s "kmcDuration") (VInt 0)) ;;
  if positive
  then set_add (py_or (get s "idBaby") (get s "UID")) babies_with_kmc
  else Ok babies_with_kmc.

Definition program_kmc_day (uid : pyval) (babies_with_kmc : list pyval)
    (item : pyval) : res (list pyval) :=
  day <- as_dict item ;;
  positive <- gt_zero (get_or day "totalKMCToday" (VInt 0)) ;;
  if positive then set_add uid babies_with_kmc else Ok babies_with_kmc.

Definition program_kmc_baby (babies_with_kmc : list pyval) (baby : dict)
    : res (list pyval) :=
  days <- py_iter (get_or baby "age_days" (VList [])) ;;
  for_each (program_kmc_day (get baby "UID")) days babies_with_kmc.

(** Metric 2: [baby_first_kmc], the earliest start known for a baby *)
Definition first_kmc : Type := list (pyval * moment).

Fixpoint first_find (bid : pyval) (m : first_kmc) : option moment :=
  match m with
  | [] => None
  | (k, v) :: t => if py_eqb bid k then Some v else first_find bid t
  end.

Fixpoint first_set (bid : pyval) (v : moment) (m : first_kmc) : first_kmc :=
  match m with
  | [] => [(bid, v)]
  | (k, v') :: t =>
      if py_eqb bid k then (k, v) :: t else (k, v') :: first_set bid v t
  end.

(** [if bid not in m or start < m[bid]: m[bid] = start] *)
Definition first_note (bid : pyval) (start : moment) (m : first_kmc)
    : res first_kmc :=
  if hashable bid then
    match first_find bid m with
    | None => Ok (first_set bid start m)
    | Some known =>
        earlier <- moment_lt start known ;;
        Ok (if earlier then first_set bid start m else m)
    end
  else Raise TypeError.

Definition program_first_session (baby_first_kmc : first_kmc) (s : dict)
    : res first_kmc :=
  let bid := py_or (get s "idBaby") (get s "UID") in
  start <- convert_unix_to_datetime (get s "kmcStart") ;;
  if truthy bid then
    start <- when_set start ;;
    match start with
    | Some start => first_note bid start baby_first_kmc
    | None => Ok baby_first_kmc
    end
  else Ok baby_first_kmc.

Definition program_first_day (bid : pyval) (baby_first_kmc : first_kmc)
    (item : pyval) : res first_kmc :=
  day <- as_dict item ;;
  positive <- gt_zero (get_or day "totalKMCToday" (VInt 0)) ;;
  if positive then
    d <- convert_unix_to_datetime (get day "ageDayDate") ;;
    d <- when_set d ;;
    match d with
    | Some d => first_note bid d baby_first_kmc
    | None => Ok baby_first_kmc
    end
  else Ok baby_first_kmc.

Definition program_first_baby (baby_first_kmc : first_kmc) (baby : dict)
    : res first_kmc :=
  days <- py_iter (get_or baby "age_days" (VList [])) ;;
  for_each (program_first_day (get baby "UID")) days baby_first_kmc.

Definition program_init_24h (baby_first_kmc : first_kmc)
    (babies_init_24h : list pyval) (baby : dict) : res (list pyval) :=
  let bid := get baby "UID" in
  birth_dt <- convert_unix_to_datetime (get baby "dateOfBirth") ;;
  if hashable bid then
    match first_find bid baby_first_kmc with
    | Some first_kmc =>
        birth_dt <- when_set birth_dt ;;
        match birth_dt with
        | Some birth_dt =>
            hours <- moment_hours first_kmc birth_dt ;;
            if Qle_bool hours 24 then set_add bid babies_init_24h
            else Ok babies_init_24h
        | None => Ok babies_init_24h
        end
    | None => Ok babies_init_24h
    end
  else Raise TypeError.

(** Metric 3: [kmc_per_day] *)
Definition program_session_step (kmc_per_day : daymap) (s : dict)
    : res daymap :=
  let bid := py_or (get s "idBaby") (get s "UID") in
  start <- convert_unix_to_datetime (get s "kmcStart") ;;
  dur <- div_60 (py_or (get s "kmcDuration") (VInt 0)) ;;
  if truthy bid then
    start <- when_set start ;;
    match start with
    | Some start =>
        d <- moment_date start ;;
        daymap_add bid d dur kmc_per_day
    | None => Ok kmc_per_day
    end
  else Ok kmc_per_day.

Definition program_day_step (bid : pyval) (kmc_per_day : daymap)
    (item : pyval) : res daymap :=
  day <- as_dict item ;;
  let mins := get_or day "totalKMCToday" (VInt 0) in
  positive <- gt_zero mins ;;
  if positive then
    let d_ts := get day "ageDayDate" in
    if truthy d_ts then
      dt <- convert_unix_to_datetime d_ts ;;
      match dt with
      | Some dt =>
          d <- moment_date dt ;;
          if hashable bid then
            hours <- div_60 mins ;;
            daymap_max bid d hours kmc_per_day
          else Raise TypeError
      | None => Raise AttributeError
      end
    else Ok kmc_per_day
  else Ok kmc_per_day.

Definition program_days_of (kmc_per_day : daymap) (baby : dict)
    : res daymap :=
  let bid := get baby "UID" in
  days <- py_iter (get_or baby "age_days" (VList [])) ;;
  for_each (program_day_step bid) days kmc_per_day.

(** [kmc_per_day] as the two loops leave it *)
Definition program_kmc_per_day (eligible_sessions eligible_babies : list dict)
    : res daymap :=
  kmc_per_day <- for_each program_session_step eligible_sessions [] ;;
  for_each program_days_of eligible_babies kmc_per_day.

(** [total_baby_days]: the days of one baby from birth to discharge or
    now *)
Definition program_baby_days (now : datetime) (total_baby_days : nat)
    (baby : dict) : res nat :=
  birth_dt <- convert_unix_to_datetime (get baby "dateOfBirth") ;;
  birth_dt <- when_set birth_dt ;;
  match birth_dt with
  | None => Ok total_baby_days
  | Some birth_dt =>
      discharge_dt <-
        convert_unix_to_datetime
          (py_or (get baby "lastDischargeDate") (get baby "dischargeDate")) ;;
      now <- now_for now birth_dt ;;
      end_dt <- or_else discharge_dt now ;;
      curr <- moment_date birth_dt ;;
      fin <- moment_date end_dt ;;
      match days_from_to curr fin with
      | [] => Ok total_baby_days
      | days =>
          if (fin =? DATE_MAX)%Z then Raise OverflowError
          else Ok (total_baby_days + List.length days)%nat
      end
  end.

(** Metric 7: [(critical_count, discharged_alive_count)] *)
Definition program_critical (st : nat * nat) (baby : dict) : nat * nat :=
  let '(critical_count, discharged_alive_count) := st in
  let status := lower_str (get_or baby "lastDischargeStatus" (VStr "")) in
  if truthy (get baby "discharged") && negb (truthy (get baby "deadBaby"))
  then
    if negb (contains "refer" status) && negb (contains "transfer" status)
    then
      (if contains "critical" status then S critical_count
       else critical_count,
       S discharged_alive_count)
    else st
  else st.

(** Metrics 9 to 12: [(contacted, kmc, care)] for day 7 and for day 28 *)
Definition follow_tally : Type := (nat * nat * nat)%type.

Definition program_tally (f : dict) (t : follow_tally) : res follow_tally :=
  let '(contacted, kmc, care) := t in
  positive <-
    gt_zero (py_or (py_or (get f "kmcHoursCount") (get f "totalKMCTime"))
                   (VInt 0)) ;;
  Ok (S contacted,
      if positive then S kmc else kmc,
      if truthy (py_or (get f "readmitted") (get f "sickVisit"))
      then S care else care).

Definition program_followup_step (st : follow_tally * follow_tally)
    (f : dict) : res (follow_tally * follow_tally) :=
  let '(d7, d28) := st in
  let num := get f "followUpNumber" in
  let status := lower_str (get_or f "followUpStatus" (VStr "")) in
  if existsb (String.eqb status) ["completed"; "contacted"] then
    if py_eq_int num 1 || py_eq_int num 7 then
      d7 <- program_tally f d7 ;; Ok (d7, d28)
    else if py_eq_int num 2 || py_eq_int num 28 then
      d28 <- program_tally f d28 ;; Ok (d7, d28)
    else Ok st
  else Ok st.

Record program_metrics : Type := {
  m1_any_init_pct : Q;
  m1_any_init_num : nat;
  m1_any_init_den : nat;
  m2_init_24h_pct : Q;
  m2_init_24h_num : nat;
  m2_init_24h_den : nat;
  m3_mean_daily_kmc : Q;
  m4_days_12h_pct : Q;
  m4_days_12h_num : nat;
  m4_days_12h_den : nat;
  m5_exclusive_pct : Q;
  m5_exclusive_num : nat;
  m5_exclusive_den : nat;
  m6_hypo_pct : Q;
  m6_hypo_num : nat;
  m6_hypo_den : nat;
  m7_critical_pct : Q;
  m7_critical_num : nat;
  m7_critical_den : nat;
  m8_counselling_score : Q;
  m9_kmc_cont_d7_pct : Q;
  m9_kmc_cont_d7_num : nat;
  m9_kmc_cont_d7_den : nat;
  m10_kmc_cont_d28_pct : Q;
  m10_kmc_cont_d28_num : nat;
  m10_kmc_cont_d28_den : nat;
  m11_care_d7_pct : Q;
  m11_care_d7_num : nat;
  m11_care_d7_den : nat;
  m12_care_d28_pct : Q;
  m12_care_d28_num : nat;
  m12_care_d28_den : nat;
  m13_adverse_events : nat;
  program_eligible_babies_list : list dict
}.

(** [discharge_data], [feeding_data] and [observation_data] are
    parameters the function never reads. *)
Definition calculate_sandbox_program_metrics (now : datetime)
    (baby_data discharge_data followup_data kmc_session_data : list dict)
    : res program_metrics :=
  '(eligible_babies, eligible_ids) <-
    for_each program_select baby_data ([], []) ;;
  '(babies1, eligible_sessions) <-
    program_nested "kmc_sessions" kmc_session_data eligible_babies
      eligible_ids ;;
  '(babies2, eligible_followups) <-
    program_nested "followUp" followup_data babies1 eligible_ids ;;
  babies_with_kmc <- for_each program_kmc_session eligible_sessions [] ;;
  babies_with_kmc <-
    for_each program_kmc_baby eligible_babies babies_with_kmc ;;
  let m1_any_init_num := List.length babies_with_kmc in
  let m1_any_init_den := List.length eligible_babies in
  let m1_any_init_pct :=
    safe_pct (count m1_any_init_num) (count m1_any_init_den) in
  baby_first_kmc <- for_each program_first_session eligible_sessions [] ;;
  baby_first_kmc <-
    for_each program_first_baby eligible_babies baby_first_kmc ;;
  babies_init_24h <-
    for_each (program_init_24h baby_first_kmc) eligible_babies [] ;;
  let m2_init_24h_num := List.length babies_init_24h in
  let m2_init_24h_den := List.length eligible_babies in
  let m2_init_24h_pct :=
    safe_pct (count m2_init_24h_num) (count m2_init_24h_den) in
  kmc_per_day <- program_kmc_per_day eligible_sessions eligible_babies ;;
  let total_kmc_hours :=
    fold_left (fun acc kv => Qred (acc + snd kv)) kmc_per_day 0%Q in
  total_baby_days <-
    for_each (program_baby_days now) eligible_babies 0%nat ;;
  let m3_mean_daily_kmc := safe_div total_kmc_hours (count total_baby_days) in
  let days_with_12h :=
    List.length (filter (fun kv => Qle_bool 12 (snd kv)) kmc_per_day) in
  let m4_days_12h_pct :=
    safe_pct (count days_with_12h) (count total_baby_days) in
  let m5_exclusive_pct := 0%Q in
  let exclusive_days := 0%nat in
  let m6_hypo_pct := 0%Q in
  let m6_hypo_num := 0%nat in
  let m6_hypo_den := 0%nat in
  let '(critical_count, discharged_alive_count) :=
    fold_left program_critical eligible_babies (0%nat, 0%nat) in
  let m7_critical_pct :=
    safe_pct (count critical_count) (count discharged_alive_count) in
  let m8_counselling_score := 0%Q in
  '(d7, d28) <-
    for_each program_followup_step eligible_followups
      ((0%nat, 0%nat, 0%nat), (0%nat, 0%nat, 0%nat)) ;;
  let '(fu_d7_contacted, fu_d7_kmc, fu_d7_care) := d7 in
  let '(fu_d28_contacted, fu_d28_kmc, fu_d28_care) := d28 in
  let m13_adverse_events := 0%nat in
  Ok {| m1_any_init_pct := m1_any_init_pct;
        m1_any_init_num := m1_any_init_num;
        m1_any_init_den := m1_any_init_den;
        m2_init_24h_pct := m2_init_24h_pct;
        m2_init_24h_num := m2_init_24h_num;
        m2_init_24h_den := m2_init_24h_den;
        m3_mean_daily_kmc := m3_mean_daily_kmc;
        m4_days_12h_pct := m4_days_12h_pct;
        m4_days_12h_num := days_with_12h;
        m4_days_12h_den := total_baby_days;
        m5_exclusive_pct := m5_exclusive_pct;
        m5_exclusive_num := exclusive_days;
        m5_exclusive_den := total_baby_days;
        m6_hypo_pct := m6_hypo_pct;
        m6_hypo_num := m6_hypo_num;
        m6_hypo_den := m6_hypo_den;
        m7_critical_pct := m7_critical_pct;
        m7_critical_num := critical_count;
        m7_critical_den := discharged_alive_count;
        m8_counselling_score := m8_counselling_score;
        m9_kmc_cont_d7_pct := safe_pct (count fu_d7_kmc) (count fu_d7_contacted);
        m9_kmc_cont_d7_num := fu_d7_kmc;
        m9_kmc_cont_d7_den := fu_d7_contacted;
        m10_kmc_cont_d28_pct :=
          safe_pct (count fu_d28_kmc) (count fu_d28_contacted);
        m10_kmc_cont_d28_num := fu_d28_kmc;
        m10_kmc_cont_d28_den := fu_d28_contacted;
        m11_care_d7_pct := safe_pct (count fu_d7_care) (count fu_d7_contacted);
        m11_care_d7_num := fu_d7_care;
        m11_care_d7_den := fu_d7_contacted;
        m12_care_d28_pct :=
          safe_pct (count fu_d28_care) (count fu_d28_contacted);
        m12_care_d28_num := fu_d28_care;
        m12_care_d28_den := fu_d28_contacted;
        m13_adverse_events := m13_adverse_events;
        program_eligible_babies_list := babies2 |}.

End WithRuntime.

(** ** calculate_discharge_outcomes *)

(** [{baby.get('UID') for baby in baby_data if baby.get('UID')}] *)
Definition selected_baby_uids (baby_data : list dict) : res (list pyval) :=
  for_each (fun uids baby =>
              if truthy (get baby "UID") then set_add (get baby "UID") uids
              else Ok uids)
           baby_data [].

(** The [count] of each of the five categories; their [babies] lists stay
    empty. *)
Record outcome_counts : Type := {
  critical_home : nat;
  stable_home : nat;
  critical_referred : nat;
  died : nat;
  other : nat
}.

Definition outcome_counts_init : outcome_counts :=
  {| critical_home := 0; stable_home := 0; critical_referred := 0;
     died := 0; other := 0 |}.

(** [discharge_categories[category]['count'] += 1] *)
Definition count_outcome (c : outcome_counts) (category : string)
    : outcome_counts :=
  {| critical_home :=
       if category =? "critical_home" then S (critical_home c)
       else critical_home c;
     stable_home :=
       if category =? "stable_home" then S (stable_home c)
       else stable_home c;
     critical_referred :=
       if category =? "critical_referred" then S (critical_referred c)
       else critical_referred c;
     died := if category =? "died" then S (died c) else died c;
     other := if category =? "other" then S (other c) else other c |}.

(** [sum(cat['count'] for cat in discharge_categories.values())] *)
Definition outcome_sum (c : outcome_counts) : nat :=
  (critical_home c + stable_home c + critical_referred c + died c
   + other c)%nat.

(** The body of [for discharge in discharge_data]; the state is
    [(processed_uids, discharge_categories)]. *)
Definition outcome_step (selected : list pyval)
    (st : list pyval * outcome_counts) (discharge : dict)
    : res (list pyval * outcome_counts) :=
  let '(processed, discharge_categories) := st in
  let uid := get discharge "UID" in
  if negb (truthy uid) then Ok st
  else
    seen <- set_mem uid processed ;;
    if seen then Ok st
    else
      known <- set_mem uid selected ;;
      if negb known then Ok st
      else
        category <- categorize_discharge discharge "discharges" ;;
        Ok (processed ++ [uid], count_outcome discharge_categories category).

Record discharge_outcomes : Type := {
  categories : outcome_counts;
  total_discharged : nat;
  unique_babies_processed : nat
}.

Definition calculate_discharge_outcomes (baby_data discharge_data : list dict)
    : res discharge_outcomes :=
  selected <- selected_baby_uids baby_data ;;
  '(processed, discharge_categories) <-
    for_each (outcome_step selected) discharge_data
      ([], outcome_counts_init) ;;
  Ok {| categories := discharge_categories;
        total_discharged := outcome_sum discharge_categories;
        unique_babies_processed := List.length processed |}.

(** ** calculate_followup_metrics *)

Definition followup_requirements : list (string * Z) :=
  [("Follow up 2", 2); ("Follow up 7", 7); ("Follow up 14", 14);
   ("Follow up 28", 28)].

(** [{name: {'eligible': e, 'completed': c}}] of one hospital, and
    [hospital_stats], the hospitals in the order they were met *)
Definition followup_stats : Type := list (string * (nat * nat)).
Definition hospital_followups : Type := list (pyval * followup_stats).

Fixpoint hospital_find (hospital : pyval) (m : hospital_followups)
    : option followup_stats :=
  match m with
  | [] => None
  | (k, v) :: t => if py_eqb hospital k then Some v else hospital_find hospital t
  end.

Fixpoint hospital_put (hospital : pyval) (v : followup_stats)
    (m : hospital_followups) : hospital_followups :=
  match m with
  | [] => [(hospital, v)]
  | (k, v') :: t =>
      if py_eqb hospital k then (k, v) :: t
      else (k, v') :: hospital_put hospital v t
  end.

(** [stats[name]['eligible'] += 1] and [stats[name]['completed'] += 1] *)
Definition add_eligible (name : string) (stats : followup_stats)
    : followup_stats :=
  map (fun kv => if fst kv =? name
                 then (fst kv, (S (fst (snd kv)), snd (snd kv))) else kv)
      stats.

Definition add_completed (name : string) (stats : followup_stats)
    : followup_stats :=
  map (fun kv => if fst kv =? name
                 then (fst kv, (fst (snd kv), S (snd (snd kv)))) else kv)
      stats.

(** [for entry in followup_array: if entry.get('followUpNumber') ==
    number: ...; break]: whether the loop is left by the [break] *)
Fixpoint followup_made (number : Z) (entries : list pyval) : res bool :=
  match entries with
  | [] => Ok false
  | entry :: rest =>
      entry <- as_dict entry ;;
      if py_eq_int (get entry "followUpNumber") number then Ok true
      else followup_made number rest
  end.

(** The body of [for followup_name, req in followup_requirements.items()] *)
Definition requirement_step (followup_array : pyval) (stats : followup_stats)
    (req : string * Z) : res followup_stats :=
  let '(followup_name, number) := req in
  let stats := add_eligible followup_name stats in
  entries <- py_iter followup_array ;;
  made <- followup_made number entries ;;
  Ok (if made then add_completed followup_name stats else stats).

(** The body of [for baby in baby_data]; the state is
    [(processed_uids, hospital_stats)]. *)
Definition followup_baby_step (st : list pyval * hospital_followups)
    (baby : dict) : res (list pyval * hospital_followups) :=
  let '(processed, hospital_stats) := st in
  let uid := get baby "UID" in
  if negb (truthy uid) then Ok st
  else
    seen <- set_mem uid processed ;;
    if seen then Ok st
    else if py_eqb (get baby "deadBaby") (VBool true) then Ok st
    else
      let hospital := get_or baby "hospitalName" (VStr "Unknown") in
      if hashable hospital then
        let stats :=
          match hospital_find hospital hospital_stats with
          | Some stats => stats
          | None => map (fun req => (fst req, (0%nat, 0%nat)))
                        followup_requirements
          end in
        stats <- for_each
                   (requirement_step (get_or baby "followUp" (VList [])))
                   followup_requirements stats ;;
        Ok (processed ++ [uid], hospital_put hospital stats hospital_stats)
      else Raise TypeError.

Record followup_row : Type := {
  row_hospital : pyval;
  followup_type : string;
  eligible : nat;
  completed : nat;
  completion_rate : Q
}.

(** [followup_summary]: a row for every follow-up of every hospital with
    somebody eligible *)
Definition followup_summary_of (hospital_stats : hospital_followups)
    : list followup_row :=
  flat_map
    (fun hs =>
       flat_map
         (fun kv =>
            if (0 <? fst (snd kv))%nat then
              [{| row_hospital := fst hs;
                  followup_type := fst kv;
                  eligible := fst (snd kv);
                  completed := snd (snd kv);
                  completion_rate :=
                    Qred (count (snd (snd kv)) / count (fst (snd kv)) * 100)
               |}]
            else [])
         (snd hs))
    hospital_stats.

Record followup_metrics : Type := {
  followup_types : list string;
  total_eligible : nat;
  total_completed : nat;
  overall_completion_rate : pyval;
  hospital_summary : list followup_row;
  followup_babies_processed : nat
}.

(** [followup_data] is a parameter the function never reads. *)
Definition calculate_followup_metrics (followup_data baby_data : list dict)
    : res followup_metrics :=
  '(processed, hospital_stats) <-
    for_each followup_baby_step baby_data ([], []) ;;
  let followup_summary := followup_summary_of hospital_stats in
  let total_eligible :=
    fold_right (fun item n => (eligible item + n)%nat) 0%nat
               followup_summary in
  let total_completed :=
    fold_right (fun item n => (completed item + n)%nat) 0%nat
               followup_summary in
  Ok {| followup_types := map fst followup_requirements;
        total_eligible := total_eligible;
        total_completed := total_completed;
        overall_completion_rate :=
          if (0 <? total_eligible)%nat
          then VFloat (Qred (count total_completed / count total_eligible
                             * 100))
          else VInt 0;
        hospital_summary := followup_summary;
        followup_babies_processed := List.length processed |}.

(** ** calculate_skin_contact_metrics *)

(** The value of a number; the contacts kept are numbers. *)
Definition number_of (v : pyval) : Q :=
  match as_number v with Some q => q | None => 0 end.

(** The body of [for followup in followup_array]; the state is
    [baby_contacts]. *)
Definition contact_step (baby_contacts : list pyval) (followup : pyval)
    : list pyval :=
  match followup with
  | VDict followup =>
      let followup_number := get followup "followUpNumber" in
      if list_mem followup_number [VInt 2; VInt 7; VInt 14] then
        let skin_contact := get followup "numberSkinContact" in
        match as_number skin_contact with
        | Some q =>
            if truthy skin_contact && Qltb 0 q
            then baby_contacts ++ [skin_contact] else baby_contacts
        | None => baby_contacts
        end
      else baby_contacts
  | _ => baby_contacts
  end.

(** The body of [for baby in baby_data]; the state is
    [(total_babies, all_contacts)]. *)
Definition skin_contact_step (st : nat * list pyval) (baby : dict)
    : res (nat * list pyval) :=
  let '(total_babies, all_contacts) := st in
  let followup_array := get_or baby "followUp" (VList []) in
  if negb (truthy followup_array) then Ok st
  else
    followups <- py_iter followup_array ;;
    let baby_contacts := fold_left contact_step followups [] in
    if truthy (VList baby_contacts)
    then Ok (S total_babies, all_contacts ++ baby_contacts)
    else Ok st.

(** [min(l)] and [max(l)] of a list of numbers that is not empty: the
    first of the smallest, the first of the largest. *)
Definition py_min_of (first : pyval) (rest : list pyval) : pyval :=
  fold_left (fun cur x => if Qltb (number_of x) (number_of cur) then x
                          else cur)
            rest first.

Definition py_max_of (first : pyval) (rest : list pyval) : pyval :=
  fold_left (fun cur x => if Qltb (number_of cur) (number_of x) then x
                          else cur)
            rest first.

(** [sum(l)] of a list of integers *)
Definition sum_of (l : list pyval) : Q :=
  fold_left (fun acc x => Qred (acc + number_of x)) l 0%Q.

(** No float among the numbers: [True] and [False] are integers. *)
Definition whole (v : pyval) : bool :=
  match v with
  | VBool _ | VInt _ => true
  | _ => false
  end.

(** The integer 0, or a float *)
Inductive mean : Type :=
| NoMean
| Mean (f : pyfloat).

(** [sum(l) / len(l)] of a list of numbers that is not empty: of
    integers, the quotient of two integers, rounded once to the nearest
    double, or an [OverflowError] where there is none; with a float among
    them, what the interpreter's additions in doubles give. *)
Definition mean_of `{Runtime} (l : list pyval) : res mean :=
  if forallb whole l then
    match nearest_double (sum_of l / count (List.length l)) with
    | Some q => Ok (Mean (FFin q))
    | None => Raise OverflowError
    end
  else
    f <- float_mean l ;;
    Ok (Mean f).

Record skin_contact_metrics : Type := {
  total_babies_with_data : nat;
  average_skin_contact : mean;
  min_skin_contact : pyval;
  max_skin_contact : pyval
}.

Definition calculate_skin_contact_metrics `{Runtime} (baby_data : list dict)
    : res skin_contact_metrics :=
  '(total_babies, all_contacts) <-
    for_each skin_contact_step baby_data (0%nat, []) ;;
  match all_contacts with
  | [] =>
      Ok {| total_babies_with_data := 0;
            average_skin_contact := NoMean;
            min_skin_contact := VInt 0;
            max_skin_contact := VInt 0 |}
  | first :: rest =>
      average <- mean_of all_contacts ;;
      Ok {| total_babies_with_data := total_babies;
            average_skin_contact := average;
            min_skin_contact := py_min_of first rest;
            max_skin_contact := py_max_of first rest |}
  end.

(** ** calculate_discharged_babies_without_kmc *)

Record hospital_discharges : Type := {
  hospital_total_discharged : nat;
  without_kmc : nat;
  babies_without_kmc : list dict;
  percentage_without_kmc : pyval
}.

Definition discharges_by_hospital : Type := list (pyval * hospital_discharges).

Fixpoint discharges_find (hospital : pyval) (m : discharges_by_hospital)
    : option hospital_discharges :=
  match m with
  | [] => None
  | (k, v) :: t =>
      if py_eqb hospital k then Some v else discharges_find hospital t
  end.

(** [if hospital not in hospital_data: hospital_data[hospital] = {...}] *)
Definition discharges_ensure (hospital : pyval) (m : discharges_by_hospital)
    : discharges_by_hospital :=
  match discharges_find hospital m with
  | Some _ => m
  | None =>
      m ++ [(hospital, {| hospital_total_discharged := 0; without_kmc := 0;
                          babies_without_kmc := [];
                          percentage_without_kmc := VInt 0 |})]
  end.

Fixpoint discharges_update (hospital : pyval)
    (f : hospital_discharges -> hospital_discharges)
    (m : discharges_by_hospital) : discharges_by_hospital :=
  match m with
  | [] => []
  | (k, v) :: t =>
      if py_eqb hospital k then (k, f v) :: t
      else (k, v) :: discharges_update hospital f t
  end.

(** [for obs_day in ...: if obs_day.get('totalKMCtimeDay', 0) > 0:
    has_kmc = True; break] *)
Fixpoint had_kmc (days : list pyval) : res bool :=
  match days with
  | [] => Ok false
  | obs_day :: rest =>
      obs_day <- as_dict obs_day ;;
      positive <- gt_zero (get_or obs_day "totalKMCtimeDay" (VInt 0)) ;;
      if positive then Ok true else had_kmc rest
  end.

Record without_kmc_scan : Type := {
  scan_hospital_data : discharges_by_hospital;
  scan_total_discharged : nat;
  scan_total_without_kmc : nat
}.

(** The body of [for baby in baby_data]. *)
Definition without_kmc_step (discharged_uids : list pyval)
    (st : without_kmc_scan) (baby : dict) : res without_kmc_scan :=
  let uid := get baby "UID" in
  if negb (truthy uid) then Ok st
  else
    in_collection <- set_mem uid discharged_uids ;;
    let is_discharged :=
      in_collection || py_eqb (get baby "discharged") (VBool true) in
    if negb is_discharged then Ok st
    else
      let hospital := get_or baby "hospitalName" (VStr "Unknown") in
      if hashable hospital then
        let hospital_data :=
          discharges_update hospital
            (fun d => {| hospital_total_discharged :=
                           S (hospital_total_discharged d);
                         without_kmc := without_kmc d;
                         babies_without_kmc := babies_without_kmc d;
                         percentage_without_kmc := percentage_without_kmc d |})
            (discharges_ensure hospital (scan_hospital_data st)) in
        days <- py_iter (get_or baby "observationDay" (VList [])) ;;
        has_kmc <- had_kmc days ;;
        if negb has_kmc then
          let row :=
            [("UID", uid); ("hospitalName", hospital);
             ("birthWeight", get_or baby "birthWeight" (VStr "N/A"));
             ("dischargeDate",
              py_or (get baby "dischargeDate") (get baby "lastDischargeDate"))]
          in
          Ok {| scan_hospital_data :=
                  discharges_update hospital
                    (fun d => {| hospital_total_discharged :=
                                   hospital_total_discharged d;
                                 without_kmc := S (without_kmc d);
                                 babies_without_kmc :=
                                   babies_without_kmc d ++ [row];
                                 percentage_without_kmc :=
                                   percentage_without_kmc d |})
                    hospital_data;
                scan_total_discharged := S (scan_total_discharged st);
                scan_total_without_kmc := S (scan_total_without_kmc st) |}
        else
          Ok {| scan_hospital_data := hospital_data;
                scan_total_discharged := S (scan_total_discharged st);
                scan_total_without_kmc := scan_total_without_kmc st |}
      else Raise TypeError.

(** [(n / d) * 100 if d > 0 else 0], the [else] an integer *)
Definition percent_or_zero (n d : nat) : pyval :=
  if (0 <? d)%nat then VFloat (Qred (count n / count d * 100)) else VInt 0.

Record without_kmc_result : Type := {
  without_total_discharged : nat;
  total_without_kmc : nat;
  overall_percentage : pyval;
  without_hospital_data : discharges_by_hospital
}.

(** [convert_unix_to_datetime] is imported and not used. *)
Definition calculate_discharged_babies_without_kmc
    (baby_data discharge_data : list dict) : res without_kmc_result :=
  discharged_uids <- selected_baby_uids discharge_data ;;
  st <- for_each (without_kmc_step discharged_uids) baby_data
          {| scan_hospital_data := []; scan_total_discharged := 0;
             scan_total_without_kmc := 0 |} ;;
  let hospital_data :=
    map (fun kv =>
           (fst kv,
            if (0 <? hospital_total_discharged (snd kv))%nat then
              {| hospital_total_discharged :=
                   hospital_total_discharged (snd kv);
                 without_kmc := without_kmc (snd kv);
                 babies_without_kmc := babies_without_kmc (snd kv);
                 percentage_without_kmc :=
                   VFloat (Qred (count (without_kmc (snd kv))
                                 / count (hospital_total_discharged (snd kv))
                                 * 100)) |}
            else snd kv))
        (scan_hospital_data st) in
  Ok {| without_total_discharged := scan_total_discharged st;
        total_without_kmc := scan_total_without_kmc st;
        overall_percentage :=
          percent_or_zero (scan_total_without_kmc st)
                          (scan_total_discharged st);
        without_hospital_data := hospital_data |}.

(** ** calculate_death_rates: the discharge outcomes of the dead *)

(** The [babies] of the five categories of [discharge_outcomes_dead] *)
Definition outcome_babies : Type := list (string * list dict).

Definition outcome_babies_init : outcome_babies :=
  [("critical_home", []); ("stable_home", []); ("critical_referred", []);
   ("died", []); ("other", [])].

(** [discharge_outcomes_dead[category]['babies'].append(record)] *)
Definition file_baby (category : string) (record : dict) (m : outcome_babies)
    : outcome_babies :=
  map (fun kv => if fst kv =? category then (fst kv, snd kv ++ [record])
                 else kv)
      m.

Record dead_walk : Type := {
  processed_discharge_uids_dead : list pyval;
  dead_counts : outcome_counts;
  dead_filed : outcome_babies
}.

Definition dead_walk_init : dead_walk :=
  {| processed_discharge_uids_dead := [];
     dead_counts := outcome_counts_init;
     dead_filed := outcome_babies_init |}.

(** The three statements under the [if] of both loops *)
Definition file_dead (st : dead_walk) (uid : pyval) (category : string)
    (record : dict) : dead_walk :=
  {| processed_discharge_uids_dead := processed_discharge_uids_dead st ++ [uid];
     dead_counts := count_outcome (dead_counts st) category;
     dead_filed := file_baby category record (dead_filed st) |}.

(** The body of [for discharge in discharge_data] *)
Definition dead_discharge_step (dead_uids : list pyval) (st : dead_walk)
    (discharge : dict) : res dead_walk :=
  let uid := get discharge "UID" in
  dead <- set_mem uid dead_uids ;;
  if dead then
    seen <- set_mem uid (processed_discharge_uids_dead st) ;;
    if negb seen then
      category <- categorize_discharge discharge "discharges" ;;
      Ok (file_dead st uid category discharge)
    else Ok st
  else Ok st.

(** The body of the second [for baby in baby_data] *)
Definition dead_baby_step (dead_uids : list pyval) (st : dead_walk)
    (baby : dict) : res dead_walk :=
  let uid := get baby "UID" in
  dead <- set_mem uid dead_uids ;;
  if dead then
    seen <- set_mem uid (processed_discharge_uids_dead st) ;;
    if negb seen && truthy (get baby "discharged") then
      let source := get_or baby "source" (VStr "") in
      if py_eq_str source "baby" then
        category <- categorize_discharge baby "baby" ;;
        Ok (file_dead st uid category baby)
      else if py_eq_str source "babyBackUp" then
        category <- categorize_discharge baby "babyBackUp" ;;
        Ok (file_dead st uid category baby)
      else Ok st
    else Ok st
  else Ok st.

Record dead_outcomes : Type := {
  dead_categories : outcome_counts;
  dead_categories_babies : outcome_babies;
  dead_total_discharged : nat
}.

Section DeathRates.
Context `{RT : Runtime}.

(** The whole of [calculate_death_rates]: the figures of the pass over
    the babies, and [discharge_outcomes]. *)
Definition calculate_death_rates (baby_data discharge_data : list dict)
    : res (death_figures * dead_outcomes) :=
  st <- death_rates_scan baby_data ;;
  walk <- for_each (dead_discharge_step (dead_uids st)) discharge_data
            dead_walk_init ;;
  walk <- for_each (dead_baby_step (dead_uids st)) baby_data walk ;;
  figures <- death_rates_figures baby_data ;;
  Ok (figures,
      {| dead_categories := dead_counts walk;
         dead_categories_babies := dead_filed walk;
         dead_total_discharged := outcome_sum (dead_counts walk) |}).

End DeathRates.

End Metrics.

(* ================================================================== *)
(** * The design document, in its own words                            *)
(* ================================================================== *)

(** Definitions that follow the text of the design document, to be
    compared with the code above. *)
Module Design.
Import Utils Metrics Dashboard.

(** Temporal normalization of an instant given in microseconds since the
    epoch: read as UTC and moved to UTC+5:30; an instant the calendar
    cannot hold is absent. *)
Definition UTC_PLUS_5_30 : Z := (5 * 3600 + 30 * 60) * 1000000.

Definition normalized (utc : Z) : option datetime :=
  let civil := (utc + UTC_PLUS_5_30)%Z in
  if in_range utc && in_range civil then Some civil else None.

(** An integer too large to be turned into a float *)
Definition too_large (v : pyval) : bool :=
  match v with
  | VInt z =>
      match nearest_double (inject_Z z) with
      | Some _ => false
      | None => true
      end
  | _ => false
  end.

(** A stamp that is empty or a number: the date parser is not asked. *)
Definition plain_stamp (v : pyval) : bool :=
  negb (truthy v) || match as_number v with Some _ => true | None => false end.

(** Hierarchical field resolution: (a) the matched discharge record's
    field if present and not "N/A"; (b) the patient's legacy-named field;
    (c) "N/A". *)
Definition resolve_shadowed (discharge_field legacy_field : string)
    (baby : dict) (matching_discharge : option dict) : pyval :=
  let from_baby :=
    match lookup legacy_field baby with
    | Some v => v
    | None => VStr "N/A"
    end in
  match matching_discharge with
  | Some d =>
      match lookup discharge_field d with
      | Some v => if py_eq_str v "N/A" then from_baby else v
      | None => from_baby
      end
  | None => from_baby
  end.

(** The five discharge outcomes *)
Definition OUTCOMES : list string :=
  ["critical_home"; "stable_home"; "critical_referred"; "died"; "other"].

(** A field that is absent or holds text *)
Definition textual (record : dict) (field : string) : bool :=
  match lookup field record with
  | None | Some (VStr _) => true
  | Some _ => false
  end.

(** A record list with only the first of the records that share the uid
    [u] retained *)
Definition without_uid (u : pyval) (records : list dict) : list dict :=
  filter (fun r => negb (py_eqb (get r "UID") u)) records.

Fixpoint retain_first (u : pyval) (records : list dict) : list dict :=
  match records with
  | [] => []
  | r :: rest =>
      if py_eqb (get r "UID") u then r :: without_uid u rest
      else r :: retain_first u rest
  end.




(** A distribution of days over the four bins with no day in it *)
Definition no_share : kmc_bins Q :=
  {| bin_0_2h := 0%Q; bin_2_8h := 0%Q; bin_8_12h := 0%Q;
     bin_12h_plus := 0%Q |}.

(** A record whose uid is [u] is passed over in state [st]: [u] is empty,
    or a uid equal to it is among the processed ones. *)
Definition passes_over (u : pyval) (st : death_scan) : Prop :=
  truthy u = false \/
  existsb (fun p => py_eqb p u) (Metrics.processed_uids st) = true.

(** A record whose uid is [u] is passed over by a loop that has
    processed the uids [processed]. *)
Definition skipped_among (u : pyval) (processed : list pyval) : Prop :=
  truthy u = false \/ existsb (fun p => py_eqb p u) processed = true.

(** The two fields [categorize_discharge] reads for a source family *)
Definition status_field (source : string) : string :=
  if source =? "discharges" then "dischargeStatus" else "lastDischargeStatus".

Definition type_field (source : string) : string :=
  if source =? "discharges" then "dischargeType" else "lastDischargeType".

Definition SOURCES : list string := ["discharges"; "baby"; "babyBackUp"].

(** The text of a field that is absent or holds text *)
Definition text_of (record : dict) (field : string) : string :=
  match lookup field record with
  | Some (VStr s) => s
  | _ => ""
  end.

(** The four verification statuses *)
Definition VERIFICATION_STATUSES : list string :=
  ["correct"; "incorrect"; "unable_to_verify"; "not_verified"].

(** Every observation met so far is counted under one status and has its
    row. *)
Definition counted (st : Dashboard.verification_state) : Prop :=
  total_observations (Dashboard.stats st)
  = (correct (Dashboard.stats st) + incorrect (Dashboard.stats st)
     + unable_to_verify (Dashboard.stats st) + not_verified (Dashboard.stats st))%nat
  /\ List.length (Dashboard.detailed_data st) = total_observations (Dashboard.stats st)
  /\ Forall (fun row => In (row_status row) VERIFICATION_STATUSES)
            (Dashboard.detailed_data st).

(** The discharges credited over all the nurses of a table *)
Definition credited (t : nurse_table) : nat :=
  fold_right (fun kr n => (discharges (snd kr) + n)%nat) 0%nat t.

Definition counted_discharges (c : discharge_counts) : nat :=
  (discharge_collection c + baby_collection c + babybackup_collection c)%nat.

(** The discharges credited grow with the three counters of the walk. *)
Definition walk_balanced (base : nat) (st : discharge_walk) : Prop :=
  credited (nurse_analysis st) = (base + counted_discharges (counts st))%nat.

(** The days the four bins of the exposure distribution hold *)
Definition bin_total (b : kmc_bins nat) : nat :=
  (@bin_0_2h nat b + @bin_2_8h nat b + @bin_8_12h nat b
   + @bin_12h_plus nat b)%nat.

(** Two tallies over the same follow-up days, the first nowhere above the
    second *)
Definition tally_le (c d : tally) : Prop :=
  Forall2 (fun x y => fst x = fst y /\ (snd x <= snd y)%nat) c d.

(** The follow-ups counted for a day: those that kept up KMC and those
    that needed care are among those contacted. *)
Definition follow_tally_sound (t : follow_tally) : Prop :=
  let '(contacted, kmc, care) := t in
  (kmc <= contacted)%nat /\ (care <= contacted)%nat.

(** The follow-up statistics of one hospital: the four follow-ups in
    their order, each with its (eligible, completed). *)
Definition stats_of (p2 p7 p14 p28 : nat * nat) : followup_stats :=
  [("Follow up 2", p2); ("Follow up 7", p7); ("Follow up 14", p14);
   ("Follow up 28", p28)].

Definition stats_eligible (s : followup_stats) : nat :=
  fold_right (fun kv n => (fst (snd kv) + n)%nat) 0%nat s.

Definition stats_completed (s : followup_stats) : nat :=
  fold_right (fun kv n => (snd (snd kv) + n)%nat) 0%nat s.

Definition hospitals_eligible (m : hospital_followups) : nat :=
  fold_right (fun hs n => (stats_eligible (snd hs) + n)%nat) 0%nat m.

Definition hospitals_completed (m : hospital_followups) : nat :=
  fold_right (fun hs n => (stats_completed (snd hs) + n)%nat) 0%nat m.

(** The totals over the rows of a follow-up summary *)
Definition rows_eligible (rows : list followup_row) : nat :=
  fold_right (fun item n => (eligible item + n)%nat) 0%nat rows.

Definition rows_completed (rows : list followup_row) : nat :=
  fold_right (fun item n => (completed item + n)%nat) 0%nat rows.

(** Statistics in which nobody completed a follow-up without being
    eligible for it, and, for [stats_sound], somebody is eligible for
    each. *)
Definition stats_bounded (s : followup_stats) : Prop :=
  exists p2 p7 p14 p28,
    s = stats_of p2 p7 p14 p28 /\
    (snd p2 <= fst p2)%nat /\ (snd p7 <= fst p7)%nat /\
    (snd p14 <= fst p14)%nat /\ (snd p28 <= fst p28)%nat.

Definition stats_sound (s : followup_stats) : Prop :=
  exists p2 p7 p14 p28,
    s = stats_of p2 p7 p14 p28 /\
    (snd p2 <= fst p2)%nat /\ (snd p7 <= fst p7)%nat /\
    (snd p14 <= fst p14)%nat /\ (snd p28 <= fst p28)%nat /\
    (0 < fst p2)%nat /\ (0 < fst p7)%nat /\
    (0 < fst p14)%nat /\ (0 < fst p28)%nat.

(** The discharges filed under all the critical reasons, and what holds
    of every reason: its count is the number of its rows, it is not
    empty, and its rows carry it. *)
Definition reasons_total (m : critical_reasons) : nat :=
  fold_right (fun kv n => (fst (snd kv) + n)%nat) 0%nat m.

Definition reason_filed (kv : string * (nat * list dict)) : Prop :=
  fst (snd kv) = List.length (snd (snd kv)) /\
  fst kv <> "" /\
  Forall (fun row => get row "criticalReason" = VStr (fst kv))
         (snd (snd kv)).

(** No selection of hospitals or locations: [None] or an empty list *)
Definition no_selection (selected : option (list pyval)) : bool :=
  match selected with
  | None | Some [] => true
  | Some (_ :: _) => false
  end.

(** Keys of which no two are equal *)
Fixpoint distinct_keys (l : list pyval) : Prop :=
  match l with
  | [] => True
  | x :: t => existsb (py_eqb x) t = false /\ distinct_keys t
  end.

(** The five categories of discharge outcomes, each with as many babies
    filed as it counts *)
Definition outcomes_match (c : outcome_counts) (m : outcome_babies) : Prop :=
  exists l1 l2 l3 l4 l5,
    m = [("critical_home", l1); ("stable_home", l2);
         ("critical_referred", l3); ("died", l4); ("other", l5)] /\
    critical_home c = List.length l1 /\ stable_home c = List.length l2 /\
    critical_referred c = List.length l3 /\ died c = List.length l4 /\
    other c = List.length l5.

(** What the two loops over the dead keep true: the uids processed are
    distinct and are uids of dead babies, and each of them is counted
    and filed once. *)
Definition dead_walk_sound (dead : list pyval) (st : dead_walk) : Prop :=
  distinct_keys (processed_discharge_uids_dead st) /\
  Forall (fun u => existsb (py_eqb u) dead = true)
         (processed_discharge_uids_dead st) /\
  outcome_sum (dead_counts st)
  = List.length (processed_discharge_uids_dead st) /\
  outcomes_match (dead_counts st) (dead_filed st).

(** The entry of a hospital met for the first time *)
Definition FRESH_HOSPITAL : hospital_discharges :=
  {| hospital_total_discharged := 0; without_kmc := 0;
     babies_without_kmc := []; percentage_without_kmc := VInt 0 |}.

(** A figure summed over the hospitals of the babies discharged, and
    what holds of every hospital: somebody was discharged there, the
    babies without KMC are as many as are listed, and are among the
    discharged. *)
Definition summed (figure : hospital_discharges -> nat)
    (m : discharges_by_hospital) : nat :=
  fold_right (fun kv n => (figure (snd kv) + n)%nat) 0%nat m.

Definition hospital_sound (d : hospital_discharges) : Prop :=
  (0 < hospital_total_discharged d)%nat /\
  without_kmc d = List.length (babies_without_kmc d) /\
  (without_kmc d <= hospital_total_discharged d)%nat.

Definition without_kmc_sound (st : without_kmc_scan) : Prop :=
  Forall (fun kv => hospital_sound (snd kv)) (scan_hospital_data st) /\
  summed hospital_total_discharged (scan_hospital_data st)
  = scan_total_discharged st /\
  summed without_kmc (scan_hospital_data st) = scan_total_without_kmc st /\
  (scan_total_without_kmc st <= scan_total_discharged st)%nat.

(** A skin contact that is kept: a number above zero *)
Definition positive_number (v : pyval) : Prop :=
  exists q, as_number v = Some q /\ (0 < q)%Q.

(** What the pass of [calculate_death_rates] keeps true from baby to
    baby *)
Definition death_scan_sound (st : death_scan) : Prop :=
  let babies := List.length (Metrics.processed_uids st) in
  let dead := List.length (dead_uids st) in
  (inborn_total st + outborn_total st = babies)%nat /\
  (kmc_stable_total st + kmc_unstable_total st = babies)%nat /\
  (inborn_deaths st + outborn_deaths st = dead)%nat /\
  (kmc_stable_deaths st + kmc_unstable_deaths st = dead)%nat /\
  (neonatal_deaths st + infant_deaths st <= dead)%nat /\
  (inborn_deaths st <= inborn_total st)%nat /\
  (outborn_deaths st <= outborn_total st)%nat /\
  (kmc_stable_deaths st <= kmc_stable_total st)%nat /\
  (kmc_unstable_deaths st <= kmc_unstable_total st)%nat /\
  (forall x, existsb (py_eqb x) (dead_uids st) = true ->
             existsb (py_eqb x) (Metrics.processed_uids st) = true).

Section WithRuntime.
Context `{RT : Runtime}.

(** "parses to a number below / of at most": [float(v)] answers, and the
    answer compares so. *)
Definition parses_below (v : pyval) (bound : Q) : bool :=
  match py_float v with
  | Ok f => flt f (FFin bound)
  | Raise _ => false
  end.

Definition parses_at_most (v : pyval) (bound : Q) : bool :=
  match py_float v with
  | Ok f => fle f (FFin bound)
  | Raise _ => false
  end.


(** Sandbox eligibility as both functions decide it: a weight or an age
    that is zero or empty is not looked at. *)
Definition eligible_as_decided (baby : dict) : bool :=
  truthy (get baby "babyInProgram")
  || (truthy (get baby "birthWeight")
      && parses_below (get baby "birthWeight") 2500)
  || (truthy (get baby "gestationalAge")
      && parses_at_most (get baby "gestationalAge") 36).

(** Where [calculate_sandbox_system_metrics] gives up on a baby: the
    weight it looks at is an integer too large for a float, or, the baby
    not being eligible by then, the gestational age is. *)
Definition system_gives_up (baby : dict) : bool :=
  let weight := get baby "birthWeight" in
  let ga := get baby "gestationalAge" in
  (truthy weight && too_large weight)
  || (negb (truthy (get baby "babyInProgram")
            || (truthy weight && parses_below weight 2500))
      && truthy ga && too_large ga).

(** A stamp [convert_unix_to_datetime] turns into [None] or into a naive
    date-time of its own making, as it does every number and every empty
    value; what the date parser makes of a text may be neither. *)
Definition native (v : pyval) : bool :=
  match convert_unix_to_datetime v with
  | Ok None | Ok (Some (Naive _)) => true
  | _ => false
  end.

(** The naive date-time a stamp converts to *)
Definition naive_of (v : pyval) : option datetime :=
  match convert_unix_to_datetime v with
  | Ok (Some (Naive dt)) => Some dt
  | _ => None
  end.

(** The calendar day of a stamp that converts *)
Definition day_of (v : pyval) : option date :=
  match convert_unix_to_datetime v with
  | Ok (Some m) =>
      match moment_date m with
      | Ok d => Some d
      | Raise _ => None
      end
  | _ => None
  end.


(** The babies [calculate_registration_timeliness] looks at *)
Definition inborn (baby_data : list dict) : list dict :=
  filter (fun baby => list_mem (get baby "placeOfDelivery") THIS_HOSPITAL)
         baby_data.

(** Hours from birth to registration, when both stamps are there and
    parse *)
Definition registration_delay (baby : dict) : option Q :=
  match naive_of (get baby "dateOfBirth"), registration_stamp baby with
  | Some birth, Ok stamp =>
      match naive_of stamp with
      | Some reg => Some (hours_between reg birth)
      | None => None
      end
  | _, _ => None
  end.

(** An inborn baby of the bucket as the function fills it: a delay from
    zero to [bound] hours, both ends included *)
Definition in_bucket (bound : Q) (baby : dict) : bool :=
  match registration_delay baby with
  | Some d => Qle_bool 0 d && Qle_bool d bound
  | None => false
  end.

(** The bucket "within [bound] hours" as the design document has it:
    inclusive, a negative delay counted as it is. *)
Definition within_as_documented (bound : Q) (baby_data : list dict) : nat :=
  List.length
    (filter (fun baby =>
               match registration_delay baby with
               | Some d => Qle_bool d bound
               | None => false
               end)
            (inborn baby_data)).

(** The bucket as the function fills it: inclusive at both ends, from
    zero to [bound] hours. *)
Definition within_as_decided (bound : Q) (baby_data : list dict) : nat :=
  List.length (filter (in_bucket bound) (inborn baby_data)).

(** The nested registration record, when the stamp is read there, is a
    record. *)
Definition stamp_readable (baby : dict) : bool :=
  match registration_stamp baby with
  | Ok _ => true
  | Raise _ => false
  end.

(** The birth stamp of a baby, and its registration stamp where it can
    be read, are [native]. *)
Definition natively_stamped (baby : dict) : bool :=
  native (get baby "dateOfBirth")
  && match registration_stamp baby with
     | Ok stamp => native stamp
     | Raise _ => true
     end.

(** The hours a session adds to the day [k] of a patient: it has a
    patient, a start that parses, and falls on that day. *)
Definition session_hours (k : daykey) (s : dict) : option Q :=
  let bid := py_or (get s "idBaby") (get s "UID") in
  match convert_unix_to_datetime (get s "kmcStart"),
        div_60 (py_or (get s "kmcDuration") (VInt 0)) with
  | Ok start, Ok x =>
      if truthy bid then
        match when_set start with
        | Ok (Some start) =>
            match moment_date start with
            | Ok d => if daykey_eqb k (bid, d) then Some x else None
            | Raise _ => None
            end
        | _ => None
        end
      else None
  | _, _ => None
  end.

(** The session-derived total of the day [k], in hours *)
Definition session_total (k : daykey) (sessions : list dict) : Q :=
  fold_left (fun acc s =>
               match session_hours k s with
               | Some x => Qred (acc + x)
               | None => acc
               end)
            sessions 0%Q.

(** The hours a day aggregate of the patient [bid] reports for the day
    [k]: it is dated, and its date is that day. *)
Definition day_hours (k : daykey) (bid : pyval) (item : pyval) : option Q :=
  match item with
  | VDict day =>
      match day_of (get day "ageDayDate"),
            div_60 (get_or day "totalKMCToday" (VInt 0)) with
      | Some d, Ok h =>
          if truthy (get day "ageDayDate") && daykey_eqb k (bid, d)
          then Some h else None
      | _, _ => None
      end
  | _ => None
  end.

Definition day_hours_of (k : daykey) (bid : pyval) (items : list pyval)
    : list Q :=
  flat_map (fun item =>
              match day_hours k bid item with
              | Some h => [h]
              | None => []
              end)
           items.

(** The day aggregates the babies hold for the day [k], in hours *)
Definition day_aggregates (k : daykey) (babies : list dict) : list Q :=
  flat_map (fun baby =>
              match py_iter (get_or baby "age_days" (VList [])) with
              | Ok items => day_hours_of k (get baby "UID") items
              | Raise _ => []
              end)
           babies.

(** What a day aggregate of [h] hours does to the total of its day: the
    larger of the two, if it reports more than nothing. *)
Definition reconcile (total h : Q) : Q :=
  if Qltb 0 h then py_max total h else total.

(** KMC stability as [check_kmc_stability] decides it: one of the twelve
    flags equal to [True], or a weight (birth weight, else weight) that is
    not zero or empty and parses to less than 1500. *)
Definition INSTABILITY_FLAGS : list string :=
  ["oxygenTherapy"; "onOxygen"; "mechanicalVentilation"; "onVentilator";
   "sepsis"; "jaundice"; "hypoglycemia"; "hypothermia"; "apnea";
   "feedingDifficulty"; "lethargy"; "seizures"].

Definition unstable_as_decided (baby : dict) : bool :=
  existsb (fun flag => py_eqb (get baby flag) (VBool true)) INSTABILITY_FLAGS
  || (let birth_weight := py_or (get baby "birthWeight") (get baby "weight") in
      truthy birth_weight && parses_below birth_weight 1500).

(** The weight [check_kmc_stability] looks at is an integer too large
    for a float. *)
Definition weight_too_large (baby : dict) : bool :=
  let birth_weight := py_or (get baby "birthWeight") (get baby "weight") in
  truthy birth_weight && too_large birth_weight.

(** A record of the discharges collection that settles the discharge
    date of the baby [baby_uid]: it carries that uid and a date that
    converts. *)
Definition dated_for (baby_uid : pyval) (discharge : dict) : bool :=
  py_equal (get discharge "UID") baby_uid
  && match convert_unix_to_datetime (get discharge "dischargeDate") with
     | Ok (Some _) => true
     | _ => false
     end.

(** The discharge date the baby's own record gives: none unless the baby
    is marked discharged. *)
Definition own_discharge_date (baby : dict) : res (option moment) :=
  if truthy (get baby "discharged") then
    convert_unix_to_datetime
      (py_or (get baby "lastDischargeDate") (get baby "dischargeDate"))
  else Ok None.

(** The records of the discharges collection that carry the uid
    [baby_uid] have [native] discharge dates. *)
Definition natively_dated (baby_uid : pyval) (discharge_data : list dict)
    : bool :=
  forallb (fun discharge =>
             negb (py_equal (get discharge "UID") baby_uid)
             || native (get discharge "dischargeDate"))
          discharge_data.








End WithRuntime.
End Design.

(* ================================================================== *)
(** * Records to run the code on                                       *)
(* ================================================================== *)

Module Examples.
Import Utils Metrics.

(** [float] reads unsigned decimal digits and nothing else; no text is a
    date, and a list that holds a list is refused by the date parser, as
    [pandas.to_datetime([[1]], errors='coerce')] is with a [TypeError];
    floats are added from left to right. *)
Fixpoint digits_value (acc : Z) (s : string) : option Z :=
  match s with
  | EmptyString => Some acc
  | String c t =>
      let n := Z.of_N (N_of_ascii c) in
      if (48 <=? n)%Z && (n <=? 57)%Z
      then digits_value (acc * 10 + (n - 48)) t
      else None
  end.

Definition example_runtime : Runtime :=
  {| repr_other := fun _ => "";
     float_of_str := fun s =>
       match s with
       | EmptyString => None
       | _ => match digits_value 0 s with
              | Some z => Some (FFin (inject_Z z))
              | None => None
              end
       end;
     foreign := Empty_set;
     pd_to_datetime := fun v =>
       match v with
       | VList (VList _ :: _) => Raise TypeError
       | _ => Ok None
       end;
     foreign_bool := fun f => match f with end;
     foreign_date := fun f => match f with end;
     foreign_hours := fun _ _ => Raise TypeError;
     foreign_days := fun _ _ => Raise TypeError;
     foreign_lt := fun _ _ => Raise TypeError;
     foreign_now := fun f _ => match f with end;
     float_mean := fun l =>
       let total :=
         fold_left (fun acc x => rounded (acc + number_of x)) l 0%Q in
       Ok (FFin (rounded (total / count (List.length l)))) |}.

(** 2023-11-14T22:13:20Z *)
Definition T0 : Z := 1700000000.

Definition hours (n : Z) : Z := n * 3600.

(** Born here at [T0], registered ten hours later *)
Definition prompt_baby : dict :=
  [("UID", VStr "b1"); ("placeOfDelivery", VStr "this hospital");
   ("dateOfBirth", VInt T0); ("registrationDate", VInt (T0 + hours 10))].

(** An inborn baby who died fifteen days old *)
Definition dead_baby : dict :=
  [("UID", VStr "d1"); ("deadBaby", VBool true);
   ("placeOfDelivery", VStr "this hospital");
   ("dateOfBirth", VInt T0); ("dateOfDeath", VInt (T0 + hours 360))].

(** The same baby, once more in the list *)
Definition prompt_baby_again : dict :=
  [("UID", VStr "b1"); ("placeOfDelivery", VStr "this hospital");
   ("dateOfBirth", VInt T0); ("registrationDate", VInt (T0 + hours 10))].

(** Registered thirty hours after birth *)
Definition late_baby : dict :=
  [("UID", VStr "b2"); ("placeOfDelivery", VStr "यह अस्पताल");
   ("dateOfBirth", VInt T0);
   ("registrationDataType",
    VDict [("registrationDate", VInt (T0 + hours 30))])].

(** Registered an hour before the recorded birth *)
Definition early_baby : dict :=
  [("UID", VStr "b3"); ("placeOfDelivery", VStr "this hospital");
   ("dateOfBirth", VInt T0); ("registrationDate", VInt (T0 - hours 1))].

(** 2200 g, no gestational age, not enrolled *)
Definition light_baby : dict :=
  [("UID", VStr "b4"); ("birthWeight", VInt 2200)].

(** 3000 g, 40 weeks, not enrolled *)
Definition term_baby : dict :=
  [("UID", VStr "b5"); ("birthWeight", VInt 3000);
   ("gestationalAge", VInt 40)].


(** A discharge record whose status is null *)
Definition null_status_discharge : dict :=
  [("UID", VStr "b1"); ("dischargeStatus", VNone);
   ("dischargeType", VStr "home")].

(** One session of 90 minutes an hour after birth, and the day aggregate
    of the same day reporting 40 minutes *)
Definition kmc_session : dict :=
  [("idBaby", VStr "b4"); ("kmcStart", VInt (T0 + hours 1));
   ("kmcDuration", VInt 90)].

Definition kmc_baby : dict :=
  [("UID", VStr "b4"); ("birthWeight", VInt 2200); ("dateOfBirth", VInt T0);
   ("age_days",
    VList [VDict [("ageDayNumber", VInt 0);
                  ("ageDayDate", VInt (T0 + hours 2));
                  ("totalKMCToday", VInt 40)]])].

(** Fifty hours after the birth of [kmc_baby], on the clock of UTC+5:30 *)
Definition two_days_on : datetime := (T0 + hours 50 + 19800) * 1000000.

(** Two follow-ups of day 7, one of them made *)
Definition completed_followup : dict :=
  [("UID", VStr "b4"); ("followUpNumber", VInt 7);
   ("followUpStatus", VStr "Completed"); ("kmcHoursCount", VInt 3)].

Definition pending_followup : dict :=
  [("UID", VStr "b4"); ("followUpNumber", VInt 7);
   ("followUpStatus", VStr "pending")].

(** An inborn baby whose nested registration record is null *)
Definition unregistered_baby : dict :=
  [("UID", VStr "b7"); ("placeOfDelivery", VStr "this hospital");
   ("dateOfBirth", VInt T0); ("registrationDataType", VNone)].

(** A baby marked discharged a day after birth, and two records of the
    discharges collection for it: the first undated, the second dated
    two days after birth *)
Definition discharged_baby : dict :=
  [("UID", VStr "b8"); ("discharged", VBool true);
   ("lastDischargeDate", VInt (T0 + hours 24));
   ("dischargeWeight", VInt 2400)].

Definition undated_record : dict :=
  [("UID", VStr "b8"); ("dischargeWeight", VInt 2500);
   ("dischargeStatus", VStr "Stable"); ("dischargeType", VStr "Home")].

Definition dated_record : dict :=
  [("UID", VStr "b8"); ("dischargeDate", VInt (T0 + hours 48));
   ("dischargeWeight", VInt 2600);
   ("dischargeStatus", VStr "Critical"); ("dischargeType", VStr "Referred")].

(** A baby followed up on days 2 and 7, and the same uid once more *)
Definition followed_baby : dict :=
  [("UID", VStr "f1"); ("hospitalName", VStr "H1");
   ("dateOfBirth", VInt T0);
   ("followUp",
    VList [VDict [("followUpNumber", VInt 2)];
           VDict [("followUpNumber", VInt 7)]])].

Definition followed_baby_again : dict :=
  [("UID", VStr "f1"); ("hospitalName", VStr "H2")].

(** Two discharges with a critical reason, one without *)
Definition septic_discharge : dict :=
  [("UID", VStr "c1"); ("criticalReasons", VStr " Sepsis ");
   ("hospitalName", VStr "H1")].

Definition septic_discharge_too : dict :=
  [("UID", VStr "c2"); ("criticalReasons", VStr "Sepsis")].

Definition plain_discharge : dict :=
  [("UID", VStr "c3"); ("criticalReasons", VStr "  ")].

(** The discharge record of [dead_baby], twice in the collection *)
Definition death_record : dict :=
  [("UID", VStr "d1"); ("dischargeStatus", VStr "Critical");
   ("dischargeType", VStr "Died")].

(** A baby discharged after a day of KMC, and one discharged without *)
Definition held_baby : dict :=
  [("UID", VStr "k1"); ("discharged", VBool true);
   ("hospitalName", VStr "H1");
   ("observationDay", VList [VDict [("totalKMCtimeDay", VInt 0)];
                             VDict [("totalKMCtimeDay", VInt 45)]])].

Definition unheld_baby : dict :=
  [("UID", VStr "k2"); ("hospitalName", VStr "H1");
   ("birthWeight", VInt 1900)].

Definition unheld_record : dict := [("UID", VStr "k2")].

(** Skin contacts reported at the follow-ups of days 2, 7 and 28 *)
Definition contact_baby : dict :=
  [("UID", VStr "s1");
   ("followUp",
    VList [VDict [("followUpNumber", VInt 2); ("numberSkinContact", VInt 3)];
           VDict [("followUpNumber", VInt 7);
                  ("numberSkinContact", VFloat 5)];
           VDict [("followUpNumber", VInt 28);
                  ("numberSkinContact", VInt 100)]])].

(** The day of both, on the clock of UTC+5:30 *)
Definition kmc_day : daykey :=
  (VStr "b4", date_of ((T0 + hours 1 + 19800) * 1000000)).

(** A window that holds one day long before any of the records *)
Definition remote_window : window :=
  {| start_date := 0; end_date := 0; selected_hospitals := None |}.


Definition fresh_walk : discharge_walk :=
  {| nurse_analysis := [];
     processed_discharge_uids := [];
     counts := {| discharge_collection := 0; baby_collection := 0;
                  babybackup_collection := 0 |} |}.

(** Discharged, by a nurse, on no recorded date: as a record of the
    discharges collection, and as a baby of either family *)
Definition undated_discharge : dict :=
  [("UID", VStr "b1"); ("dischargeNurseName", VStr "Asha");
   ("hospitalName", VStr "H1")].

Definition undated_baby : dict :=
  [("UID", VStr "b1"); ("source", VStr "baby"); ("discharged", VBool true);
   ("nurseName", VStr "Asha"); ("hospitalName", VStr "H1");
   ("lastDischargeDate", VStr "soon")].


(** A nurse's row, a follow-up on the day of [T0], a baby registered
    that day *)
Definition asha_table : nurse_table :=
  [("Asha|H1", {| nurseName := VStr "Asha"; hospital := VStr "H1";
                  followUps := 0; discharges := 0; registrations := 0 |})].


Definition registered_baby : dict :=
  [("UID", VStr "b1"); ("nurseName", VStr "Asha"); ("hospitalName", VStr "H1");
   ("registrationDate", VInt T0)].


(** Three observation days: one with a comment, one that could not be
    verified, one with nothing on it *)
Definition observed_baby : dict :=
  [("UID", VStr "b1");
   ("observationDay",
    VList [VDict [("mnecomment", VStr "needs review");
                  ("filledCorrectly", VBool true)];
           VDict [("kmcfilledcorrectly", VStr "Unable to check")];
           VDict [("ageDay", VInt 2)]])].

End Examples.

(* ================================================================== *)
(** * Properties                                                       *)
(* ================================================================== *)

Import Utils Metrics Dashboard Design Examples.

(** ** The error monad *)

Lemma bind_Ok {A B : Type} (c : res A) (k : A -> res B) (b : B) :
  bind c k = Ok b -> exists a, c = Ok a /\ k a = Ok b.
Proof.
  destruct c as [a | e]; simpl; intros H; [eauto | discriminate].
Qed.

Ltac bind_inv H :=
  let a := fresh "a" in
  let Ha := fresh "Ha" in
  apply bind_Ok in H; destruct H as [a [Ha H]].

Tactic Notation "bind_as" hyp(H) ident(a) ident(Ha) :=
  apply bind_Ok in H; destruct H as [a [Ha H]].


Lemma for_each_invariant {A S : Type} (P : S -> Prop) (f : S -> A -> res S)
    (l : list A) :
  (forall s x s', P s -> f s x = Ok s' -> P s') ->
  forall s s', P s -> for_each f l s = Ok s' -> P s'.
Proof.
  intros Hstep. induction l as [| x l IH]; intros s s' Hs H; simpl in H.
  - injection H as <-. exact Hs.
  - bind_as H s1 Hs1. exact (IH s1 s' (Hstep s x s1 Hs Hs1) H).
Qed.


(** ** Temporal normalization *)

Section Temporal.
Context `{RT : Runtime}.

Lemma fromtimestamp_seconds (z : Z) :
  fromtimestamp_utc (inject_Z z) =
  if in_range (z * US_PER_SECOND) then Ok (z * US_PER_SECOND)%Z
  else Raise ValueError.
Proof.
  unfold fromtimestamp_utc.
  assert (Hw : truncate (inject_Z z) = z).
  { unfold truncate, inject_Z; cbn [Qnum Qden]. apply Z.quot_1_r. }
  rewrite Hw.
  assert (Hf : rounded ((inject_Z z - inject_Z z) * inject_Z US_PER_SECOND)
               = 0%Q).
  { unfold rounded, nearest_double.
    replace (Qnum ((inject_Z z - inject_Z z) * inject_Z US_PER_SECOND))
      with 0%Z; [reflexivity |].
    unfold Qminus, Qplus, Qopp, Qmult, inject_Z; cbn [Qnum Qden]. lia. }
  rewrite Hf. change (round_half_even 0) with 0%Z.
  rewrite Z.add_0_r. reflexivity.
Qed.

(** A whole number of seconds written in milliseconds: the quotient by a
    thousand is that number, a double as long as it is below 2^53. *)
Lemma thousandth_whole (z : Z) :
  (0 < z < 2 ^ 53)%Z ->
  thousandth (inject_Z (z * 1000)) = Ok (inject_Z z).
Proof.
  intros Hz. unfold thousandth, nearest_double.
  assert (Hnum : Qnum (inject_Z (z * 1000) / 1000) = (z * 1000)%Z).
  { unfold Qdiv, Qmult, Qinv, inject_Z; cbn. lia. }
  assert (Hden : Qden (inject_Z (z * 1000) / 1000) = 1000%positive).
  { reflexivity. }
  rewrite Hnum, Hden.
  replace (Z.abs (z * 1000)) with (z * 1000)%Z by lia.
  replace (z * 1000 =? 0)%Z with false by (symmetry; apply Z.eqb_neq; lia).
  rewrite Z.mod_mul by discriminate.
  rewrite Z.div_mul by discriminate.
  replace (z <? 2 ^ 53)%Z with true by (symmetry; apply Z.ltb_lt; lia).
  reflexivity.
Qed.

Lemma Qltb_inject (a b : Z) : Qltb (inject_Z a) (inject_Z b) = (a <? b)%Z.
Proof.
  unfold Qltb, Qcompare, inject_Z; simpl. rewrite !Z.mul_1_r.
  unfold Z.ltb. reflexivity.
Qed.

Lemma normalize_seconds (z : Z) :
  try_except
    (utc_dt <- fromtimestamp_utc (inject_Z z) ;;
     ist_dt <- astimezone_naive utc_dt (timedelta_hm 5 30) ;;
     Ok (Some (Naive ist_dt : moment)))
    convert_handles (Ok None)
  = Ok (option_map (@Naive foreign) (normalized (z * 1000000))).
Proof.
  rewrite fromtimestamp_seconds. unfold normalized, US_PER_SECOND.
  destruct (in_range (z * 1000000)); simpl; [| reflexivity].
  unfold astimezone_naive, timedelta_hm, US_PER_SECOND, UTC_PLUS_5_30.
  destruct (in_range _); reflexivity.
Qed.

(** A whole number up to 1e12 is read as seconds. *)
Lemma convert_seconds (z : Z) :
  z <> 0%Z -> (z <= 1000000000000)%Z ->
  convert_unix_to_datetime (VInt z)
  = Ok (option_map (@Naive foreign) (normalized (z * 1000000))).
Proof.
  intros Hz Hle. unfold convert_unix_to_datetime; simpl.
  replace (z =? 0)%Z with false by (symmetry; apply Z.eqb_neq; exact Hz).
  simpl.
  change 1000000000000%Q with (inject_Z 1000000000000).
  rewrite Qltb_inject.
  replace (1000000000000 <? z)%Z with false
    by (symmetry; apply Z.ltb_ge; exact Hle).
  apply normalize_seconds.
Qed.

(** A whole number of seconds above 1e9, written in milliseconds, is read
    as milliseconds. *)
Lemma convert_milliseconds (z : Z) :
  (1000000000 < z < 2 ^ 53)%Z ->
  convert_unix_to_datetime (VInt (z * 1000))
  = Ok (option_map (@Naive foreign) (normalized (z * 1000000))).
Proof.
  intros Hz. unfold convert_unix_to_datetime; simpl.
  replace (z * 1000 =? 0)%Z with false by (symmetry; apply Z.eqb_neq; lia).
  simpl.
  change 1000000000000%Q with (inject_Z 1000000000000).
  rewrite Qltb_inject.
  replace (1000000000000 <? z * 1000)%Z with true
    by (symmetry; apply Z.ltb_lt; lia).
  rewrite thousandth_whole by lia. cbn [bind].
  apply normalize_seconds.
Qed.

Lemma convert_falsy (timestamp : pyval) :
  truthy timestamp = false -> convert_unix_to_datetime timestamp = Ok None.
Proof.
  intros H. unfold convert_unix_to_datetime. rewrite H. reflexivity.
Qed.

(** A number never makes [convert_unix_to_datetime] raise, and what it
    answers is [None] or a naive date-time. *)
Lemma convert_number (v : pyval) (t : Q) :
  as_number v = Some t ->
  convert_unix_to_datetime v = Ok None \/
  exists dt, convert_unix_to_datetime v = Ok (Some (Naive dt)).
Proof.
  intros Hn. unfold convert_unix_to_datetime.
  destruct (negb (truthy v)); [left; reflexivity |].
  rewrite Hn. cbv zeta.
  assert (E : forall secs,
             try_except
               (utc_dt <- fromtimestamp_utc secs ;;
                ist_dt <- astimezone_naive utc_dt (timedelta_hm 5 30) ;;
                Ok (Some (Naive ist_dt : moment)))
               convert_handles (Ok None) = Ok None \/
             exists dt,
               try_except
                 (utc_dt <- fromtimestamp_utc secs ;;
                  ist_dt <- astimezone_naive utc_dt (timedelta_hm 5 30) ;;
                  Ok (Some (Naive ist_dt : moment)))
                 convert_handles (Ok None) = Ok (Some (Naive dt : moment))).
  { intros secs. unfold fromtimestamp_utc, astimezone_naive.
    destruct (in_range _); simpl; [| left; reflexivity].
    destruct (in_range _); simpl; [right; eauto | left; reflexivity]. }
  destruct (Qltb 1000000000000 t); [| apply E].
  unfold thousandth. destruct (nearest_double (t / 1000)) as [secs |].
  - cbn [bind]. apply E.
  - left. reflexivity.
Qed.

Lemma plain_stamp_native (v : pyval) :
  plain_stamp v = true -> native v = true.
Proof.
  unfold plain_stamp, native. intros H.
  destruct (truthy v) eqn:Ht; cbn [negb orb] in H.
  - destruct (as_number v) as [t |] eqn:Hn; [| discriminate].
    destruct (convert_number v t Hn) as [-> | [dt ->]]; reflexivity.
  - rewrite (convert_falsy v Ht). reflexivity.
Qed.

(** What is neither empty nor a number is the date parser's: its answer,
    or its exception where the [except] clause does not list it. *)
Lemma convert_other (v : pyval) :
  truthy v = true -> as_number v = None ->
  convert_unix_to_datetime v
  = try_except
      (result <- pd_to_datetime v ;;
       Ok (option_map Foreign result))
      convert_handles (Ok None).
Proof.
  intros Ht Hn. unfold convert_unix_to_datetime. rewrite Ht, Hn; simpl.
  destruct (pd_to_datetime v) as [[f |] | e]; reflexivity.
Qed.

(** C7.  [convert_unix_to_datetime] lets through an exception of the
    date parser that is neither a [ValueError], an [OSError] nor an
    [OverflowError]: a value that is neither empty nor a number, and on
    which the parser raises a [TypeError], makes the function raise it,
    where the design document wants [None]. *)
Theorem convert_unix_to_datetime_lets_errors_through :
  forall (timestamp : pyval) (e : exn),
    truthy timestamp = true ->
    as_number timestamp = None ->
    pd_to_datetime timestamp = Raise e ->
    convert_handles e = false ->
    convert_unix_to_datetime timestamp = Raise e.
Proof.
  intros timestamp e Ht Hn Hp He.
  rewrite (convert_other timestamp Ht Hn), Hp. cbn [bind try_except].
  rewrite He. reflexivity.
Qed.

End Temporal.

(** [pandas.to_datetime([[1]], errors='coerce')] raises a [TypeError],
    and so does [convert_unix_to_datetime([[1]])]. *)
Lemma convert_unix_to_datetime_lets_errors_through_witness :
  @convert_unix_to_datetime example_runtime (VList [VList [VInt 1]])
  = Raise TypeError.
Proof.
  apply (@convert_unix_to_datetime_lets_errors_through example_runtime
           (VList [VList [VInt 1]]) TypeError); reflexivity.
Defined.

(** 2023-11-14T22:13:20Z in seconds and in milliseconds is 03:43:20 the
    next day at UTC+5:30; a second and a half after the epoch is
    05:30:01.5; zero, [None] and a text that does not parse are absent. *)
Example convert_unix_to_datetime_scenario :
  @convert_unix_to_datetime example_runtime (VInt 1700000000)
    = Ok (Some (Naive 1700019800000000%Z)) /\
  @convert_unix_to_datetime example_runtime (VInt 1700000000000)
    = Ok (Some (Naive 1700019800000000%Z)) /\
  @convert_unix_to_datetime example_runtime (VFloat (3 # 2))
    = Ok (Some (Naive 19801500000%Z)) /\
  @convert_unix_to_datetime example_runtime (VInt 0) = Ok None /\
  @convert_unix_to_datetime example_runtime VNone = Ok None /\
  @convert_unix_to_datetime example_runtime (VStr "soon") = Ok None.
Proof. repeat split; vm_compute; reflexivity. Qed.

(** ** Hierarchical field resolution *)

(** The shape the seven resolvers share. *)
Lemma prioritized_shape (dfield lfield : string) (baby : dict)
    (matching_discharge : option dict) :
  (let value :=
     match found matching_discharge with
     | Some d => get_or d dfield (VStr "N/A")
     | None => VStr "N/A"
     end in
   if py_eq_str value "N/A" then get_or baby lfield (VStr "N/A") else value)
  = resolve_shadowed dfield lfield baby matching_discharge.
Proof.
  unfold resolve_shadowed, get_or; cbv zeta.
  destruct matching_discharge as [[| kv d] |]; try reflexivity.
  change (found (Some (kv :: d))) with (Some (kv :: d)); cbv beta iota.
  destruct (lookup dfield (kv :: d)) as [v |]; [| reflexivity].
  destruct (py_eq_str v "N/A"); reflexivity.
Qed.

(** C5.  Each of the seven prioritized resolvers answers the matched
    discharge record's field when it is present and not "N/A", otherwise
    the patient record's legacy-named field, otherwise "N/A". *)
Theorem prioritized_resolvers_follow_priority :
  forall (baby : dict) (matching_discharge : option dict),
    get_prioritized_discharge_weight baby matching_discharge
      = resolve_shadowed "dischargeWeight" "dischargeWeight"
          baby matching_discharge /\
    get_prioritized_discharge_temperature baby matching_discharge
      = resolve_shadowed "dischargeTemperature" "babyTemperatureDischarge2"
          baby matching_discharge /\
    get_prioritized_discharge_rr baby matching_discharge
      = resolve_shadowed "dischargeRR" "babyRRdischarge"
          baby matching_discharge /\
    get_prioritized_feed_mode baby matching_discharge
      = resolve_shadowed "feedMode" "whatFeedMode"
          baby matching_discharge /\
    get_prioritized_baby_health baby matching_discharge
      = resolve_shadowed "dischargeDangerSigns" "howsBabyHealth"
          baby matching_discharge /\
    get_prioritized_critical_reasons baby matching_discharge
      = resolve_shadowed "criticalReasons" "criticalReasons"
          baby matching_discharge /\
    get_prioritized_discharge_reason baby matching_discharge
      = resolve_shadowed "dischargeReason" "dischargeReason"
          baby matching_discharge.
Proof.
  intros baby matching_discharge.
  refine (conj _ (conj _ (conj _ (conj _ (conj _ (conj _ _))))));
    apply prioritized_shape.
Qed.

(** With a discharge value and an embedded one the discharge value wins;
    take the discharge record away and the embedded one is back. *)
Example discharge_weight_precedence :
  let baby := [("UID", VStr "b1"); ("dischargeWeight", VInt 2100)] in
  let discharge := [("UID", VStr "b1"); ("dischargeWeight", VInt 2350)] in
  get_prioritized_discharge_weight baby (Some discharge) = VInt 2350 /\
  get_prioritized_discharge_weight baby None = VInt 2100 /\
  get_prioritized_discharge_weight [("UID", VStr "b1")] None = VStr "N/A".
Proof. repeat split. Qed.

(** ** Discharge outcome classification *)

Section Classification.
Context `{RT : Runtime}.

Lemma category_of_outcome (status type : string) :
  In (category_of status type) OUTCOMES.
Proof.
  unfold category_of, OUTCOMES.
  repeat match goal with
         | |- context [if ?b then _ else _] => destruct b
         end; simpl; auto 6.
Qed.

Lemma str_lower_textual (record : dict) (field : string) :
  textual record field = true ->
  exists s, get_or record field (VStr "") = VStr s.
Proof.
  unfold textual, get_or.
  destruct (lookup field record) as [[] |]; intros H;
    try discriminate; eauto.
Qed.

(** On records whose status and type are absent or text, the classifier
    answers one of the five outcomes, by the table of the design
    document. *)
Lemma categorize_discharge_textual (record : dict) (source : string)
    (status_field type_field : string) :
  (status_field, type_field) =
    (if source =? "discharges" then ("dischargeStatus", "dischargeType")
     else ("lastDischargeStatus", "lastDischargeType")) ->
  textual record status_field = true ->
  textual record type_field = true ->
  exists outcome,
    categorize_discharge record source = Ok outcome /\
    In outcome OUTCOMES /\
    (In source ["discharges"; "baby"; "babyBackUp"] ->
     forall s t,
       get_or record status_field (VStr "") = VStr s ->
       get_or record type_field (VStr "") = VStr t ->
       outcome = category_of (lower s) (lower t)).
Proof.
  intros Hfields Hs Ht.
  destruct (str_lower_textual _ _ Hs) as [s Es].
  destruct (str_lower_textual _ _ Ht) as [t Et].
  unfold categorize_discharge.
  destruct (source =? "discharges") eqn:E1.
  - injection Hfields as -> ->. rewrite Es, Et; simpl.
    eexists; split; [reflexivity |]. split; [apply category_of_outcome |].
    intros _ s' t' Hs' Ht'. congruence.
  - injection Hfields as -> ->. rewrite Es, Et.
    destruct (source =? "baby") eqn:E2; [| destruct (source =? "babyBackUp") eqn:E3].
    + simpl. eexists; split; [reflexivity |].
      split; [apply category_of_outcome |].
      intros _ s' t' Hs' Ht'. congruence.
    + simpl. eexists; split; [reflexivity |].
      split; [apply category_of_outcome |].
      intros _ s' t' Hs' Ht'. congruence.
    + eexists; split; [reflexivity |]. split; [simpl; auto 6 |].
      intros [H | [H | [H | []]]]; subst source; discriminate.
Qed.

(** C4.  A discharge record whose [dischargeStatus] is present and null
    (or any value that is not text) makes the classifier raise
    [AttributeError], where the design document wants [other]. *)
Theorem categorize_discharge_raises_on_null_status :
  categorize_discharge null_status_discharge "discharges"
  = Raise AttributeError.
Proof. reflexivity. Qed.

End Classification.

(** ** Verification status *)

Lemma comment_present_text (s : string) :
  strip s <> "" -> comment_present (VStr s) = Ok true.
Proof.
  intros Hs. unfold comment_present.
  assert (Hne : truthy (VStr s) = true).
  { destruct s; [exfalso; apply Hs; reflexivity | reflexivity]. }
  rewrite Hne. simpl.
  destruct (strip s); [congruence | reflexivity].
Qed.

(** C6.  A day whose [mnecomment] is text that is not empty once stripped
    of white space resolves to "incorrect" whatever [filledCorrectly] and
    [kmcfilledcorrectly] hold; a day with no comment (absent, null or
    empty) and neither flag set resolves to "not_verified". *)
Theorem comment_forces_incorrect :
  forall (obs_day : dict),
    (forall s,
        lookup "mnecomment" obs_day = Some (VStr s) ->
        strip s <> "" ->
        verification_status obs_day = Ok "incorrect") /\
    (truthy (get_or obs_day "mnecomment" (VStr "")) = false ->
     get obs_day "filledCorrectly" = VNone ->
     get obs_day "kmcfilledcorrectly" = VNone ->
     verification_status obs_day = Ok "not_verified").
Proof.
  intros obs_day; split.
  - intros s Hc Hs. unfold verification_status, get_or.
    rewrite Hc. rewrite (comment_present_text s Hs). reflexivity.
  - intros Hc Hf Hk. unfold verification_status.
    unfold comment_present. rewrite Hc, Hf, Hk. reflexivity.
Qed.

(** "needs review" with [filledCorrectly = True] is incorrect; a day with
    nothing on it is not verified. *)
Lemma comment_forces_incorrect_witness :
  verification_status
    [("mnecomment", VStr "needs review"); ("filledCorrectly", VBool true);
     ("kmcfilledcorrectly", VStr "correct")] = Ok "incorrect" /\
  verification_status [("ageDay", VInt 3)] = Ok "not_verified".
Proof.
  split.
  - apply (proj1 (comment_forces_incorrect _) "needs review").
    + reflexivity.
    + discriminate.
  - apply (proj2 (comment_forces_incorrect _)); reflexivity.
Defined.

(** ** Sandbox eligibility *)

Section Eligibility.
Context `{RT : Runtime}.

Lemma guarded_parse (handles : exn -> bool) (v : pyval)
    (test : pyfloat -> bool) (so_far : bool) :
  handles ValueError = true -> handles TypeError = true ->
  try_except (w <- py_float v ;; Ok (if test w then true else so_far))
             handles (Ok so_far)
  = if too_large v && negb (handles OverflowError) then Raise OverflowError
    else Ok (match py_float v with
             | Ok f => test f
             | Raise _ => false
             end || so_far).
Proof.
  intros HV HT.
  destruct v as [| b | z | q | s | l | d]; simpl;
    try (destruct (test _); reflexivity);
    try (rewrite HT; reflexivity).
  - destruct (nearest_double (inject_Z z)); simpl.
    + destruct (test _); reflexivity.
    + destruct (handles OverflowError); reflexivity.
  - destruct (float_of_str s); simpl.
    + destruct (test _); reflexivity.
    + rewrite HV. reflexivity.
Qed.

Lemma eligibility_shape (handles : exn -> bool) (baby : dict) :
  handles ValueError = true -> handles TypeError = true ->
  (let weight := get baby "birthWeight" in
   let ga := get baby "gestationalAge" in
   let is_eligible := false in
   let is_eligible :=
     if truthy (get baby "babyInProgram") then true else is_eligible in
   is_eligible <-
     (if truthy weight then
        try_except
          (w <- py_float weight ;;
           Ok (if flt w (FFin 2500) then true else is_eligible))
          handles (Ok is_eligible)
      else Ok is_eligible) ;;
   is_eligible <-
     (if negb is_eligible && truthy ga then
        try_except
          (g <- py_float ga ;;
           Ok (if fle g (FFin 36) then true else is_eligible))
          handles (Ok is_eligible)
      else Ok is_eligible) ;;
   Ok is_eligible)
  = if negb (handles OverflowError) && system_gives_up baby
    then Raise OverflowError
    else Ok (eligible_as_decided baby).
Proof.
  intros HV HT. cbv zeta.
  unfold system_gives_up, eligible_as_decided, parses_below, parses_at_most.
  destruct (truthy (get baby "birthWeight")).
  - rewrite (guarded_parse handles (get baby "birthWeight")
               (fun w => flt w (FFin 2500)) _ HV HT).
    destruct (too_large (get baby "birthWeight")) eqn:Hw;
      destruct (handles OverflowError) eqn:HO; cbn [negb andb orb bind];
      try reflexivity;
      destruct (match py_float (get baby "birthWeight") with
                | Ok f => flt f (FFin 2500)
                | Raise _ => false
                end);
      destruct (truthy (get baby "babyInProgram"));
      destruct (truthy (get baby "gestationalAge"));
      cbn [negb andb orb bind]; try reflexivity;
      rewrite (guarded_parse handles (get baby "gestationalAge")
                 (fun g => fle g (FFin 36)) _ HV HT);
      rewrite HO; cbn [negb]; rewrite ?andb_true_r, ?andb_false_r;
      rewrite ?orb_false_r;
      try reflexivity;
      destruct (too_large (get baby "gestationalAge")); reflexivity.
  - destruct (handles OverflowError) eqn:HO; cbn [negb andb orb bind];
      destruct (truthy (get baby "babyInProgram"));
      destruct (truthy (get baby "gestationalAge"));
      cbn [negb andb orb bind]; try reflexivity;
      rewrite (guarded_parse handles (get baby "gestationalAge")
                 (fun g => fle g (FFin 36)) _ HV HT);
      rewrite HO; cbn [negb]; rewrite ?andb_true_r, ?andb_false_r;
      rewrite ?orb_false_r;
      try reflexivity;
      destruct (too_large (get baby "gestationalAge")); reflexivity.
Qed.


End Eligibility.

(** 2200 g, no age, not enrolled: eligible.  3000 g, 40 weeks: not. *)
Example sandbox_eligibility_scenario :
  @system_is_eligible example_runtime light_baby = Ok true /\
  @program_is_eligible example_runtime light_baby = Ok true /\
  @system_is_eligible example_runtime term_baby = Ok false /\
  @program_is_eligible example_runtime term_baby = Ok false.
Proof. repeat split. Qed.


(** A birth weight of 2^1024 grams is no float: the one function raises,
    the other finds the patient not eligible. *)
Example overweight_is_an_error :
  @system_is_eligible example_runtime [("birthWeight", VInt (2 ^ 1024))]
  = Raise OverflowError /\
  @program_is_eligible example_runtime [("birthWeight", VInt (2 ^ 1024))]
  = Ok false.
Proof. split; vm_compute; reflexivity. Qed.

(** ** Registration timeliness *)

Section Timeliness.
Context `{RT : Runtime}.

Lemma Qle_bool_trans (a b c : Q) :
  Qle_bool a b = true -> Qle_bool b c = true -> Qle_bool a c = true.
Proof.
  rewrite !Qle_bool_iff. apply Qle_trans.
Qed.

Lemma native_cases (v : pyval) :
  native v = true ->
  (convert_unix_to_datetime v = Ok None /\ naive_of v = None) \/
  (exists dt,
      convert_unix_to_datetime v = Ok (Some (Naive dt)) /\
      naive_of v = Some dt).
Proof.
  unfold native, naive_of.
  destruct (convert_unix_to_datetime v) as [[[dt | f] |] | e];
    intros H; try discriminate; [right | left]; eauto.
Qed.

Lemma timeliness_step_counts (st : nat * nat) (baby : dict) :
  stamp_readable baby = true ->
  natively_stamped baby = true ->
  timeliness_step st baby =
  Ok (bump_if (in_bucket 24 baby) (fst st),
      bump_if (in_bucket 12 baby) (snd st)).
Proof.
  destruct st as [n24 n12].
  unfold stamp_readable, natively_stamped, timeliness_step, in_bucket,
    registration_delay.
  destruct (registration_stamp baby) as [stamp | e]; [| discriminate].
  intros _ H. apply andb_prop in H as [Hbirth Hreg].
  destruct (native_cases _ Hbirth) as [[-> ->] | [birth [-> ->]]];
    cbn [bind];
    destruct (native_cases _ Hreg) as [[E1 E2] | [reg [E1 E2]]];
    rewrite E1, ?E2;
    cbn [bind fst snd when_set is_set moment_hours]; try reflexivity.
  destruct (Qle_bool 0 (hours_between reg birth)) eqn:H0; cbn [andb];
    [| reflexivity].
  destruct (Qle_bool (hours_between reg birth) 12) eqn:H12.
  - assert (H24 : Qle_bool (hours_between reg birth) 24 = true).
    { apply (Qle_bool_trans _ 12); [assumption | reflexivity]. }
    rewrite H24. reflexivity.
  - destruct (Qle_bool (hours_between reg birth) 24); reflexivity.
Qed.

Lemma timeliness_loop (l : list dict) (st : nat * nat) :
  forallb stamp_readable l = true ->
  forallb natively_stamped l = true ->
  for_each timeliness_step l st =
  Ok ((fst st + List.length (filter (in_bucket 24) l))%nat,
      (snd st + List.length (filter (in_bucket 12) l))%nat).
Proof.
  revert st; induction l as [| baby l IH]; intros st H N; simpl.
  - rewrite !Nat.add_0_r. destruct st; reflexivity.
  - simpl in H, N. apply andb_prop in H as [Hb Hl].
    apply andb_prop in N as [Nb Nl].
    rewrite (timeliness_step_counts st baby Hb Nb); cbn [bind].
    rewrite (IH _ Hl Nl); cbn [fst snd].
    destruct (in_bucket 24 baby), (in_bucket 12 baby); simpl;
      rewrite ?Nat.add_succ_r; reflexivity.
Qed.

(** C2, as amended.  Over inborn babies whose registration stamp can be
    read and whose stamps are numbers or empty (or, more generally, are
    turned into [None] or a naive date-time), [within_24h_count] is the
    number of those whose birth and registration stamps both convert and
    whose delay in hours lies between 0 and 24, both ends included, and
    [within_12h_count] the number of those between 0 and 12: a delay of
    at most 12 hours is counted in both, a negative delay in neither. *)
Theorem registration_buckets :
  forall (baby_data : list dict),
    forallb stamp_readable (inborn baby_data) = true ->
    forallb natively_stamped (inborn baby_data) = true ->
    exists r,
      calculate_registration_timeliness baby_data = Ok r /\
      total_inborn r = List.length (inborn baby_data) /\
      within_24h_count r = within_as_decided 24 baby_data /\
      within_12h_count r = within_as_decided 12 baby_data /\
      (within_12h_count r <= within_24h_count r)%nat.
Proof.
  intros baby_data H N.
  unfold calculate_registration_timeliness.
  fold (inborn baby_data).
  rewrite (timeliness_loop _ _ H N); cbn [bind fst snd Nat.add].
  eexists; split; [reflexivity |]; cbn.
  repeat split.
  unfold in_bucket. clear H N.
  induction (inborn baby_data) as [| b l IH]; simpl; [lia |].
  destruct (registration_delay b) as [d |]; [| exact IH].
  destruct (Qle_bool 0 d); cbn [andb]; [| exact IH].
  destruct (Qle_bool d 12) eqn:H12.
  - assert (H24 : Qle_bool d 24 = true).
    { apply (Qle_bool_trans _ 12); [assumption | reflexivity]. }
    rewrite H24. simpl. lia.
  - destruct (Qle_bool d 24); simpl; lia.
Qed.

(** C8 for this function: no inborn baby, both percentages are the
    integer 0. *)
Lemma timeliness_zero_denominator (baby_data : list dict) (r : timeliness) :
  calculate_registration_timeliness baby_data = Ok r ->
  total_inborn r = 0%nat ->
  within_24h_percentage r = VInt 0 /\ within_12h_percentage r = VInt 0.
Proof.
  unfold calculate_registration_timeliness. intros H H0.
  bind_inv H. destruct a as [n24 n12]. injection H as <-.
  cbn in *. rewrite H0. split; reflexivity.
Qed.

End Timeliness.

(** Ten hours: in both buckets.  Thirty hours: in neither.  The counts
    and the percentages of the two together. *)
Lemma registration_buckets_witness :
  exists r,
    @calculate_registration_timeliness example_runtime
      [prompt_baby; late_baby] = Ok r /\
    total_inborn r = 2%nat /\
    within_24h_count r = 1%nat /\
    within_12h_count r = 1%nat /\
    (within_12h_count r <= within_24h_count r)%nat.
Proof.
  destruct (@registration_buckets example_runtime [prompt_baby; late_baby])
    as [r [Hr [Ht [H24 [H12 Hle]]]]].
  - reflexivity.
  - reflexivity.
  - exists r.
    refine (conj Hr (conj _ (conj _ (conj _ Hle)))).
    + rewrite Ht. reflexivity.
    + rewrite H24. reflexivity.
    + rewrite H12. reflexivity.
Defined.

(** C2, as stated, fails on a registration one hour before the recorded
    birth: the delay of -1 hour is at most 12 and at most 24, and the baby
    is counted in neither bucket. *)
Lemma negative_delay_is_not_counted :
  @within_as_documented example_runtime 24 [early_baby] = 1%nat /\
  @within_as_documented example_runtime 12 [early_baby] = 1%nat /\
  exists r,
    @calculate_registration_timeliness example_runtime [early_baby] = Ok r /\
    within_24h_count r = 0%nat /\
    within_12h_count r = 0%nat.
Proof.
  split; [reflexivity |]. split; [reflexivity |].
  eexists; split; [reflexivity |]. split; reflexivity.
Qed.

(** C1, as stated, fails on [calculate_registration_timeliness]: the same
    uid twice is counted twice. *)
Lemma registration_counts_duplicates :
  retain_first (VStr "b1") [prompt_baby; prompt_baby_again] = [prompt_baby] /\
  @calculate_registration_timeliness example_runtime
    [prompt_baby; prompt_baby_again]
  <> @calculate_registration_timeliness example_runtime
       (retain_first (VStr "b1") [prompt_baby; prompt_baby_again]).
Proof.
  split; [reflexivity |].
  intros H. vm_compute in H. discriminate H.
Qed.

(** ** Ratios with an empty denominator *)

Ltac split_pairs :=
  repeat match goal with
         | p : (_ * _)%type |- _ => destruct p
         end.

Ltac unbind H :=
  repeat (let a := fresh "a" in
          let Ha := fresh "Ha" in
          apply bind_Ok in H; destruct H as [a [Ha H]];
          split_pairs; cbv beta iota in H).

Lemma safe_div_zero (n : Q) : safe_div n 0 = 0%Q.
Proof. reflexivity. Qed.

Lemma safe_pct_zero (n : Q) : safe_pct n (count 0) = 0%Q.
Proof. reflexivity. Qed.

Section Ratios.
Context `{RT : Runtime}.

Lemma death_rates_zero_denominator (baby_data : list dict) (r : death_figures) :
  death_rates_figures baby_data = Ok r ->
  total_babies r = 0%nat -> mortality_rate r = VInt 0.
Proof.
  unfold death_rates_figures. intros H H0.
  bind_inv H. bind_as H all_hospitals Hh. injection H as <-.
  cbn in *. rewrite H0. reflexivity.
Qed.

Lemma system_zero_denominators (now : datetime)
    (baby_data discharge_data followup_data kmc_session_data : list dict)
    (r : system_metrics) :
  calculate_sandbox_system_metrics now baby_data discharge_data
    followup_data kmc_session_data = Ok r ->
  (m6_completeness_denom r = 0%nat -> m6_completeness_pct r = 0%Q) /\
  (m7_early_transfer_denom r = 0%nat -> m7_early_transfer_pct r = 0%Q) /\
  (m9_d7_denom r = 0%nat -> m9_d7_pct r = 0%Q) /\
  (m10_d14_denom r = 0%nat -> m10_d14_pct r = 0%Q) /\
  (m11_d21_denom r = 0%nat -> m11_d21_pct r = 0%Q) /\
  (m12_d28_denom r = 0%nat -> m12_d28_pct r = 0%Q) /\
  (m13_total_days r = 0%nat -> m13_distribution r = no_share).
Proof.
  unfold calculate_sandbox_system_metrics. intros H.
  unbind H. cbv zeta in H. injection H as <-.
  cbn [m6_completeness_denom m6_completeness_pct m7_early_transfer_denom
       m7_early_transfer_pct m9_d7_denom m9_d7_pct m10_d14_denom m10_d14_pct
       m11_d21_denom m11_d21_pct m12_d28_denom m12_d28_pct m13_total_days
       m13_distribution].
  repeat match goal with
         | |- _ /\ _ => split
         | |- _ = 0%nat -> _ => let E := fresh "E" in intros E; rewrite E
         end; reflexivity.
Qed.

Lemma program_zero_denominators (now : datetime)
    (baby_data discharge_data followup_data kmc_session_data : list dict)
    (r : program_metrics) :
  calculate_sandbox_program_metrics now baby_data discharge_data
    followup_data kmc_session_data = Ok r ->
  (m1_any_init_den r = 0%nat -> m1_any_init_pct r = 0%Q) /\
  (m2_init_24h_den r = 0%nat -> m2_init_24h_pct r = 0%Q) /\
  (m4_days_12h_den r = 0%nat ->
   m3_mean_daily_kmc r = 0%Q /\ m4_days_12h_pct r = 0%Q) /\
  (m7_critical_den r = 0%nat -> m7_critical_pct r = 0%Q) /\
  (m9_kmc_cont_d7_den r = 0%nat ->
   m9_kmc_cont_d7_pct r = 0%Q /\ m11_care_d7_pct r = 0%Q) /\
  (m10_kmc_cont_d28_den r = 0%nat ->
   m10_kmc_cont_d28_pct r = 0%Q /\ m12_care_d28_pct r = 0%Q).
Proof.
  unfold calculate_sandbox_program_metrics. intros H.
  unbind H. cbv zeta in H.
  destruct (fold_left program_critical _ _) as [critical alive].
  apply bind_Ok in H.
  destruct H as [[[[c7 k7] r7] [[c28 k28] r28]] [_ H]].
  injection H as <-.
  cbn [m1_any_init_den m1_any_init_pct m2_init_24h_den m2_init_24h_pct
       m4_days_12h_den m3_mean_daily_kmc m4_days_12h_pct m7_critical_den
       m7_critical_pct m9_kmc_cont_d7_den m9_kmc_cont_d7_pct m11_care_d7_pct
       m10_kmc_cont_d28_den m10_kmc_cont_d28_pct m12_care_d28_pct].
  repeat match goal with
         | |- _ /\ _ => split
         | |- _ = 0%nat -> _ => let E := fresh "E" in intros E; rewrite E
         end; reflexivity.
Qed.

(** C8, as amended.  Every ratio the aggregators work out by a division
    is exactly 0 when its denominator is 0: the two registration
    percentages and the mortality rate (the integer 0), and every
    percentage or mean the two sandbox functions get from [safe_div] (the
    float 0.0).  Nothing is said of the coverage percentage of the system
    metrics, which is not a division. *)
Theorem zero_denominator_gives_zero :
  forall (now : datetime)
         (baby_data discharge_data followup_data kmc_session_data : list dict),
    (forall n, safe_div n 0 = 0%Q) /\
    (forall r,
        calculate_registration_timeliness baby_data = Ok r ->
        total_inborn r = 0%nat ->
        within_24h_percentage r = VInt 0 /\
        within_12h_percentage r = VInt 0) /\
    (forall r,
        death_rates_figures baby_data = Ok r ->
        total_babies r = 0%nat -> mortality_rate r = VInt 0) /\
    (forall r,
        calculate_sandbox_system_metrics now baby_data discharge_data
          followup_data kmc_session_data = Ok r ->
        (m6_completeness_denom r = 0%nat -> m6_completeness_pct r = 0%Q) /\
        (m7_early_transfer_denom r = 0%nat ->
         m7_early_transfer_pct r = 0%Q) /\
        (m9_d7_denom r = 0%nat -> m9_d7_pct r = 0%Q) /\
        (m10_d14_denom r = 0%nat -> m10_d14_pct r = 0%Q) /\
        (m11_d21_denom r = 0%nat -> m11_d21_pct r = 0%Q) /\
        (m12_d28_denom r = 0%nat -> m12_d28_pct r = 0%Q) /\
        (m13_total_days r = 0%nat -> m13_distribution r = no_share)) /\
    (forall r,
        calculate_sandbox_program_metrics now baby_data discharge_data
          followup_data kmc_session_data = Ok r ->
        (m1_any_init_den r = 0%nat -> m1_any_init_pct r = 0%Q) /\
        (m2_init_24h_den r = 0%nat -> m2_init_24h_pct r = 0%Q) /\
        (m4_days_12h_den r = 0%nat ->
         m3_mean_daily_kmc r = 0%Q /\ m4_days_12h_pct r = 0%Q) /\
        (m7_critical_den r = 0%nat -> m7_critical_pct r = 0%Q) /\
        (m9_kmc_cont_d7_den r = 0%nat ->
         m9_kmc_cont_d7_pct r = 0%Q /\ m11_care_d7_pct r = 0%Q) /\
        (m10_kmc_cont_d28_den r = 0%nat ->
         m10_kmc_cont_d28_pct r = 0%Q /\ m12_care_d28_pct r = 0%Q)).
Proof.
  intros now baby_data discharge_data followup_data kmc_session_data.
  split; [exact safe_div_zero |].
  split; [intros r; apply timeliness_zero_denominator |].
  split; [intros r; apply death_rates_zero_denominator |].
  split; intros r.
  - apply system_zero_denominators.
  - apply program_zero_denominators.
Qed.

End Ratios.

(** No baby at all, and a baby nobody followed up: the ratios are 0. *)
Lemma zero_denominator_gives_zero_witness :
  (exists r,
      @calculate_registration_timeliness example_runtime [light_baby] = Ok r /\
      within_24h_percentage r = VInt 0 /\
      within_12h_percentage r = VInt 0) /\
  (exists r,
      @calculate_sandbox_system_metrics example_runtime T0
        [light_baby] [] [] [] = Ok r /\
      m9_d7_pct r = 0%Q /\ m13_distribution r = no_share) /\
  (exists r,
      @calculate_sandbox_program_metrics example_runtime T0 [] [] [] [] = Ok r /\
      m1_any_init_pct r = 0%Q /\ m3_mean_daily_kmc r = 0%Q).
Proof.
  destruct (@zero_denominator_gives_zero example_runtime T0
              [light_baby] [] [] [])
    as [_ [Hreg [_ [Hsys _]]]].
  destruct (@zero_denominator_gives_zero example_runtime T0 [] [] [] [])
    as [_ [_ [_ [_ Hprog]]]].
  refine (conj _ (conj _ _)).
  - eexists; split; [reflexivity |].
    apply Hreg; reflexivity.
  - eexists; split; [reflexivity |].
    edestruct Hsys as [_ [_ [H9 [_ [_ [_ H13]]]]]]; [reflexivity |].
    split; [apply H9 | apply H13]; reflexivity.
  - eexists; split; [reflexivity |].
    edestruct Hprog as [H1 [_ [H3 _]]]; [reflexivity |].
    split; [apply H1 | apply H3]; reflexivity.
Defined.

(** C8, as stated, fails on the coverage percentage of the system
    metrics: with no inborn eligible baby its denominator is 0 and the
    percentage is 100. *)
Lemma coverage_ignores_its_denominator :
  exists r,
    @calculate_sandbox_system_metrics example_runtime T0 [] [] [] [] = Ok r /\
    m5_coverage_denom r = 0%nat /\
    m5_coverage_pct r = 100%Q /\
    m5_coverage_pct r <> 0%Q.
Proof.
  eexists; split; [reflexivity |].
  split; [reflexivity |]. split; [reflexivity | discriminate].
Qed.

(** ** Equality of keys *)

Lemma Qeq_bool_sym (a b : Q) : Qeq_bool a b = Qeq_bool b a.
Proof.
  destruct (Qeq_bool a b) eqn:E1, (Qeq_bool b a) eqn:E2; try reflexivity.
  - apply Qeq_bool_iff in E1. symmetry in E1. apply Qeq_bool_iff in E1.
    congruence.
  - apply Qeq_bool_iff in E2. symmetry in E2. apply Qeq_bool_iff in E2.
    congruence.
Qed.

Lemma Qeq_bool_trans (a b c : Q) :
  Qeq_bool a b = true -> Qeq_bool b c = true -> Qeq_bool a c = true.
Proof.
  rewrite !Qeq_bool_iff. apply Qeq_trans.
Qed.

Lemma py_eqb_sym (a b : pyval) : py_eqb a b = py_eqb b a.
Proof.
  unfold py_eqb.
  destruct a, b; simpl; try reflexivity;
    try apply Qeq_bool_sym; apply String.eqb_sym.
Qed.

Lemma py_eqb_trans (a b c : pyval) :
  py_eqb a b = true -> py_eqb b c = true -> py_eqb a c = true.
Proof.
  unfold py_eqb.
  destruct a, b; simpl; try discriminate;
    destruct c; simpl; try discriminate;
    try apply Qeq_bool_trans; try reflexivity.
  intros H1 H2. apply String.eqb_eq in H1, H2. subst. apply String.eqb_refl.
Qed.

Lemma py_eqb_refl (v : pyval) :
  hashable v = true -> py_eqb v v = true.
Proof.
  destruct v; try discriminate; intros _; cbn;
    try reflexivity; try (apply Qeq_bool_iff; reflexivity).
  apply String.eqb_refl.
Qed.

Lemma py_eqb_hashable (a b : pyval) : py_eqb a b = true -> hashable a = true.
Proof.
  destruct a, b; simpl; try discriminate; reflexivity.
Qed.

Lemma truthy_number (v : pyval) (x : Q) :
  as_number v = Some x -> truthy v = negb (Qeq_bool x 0).
Proof.
  destruct v; simpl; try discriminate; intros H; injection H as <-.
  - destruct b; reflexivity.
  - f_equal. unfold Qeq_bool, inject_Z; simpl.
    rewrite Z.mul_1_r. destruct z; reflexivity.
  - reflexivity.
Qed.

Lemma Qeq_bool_zero (x y : Q) :
  Qeq_bool x y = true -> Qeq_bool x 0 = Qeq_bool y 0.
Proof.
  intros H.
  destruct (Qeq_bool x 0) eqn:Ex, (Qeq_bool y 0) eqn:Ey; try reflexivity.
  - rewrite <- Ey. symmetry. apply (Qeq_bool_trans y x 0); [| exact Ex].
    rewrite Qeq_bool_sym. exact H.
  - rewrite <- Ex. apply (Qeq_bool_trans x y 0); assumption.
Qed.

Lemma py_eqb_truthy (a b : pyval) :
  py_eqb a b = true -> truthy a = truthy b.
Proof.
  unfold py_eqb.
  destruct (as_number a) as [x |] eqn:Ea.
  - destruct (as_number b) as [y |] eqn:Eb.
    + intros H. rewrite (truthy_number a x Ea), (truthy_number b y Eb).
      f_equal. apply Qeq_bool_zero. exact H.
    + destruct a, b; simpl in *; try discriminate.
  - destruct a, b; simpl in *; try discriminate; try reflexivity.
    intros H. apply String.eqb_eq in H. subst. reflexivity.
Qed.

(** ** First-seen-wins de-duplication *)

Section Deduplication.
Context `{RT : Runtime}.

Lemma existsb_equal_key (u v : pyval) (keys : list pyval) :
  py_eqb v u = true ->
  existsb (fun p => py_eqb p u) keys = true ->
  existsb (py_eqb v) keys = true.
Proof.
  intros Hv H. apply existsb_exists in H as [p [Hin Hp]].
  apply existsb_exists. exists p. split; [exact Hin |].
  apply (py_eqb_trans v u p); [exact Hv |].
  rewrite py_eqb_sym. exact Hp.
Qed.

Lemma death_step_passes_over (u : pyval) (st : death_scan) (baby : dict) :
  passes_over u st ->
  py_eqb (get baby "UID") u = true ->
  death_step st baby = Ok st.
Proof.
  intros Hp He. unfold death_step.
  destruct (truthy (get baby "UID")) eqn:Ht; [| reflexivity].
  cbn [negb]. unfold set_mem.
  rewrite (py_eqb_hashable _ _ He).
  destruct Hp as [Hu | Hu].
  - rewrite (py_eqb_truthy _ _ He) in Ht. congruence.
  - rewrite (existsb_equal_key u _ _ He Hu). reflexivity.
Qed.

Lemma death_step_processed (st st' : death_scan) (baby : dict) :
  death_step st baby = Ok st' ->
  st' = st \/
  (truthy (get baby "UID") = true /\
   Metrics.processed_uids st' = Metrics.processed_uids st ++ [get baby "UID"]).
Proof.
  unfold death_step. intros H.
  destruct (truthy (get baby "UID")) eqn:Ht; cbn [negb] in H;
    [| left; congruence].
  bind_inv H. destruct a; [left; congruence |].
  unbind H. injection H as <-. right. split; reflexivity.
Qed.

Lemma passes_over_kept (u : pyval) (st st' : death_scan) (baby : dict) :
  passes_over u st -> death_step st baby = Ok st' -> passes_over u st'.
Proof.
  intros [Hu | Hu] H; [left; exact Hu |].
  apply death_step_processed in H as [-> | [_ Hp]]; right; [exact Hu |].
  rewrite Hp, existsb_app, Hu. reflexivity.
Qed.

Lemma passes_over_after_first (u : pyval) (st st' : death_scan) (baby : dict) :
  py_eqb (get baby "UID") u = true ->
  death_step st baby = Ok st' ->
  passes_over u st'.
Proof.
  intros He H.
  pose proof H as H'.
  apply death_step_processed in H' as [-> | [_ Hp]].
  - unfold death_step in H.
    destruct (truthy (get baby "UID")) eqn:Ht; cbn [negb] in H.
    + bind_inv H. destruct a.
      * right. unfold set_mem in Ha.
        rewrite (py_eqb_hashable _ _ He) in Ha. injection Ha as Ha.
        apply existsb_exists in Ha as [p [Hin Hp]].
        apply existsb_exists. exists p. split; [exact Hin |].
        apply (py_eqb_trans p (get baby "UID") u); [| exact He].
        rewrite py_eqb_sym. exact Hp.
      * unbind H. injection H as H.
        apply (f_equal (fun s => List.length (Metrics.processed_uids s))) in H.
        cbn in H. rewrite length_app in H. simpl in H. lia.
    + left. rewrite <- (py_eqb_truthy _ _ He). exact Ht.
  - right. rewrite Hp, existsb_app.
    cbn. rewrite He. apply orb_true_r.
Qed.

Lemma scan_without_uid (u : pyval) (l : list dict) (st : death_scan) :
  passes_over u st ->
  for_each death_step (without_uid u l) st = for_each death_step l st.
Proof.
  revert st; induction l as [| baby l IH]; intros st Hp; [reflexivity |].
  cbn [without_uid filter for_each].
  destruct (py_eqb (get baby "UID") u) eqn:He; cbn [negb].
  - rewrite (death_step_passes_over u st baby Hp He). cbn [bind].
    apply IH. exact Hp.
  - cbn [for_each].
    destruct (death_step st baby) as [st' | e] eqn:Hs; [| reflexivity].
    cbn [bind]. apply IH. exact (passes_over_kept u st st' baby Hp Hs).
Qed.

Lemma scan_retain_first (u : pyval) (l : list dict) (st : death_scan) :
  for_each death_step (retain_first u l) st = for_each death_step l st.
Proof.
  revert st; induction l as [| baby l IH]; intros st; [reflexivity |].
  cbn [retain_first].
  destruct (py_eqb (get baby "UID") u) eqn:He; cbn [for_each].
  - destruct (death_step st baby) as [st' | e] eqn:Hs; [| reflexivity].
    cbn [bind]. apply scan_without_uid.
    exact (passes_over_after_first u st st' baby He Hs).
  - destruct (death_step st baby) as [st' | e]; [| reflexivity].
    cbn [bind]. apply IH.
Qed.

(** C1, as amended.  The pass of [calculate_death_rates] over the babies
    applies first-seen-wins de-duplication: on a list in which any number
    of records share a uid, the pass and the figures it gives (totals,
    deaths, mortality rate, hospitals, birth place, locations, KMC
    stability, neonatal and infant deaths) are those of the list with only
    the first of these records retained.  Nothing is said of
    [calculate_registration_timeliness] and
    [calculate_average_kmc_by_location], which keep no set of uids. *)
Theorem death_rates_first_seen_wins :
  forall (u : pyval) (baby_data : list dict),
    death_rates_scan (retain_first u baby_data) = death_rates_scan baby_data /\
    death_rates_figures (retain_first u baby_data)
      = death_rates_figures baby_data.
Proof.
  intros u baby_data.
  assert (H : death_rates_scan (retain_first u baby_data)
              = death_rates_scan baby_data)
    by apply scan_retain_first.
  split; [exact H |].
  unfold death_rates_figures. rewrite H. reflexivity.
Qed.

End Deduplication.

(** ** Nurse productivity *)

Lemma nurse_find_ensure (key key' : string) (n h : pyval) (t : nurse_table) :
  nurse_find key' (nurse_ensure key n h t) =
  match nurse_find key' t with
  | Some r => Some r
  | None =>
      if key =? key' then
        match nurse_find key t with
        | Some _ => None
        | None => Some {| nurseName := n; hospital := h; followUps := 0;
                          discharges := 0; registrations := 0 |}
        end
      else None
  end.
Proof.
  unfold nurse_ensure.
  destruct (nurse_find key t) as [r |] eqn:Hk.
  - destruct (nurse_find key' t) eqn:Hk'; [reflexivity |].
    destruct (key =? key'); reflexivity.
  - clear Hk. induction t as [| [k r] t IH]; simpl.
    + destruct (key =? key'); reflexivity.
    + destruct (k =? key'); [reflexivity | exact IH].
Qed.











Section Nurses.
Context `{RT : Runtime}.















End Nurses.

(** ** Day totals: the maximum, not the sum *)

Lemma daykey_eqb_sym (a b : daykey) : daykey_eqb a b = daykey_eqb b a.
Proof.
  unfold daykey_eqb. rewrite py_eqb_sym, Z.eqb_sym. reflexivity.
Qed.

Lemma daykey_eqb_trans (a b c : daykey) :
  daykey_eqb a b = true -> daykey_eqb b c = true -> daykey_eqb a c = true.
Proof.
  unfold daykey_eqb. intros H1 H2.
  apply andb_prop in H1 as [P1 D1]. apply andb_prop in H2 as [P2 D2].
  rewrite (py_eqb_trans _ _ _ P1 P2).
  apply Z.eqb_eq in D1, D2. rewrite D1, D2, Z.eqb_refl. reflexivity.
Qed.

Lemma daykey_eqb_left (k a b : daykey) :
  daykey_eqb a b = true -> daykey_eqb k a = daykey_eqb k b.
Proof.
  intros Hab.
  destruct (daykey_eqb k a) eqn:Ha, (daykey_eqb k b) eqn:Hb; try reflexivity.
  - rewrite <- Hb. symmetry. exact (daykey_eqb_trans _ _ _ Ha Hab).
  - rewrite <- Ha. apply (daykey_eqb_trans k b a); [exact Hb |].
    rewrite daykey_eqb_sym. exact Hab.
Qed.

Lemma daymap_find_set (k k' : daykey) (v : Q) (m : daymap) :
  daymap_find k (daymap_set k' v m) =
  if daykey_eqb k k' then Some v else daymap_find k m.
Proof.
  induction m as [| [k2 v2] m IH]; simpl.
  - reflexivity.
  - destruct (daykey_eqb k' k2) eqn:E; simpl.
    + rewrite (daykey_eqb_left k k' k2 E).
      destruct (daykey_eqb k k2); reflexivity.
    + rewrite IH.
      destruct (daykey_eqb k k2) eqn:E2; [| reflexivity].
      destruct (daykey_eqb k k') eqn:E3; [| reflexivity].
      rewrite daykey_eqb_sym in E3.
      rewrite (daykey_eqb_trans _ _ _ E3 E2) in E. discriminate.
Qed.

Lemma daymap_get_set (k k' : daykey) (v : Q) (m : daymap) :
  daymap_get k (daymap_set k' v m) =
  if daykey_eqb k k' then v else daymap_get k m.
Proof.
  unfold daymap_get. rewrite daymap_find_set.
  destruct (daykey_eqb k k'); reflexivity.
Qed.

Lemma daymap_get_same (k k' : daykey) (m : daymap) :
  daykey_eqb k k' = true -> daymap_get k m = daymap_get k' m.
Proof.
  intros E. unfold daymap_get.
  induction m as [| [k2 v2] m IH]; simpl; [reflexivity |].
  assert (E2 : daykey_eqb k k2 = daykey_eqb k' k2).
  { rewrite (daykey_eqb_sym k k2), (daykey_eqb_sym k' k2).
    apply daykey_eqb_left. exact E. }
  rewrite E2. destruct (daykey_eqb k' k2); [reflexivity | exact IH].
Qed.

Lemma Qltb_lt (a b : Q) : Qltb a b = true <-> (a < b)%Q.
Proof.
  unfold Qltb. rewrite Qlt_alt.
  destruct (a ?= b)%Q; split; intros H; try reflexivity; discriminate.
Qed.

Lemma positive_sixtieth (q : Q) : Qltb 0 (Qred (q / 60)) = Qltb 0 q.
Proof.
  assert (E : (0 < Qred (q / 60))%Q <-> (0 < q)%Q).
  { rewrite Qred_correct.
    unfold Qlt, Qdiv, Qinv, Qmult; simpl. lia. }
  destruct (Qltb 0 (Qred (q / 60))) eqn:E1, (Qltb 0 q) eqn:E2;
    try reflexivity.
  - apply Qltb_lt, E, Qltb_lt in E1. congruence.
  - apply Qltb_lt, E, Qltb_lt in E2. congruence.
Qed.

Lemma positive_hours (v : pyval) (h : Q) (b : bool) :
  div_60 v = Ok h -> gt_zero v = Ok b -> b = Qltb 0 h.
Proof.
  unfold div_60, gt_zero.
  destruct (as_number v) as [q |]; [| discriminate].
  intros Hh Hb. injection Hb as <-.
  assert (E : h = Qred (q / 60)).
  { destruct v; try (injection Hh as <-; reflexivity).
    destruct (nearest_double q); [| discriminate].
    injection Hh as <-. reflexivity. }
  subst h. symmetry. apply positive_sixtieth.
Qed.

Section DayTotals.
Context `{RT : Runtime}.

Lemma session_step_at (k : daykey) (m m' : daymap) (s : dict) :
  system_session_step m s = Ok m' ->
  daymap_get k m' =
  match session_hours k s with
  | Some x => Qred (daymap_get k m + x)
  | None => daymap_get k m
  end.
Proof.
  unfold system_session_step, session_hours. intros H.
  bind_as H start Hstart. rewrite Hstart.
  bind_as H x Hx. rewrite Hx.
  destruct (truthy (py_or (get s "idBaby") (get s "UID")));
    [| injection H as <-; reflexivity].
  bind_as H start' Hstart'. rewrite Hstart'.
  destruct start' as [start' |]; [| injection H as <-; reflexivity].
  bind_as H d Hd. rewrite Hd.
  unfold daymap_add in H.
  destruct (hashable _); [| discriminate]. injection H as <-.
  rewrite daymap_get_set.
  destruct (daykey_eqb k _) eqn:E; [| reflexivity].
  rewrite (daymap_get_same _ _ m E). reflexivity.
Qed.

Lemma sessions_at (k : daykey) (sessions : list dict) (m m' : daymap) :
  for_each system_session_step sessions m = Ok m' ->
  daymap_get k m' =
  fold_left (fun acc s =>
               match session_hours k s with
               | Some x => Qred (acc + x)
               | None => acc
               end)
            sessions (daymap_get k m).
Proof.
  revert m; induction sessions as [| s l IH]; intros m H; simpl in *.
  - injection H as <-. reflexivity.
  - bind_as H m1 Hm1. rewrite (IH _ H). f_equal.
    exact (session_step_at k m m1 s Hm1).
Qed.

Lemma day_step_at (k : daykey) (bid : pyval) (m m' : daymap) (item : pyval) :
  system_day_step bid m item = Ok m' ->
  daymap_get k m' =
  fold_left reconcile (day_hours_of k bid [item]) (daymap_get k m).
Proof.
  unfold system_day_step, day_hours_of, day_hours. intros H. cbn [flat_map].
  rewrite app_nil_r.
  bind_as H day Hday. destruct item; try discriminate.
  injection Hday as <-.
  bind_as H positive Ha.
  destruct positive.
  - destruct (truthy (get d "ageDayDate")) eqn:Ht.
    + bind_as H dt Hdt. destruct dt as [dt |]; [| discriminate].
      bind_as H day Hday.
      destruct (hashable bid) eqn:Hb; [| discriminate].
      bind_as H h Hh.
      assert (Eday : day_of (get d "ageDayDate") = Some day).
      { unfold day_of. rewrite Hdt, Hday. reflexivity. }
      rewrite Eday, Hh. cbn [andb].
      pose proof (positive_hours _ _ _ Hh Ha) as Hpos.
      unfold daymap_max in H. rewrite Hb in H. injection H as <-.
      rewrite daymap_get_set.
      destruct (daykey_eqb k (bid, day)) eqn:E; cbn.
      * unfold reconcile. rewrite <- Hpos.
        rewrite (daymap_get_same _ _ m E). reflexivity.
      * reflexivity.
    + injection H as <-.
      destruct (day_of _); [| reflexivity].
      destruct (div_60 _); reflexivity.
  - injection H as <-.
    destruct (day_of _) as [day |]; [| reflexivity].
    destruct (div_60 _) as [h |] eqn:Hh; [| reflexivity].
    destruct (truthy _ && daykey_eqb _ _); [| reflexivity].
    cbn. unfold reconcile.
    rewrite <- (positive_hours _ _ _ Hh Ha). reflexivity.
Qed.

Lemma day_hours_of_app (k : daykey) (bid : pyval) (l1 l2 : list pyval) :
  day_hours_of k bid (l1 ++ l2) = day_hours_of k bid l1 ++ day_hours_of k bid l2.
Proof. apply flat_map_app. Qed.

Lemma days_at (k : daykey) (bid : pyval) (items : list pyval) (m m' : daymap) :
  for_each (system_day_step bid) items m = Ok m' ->
  daymap_get k m' =
  fold_left reconcile (day_hours_of k bid items) (daymap_get k m).
Proof.
  revert m; induction items as [| item l IH]; intros m H; simpl in H.
  - injection H as <-. reflexivity.
  - bind_as H m1 Hm1.
    change (item :: l) with ([item] ++ l).
    rewrite day_hours_of_app, fold_left_app.
    rewrite <- (day_step_at k bid m m1 item Hm1).
    exact (IH _ H).
Qed.

Lemma day_hours_empty_uid (k : daykey) (bid : pyval) (items : list pyval) :
  truthy (fst k) = true -> truthy bid = false ->
  day_hours_of k bid items = [].
Proof.
  intros Hk Hb. induction items as [| item l IH]; [reflexivity |].
  change (item :: l) with ([item] ++ l).
  rewrite day_hours_of_app, IH, app_nil_r.
  unfold day_hours_of, day_hours; cbn [flat_map]. rewrite app_nil_r.
  destruct item; try reflexivity.
  destruct (day_of _) as [dt |]; try reflexivity.
  destruct (div_60 _); try reflexivity.
  assert (E : daykey_eqb k (bid, dt) = false).
  { unfold daykey_eqb; cbn [fst snd].
    destruct (py_eqb (fst k) bid) eqn:E; [| reflexivity].
    apply py_eqb_truthy in E. congruence. }
  rewrite E, andb_false_r. reflexivity.
Qed.

Lemma system_babies_at (k : daykey) (babies : list dict) (m m' : daymap) :
  truthy (fst k) = true ->
  for_each system_days_of babies m = Ok m' ->
  daymap_get k m' =
  fold_left reconcile (day_aggregates k babies) (daymap_get k m).
Proof.
  intros Hk. revert m; induction babies as [| baby l IH]; intros m H;
    simpl in H.
  - injection H as <-. reflexivity.
  - bind_as H m1 Hm1.
    unfold day_aggregates; cbn [flat_map]. rewrite fold_left_app.
    fold (day_aggregates k l). rewrite (IH _ H). f_equal.
    unfold system_days_of in Hm1.
    destruct (truthy (get baby "UID")) eqn:Hu; cbn [negb] in Hm1.
    + bind_as Hm1 items Hitems. rewrite Hitems.
      exact (days_at k _ _ _ _ Hm1).
    + injection Hm1 as <-.
      destruct (py_iter _); [| reflexivity].
      rewrite (day_hours_empty_uid k _ _ Hk Hu). reflexivity.
Qed.

Lemma program_babies_at (k : daykey) (babies : list dict) (m m' : daymap) :
  for_each program_days_of babies m = Ok m' ->
  daymap_get k m' =
  fold_left reconcile (day_aggregates k babies) (daymap_get k m).
Proof.
  revert m; induction babies as [| baby l IH]; intros m H; simpl in H.
  - injection H as <-. reflexivity.
  - bind_as H m1 Hm1.
    unfold day_aggregates; cbn [flat_map]. rewrite fold_left_app.
    fold (day_aggregates k l). rewrite (IH _ H). f_equal.
    unfold program_days_of in Hm1.
    bind_as Hm1 items Hitems. rewrite Hitems.
    exact (days_at k _ _ _ _ Hm1).
Qed.

Lemma reconcile_is_max (s h : Q) :
  Qle_bool 0 s = true -> reconcile s h = py_max s h.
Proof.
  intros Hs. unfold reconcile, py_max.
  destruct (Qltb 0 h) eqn:Hh; [reflexivity |].
  destruct (Qltb s h) eqn:Hsh; [| reflexivity].
  exfalso. apply Qle_bool_iff in Hs. apply Qltb_lt in Hsh.
  assert (Hlt : (0 < h)%Q) by (eapply Qle_lt_trans; eassumption).
  apply Qltb_lt in Hlt. congruence.
Qed.

(** C3.  In both sandbox functions, for a patient and a calendar day for
    which the babies hold one day aggregate, of [h] hours, and the
    sessions add up to a total that is not negative, the reconciled total
    of the day is the maximum of the two, never their sum. *)
Theorem day_total_is_max_not_sum :
  forall (k : daykey) (sessions babies : list dict) (h : Q),
    truthy (fst k) = true ->
    day_aggregates k babies = [h] ->
    Qle_bool 0 (session_total k sessions) = true ->
    (forall m,
        system_daily_kmc_map sessions babies = Ok m ->
        daymap_get k m = py_max (session_total k sessions) h) /\
    (forall m,
        program_kmc_per_day sessions babies = Ok m ->
        daymap_get k m = py_max (session_total k sessions) h).
Proof.
  intros k sessions babies h Hk Hagg Hs. split; intros m H.
  - unfold system_daily_kmc_map in H. bind_as H m0 Hm0.
    rewrite (system_babies_at k _ _ _ Hk H), Hagg.
    rewrite (sessions_at k _ _ _ Hm0). cbn [fold_left].
    apply reconcile_is_max. exact Hs.
  - unfold program_kmc_per_day in H. bind_as H m0 Hm0.
    rewrite (program_babies_at k _ _ _ H), Hagg.
    change program_session_step with system_session_step in Hm0.
    rewrite (sessions_at k _ _ _ Hm0). cbn [fold_left].
    apply reconcile_is_max. exact Hs.
Qed.

End DayTotals.

(** ** The scenarios of the design document *)

(** A day aggregate of 40 minutes and a session of 90 minutes on the same
    day reconcile to an hour and a half, not to the 130 minutes of their
    sum. *)
Lemma day_total_is_max_not_sum_witness :
  (exists m,
      @system_daily_kmc_map example_runtime [kmc_session] [kmc_baby] = Ok m /\
      daymap_get kmc_day m = (3 # 2)%Q /\
      daymap_get kmc_day m <> (13 # 6)%Q) /\
  (exists m,
      @program_kmc_per_day example_runtime [kmc_session] [kmc_baby] = Ok m /\
      daymap_get kmc_day m = (3 # 2)%Q /\
      daymap_get kmc_day m <> (13 # 6)%Q).
Proof.
  destruct (@day_total_is_max_not_sum example_runtime kmc_day
              [kmc_session] [kmc_baby] (2 # 3)%Q)
    as [Hsystem Hprogram]; try reflexivity.
  split.
  - eexists; split; [reflexivity |].
    rewrite (Hsystem _ eq_refl). split; [reflexivity | discriminate].
  - eexists; split; [reflexivity |].
    rewrite (Hprogram _ eq_refl). split; [reflexivity | discriminate].
Defined.


(* ================================================================== *)
(** * Further properties of the code                                   *)
(* ================================================================== *)

(** ** utils/dashboard_utils.py *)

Section MoreTemporal.
Context `{RT : Runtime}.

(** X1.  An instant between 2001-09-09 and the year 33658 gives the same
    date-time whether it is passed in whole seconds or in whole
    milliseconds. *)
Theorem seconds_and_milliseconds_agree :
  forall z : Z,
    (1000000000 < z)%Z -> (z <= 1000000000000)%Z ->
    convert_unix_to_datetime (VInt (z * 1000))
    = convert_unix_to_datetime (VInt z).
Proof.
  intros z Hlo Hhi.
  rewrite convert_milliseconds by lia.
  rewrite convert_seconds by lia.
  reflexivity.
Qed.

(** X2.  A whole number from 253402281000 up to 1e12 is read as seconds
    and lies past the last date-time of the calendar once moved to
    UTC+5:30: the answer is [None].  A millisecond stamp of an instant
    before 2001-09-09 with that many milliseconds is lost this way. *)
Theorem seconds_past_the_calendar :
  forall z : Z,
    (253402281000 <= z)%Z -> (z <= 1000000000000)%Z ->
    convert_unix_to_datetime (VInt z) = Ok None.
Proof.
  intros z Hlo Hhi. rewrite convert_seconds by lia. unfold normalized.
  cbv zeta.
  replace (in_range (z * 1000000 + UTC_PLUS_5_30)) with false.
  - rewrite andb_false_r. reflexivity.
  - symmetry. unfold in_range. apply andb_false_iff. right.
    apply Z.leb_gt. unfold DATETIME_MAX, UTC_PLUS_5_30, US_PER_SECOND. lia.
Qed.

End MoreTemporal.

Lemma seconds_and_milliseconds_agree_witness :
  @convert_unix_to_datetime example_runtime (VInt (T0 * 1000))
  = @convert_unix_to_datetime example_runtime (VInt T0).
Proof.
  apply (@seconds_and_milliseconds_agree example_runtime T0);
    unfold T0; lia.
Defined.

Lemma seconds_past_the_calendar_witness :
  @convert_unix_to_datetime example_runtime (VInt 978307200000) = Ok None.
Proof.
  apply (@seconds_past_the_calendar example_runtime 978307200000); lia.
Defined.

Section Stability.
Context `{RT : Runtime}.

Lemma existsb_snoc (l : list bool) (b : bool) :
  existsb (fun x => x) (l ++ [b]) = existsb (fun x => x) l || b.
Proof.
  rewrite existsb_app. cbn. rewrite orb_false_r. reflexivity.
Qed.

(** X4.  [check_kmc_stability] answers "unstable" when one of the
    twelve flags equals [True] or the weight (birth weight, else weight)
    is not zero or empty and parses to less than 1500, and "stable"
    otherwise, a weight that does not parse counting for nothing; it
    raises an [OverflowError], the one exception it can raise, on a
    weight that is an integer too large for a float. *)
Theorem check_kmc_stability_decides :
  forall baby : dict,
    check_kmc_stability baby
    = if weight_too_large baby then Raise OverflowError
      else Ok (if unstable_as_decided baby then "unstable" else "stable").
Proof.
  intros baby.
  unfold check_kmc_stability, unstable_as_decided, weight_too_large.
  cbv zeta. unfold parses_below.
  set (flags := existsb _ INSTABILITY_FLAGS).
  set (bw := py_or (get baby "birthWeight") (get baby "weight")).
  match goal with
  | |- context [try_except _ _ (Ok ?l)] => set (indicators := l)
  end.
  assert (Hflags : existsb (fun b => b) indicators = flags).
  { unfold indicators, flags, INSTABILITY_FLAGS. cbn [existsb].
    rewrite !orb_false_r. reflexivity. }
  destruct (truthy bw); cbn [andb].
  - destruct (py_float bw) as [w | e] eqn:Hw; cbn [bind try_except].
    + assert (Hl : too_large bw = false).
      { unfold py_float in Hw. destruct bw; try reflexivity.
        cbn [too_large]. destruct (nearest_double _); [reflexivity |].
        discriminate. }
      rewrite Hl.
      destruct (flt w (FFin 1500)); cbn [bind try_except].
      * rewrite existsb_snoc, !orb_true_r. reflexivity.
      * rewrite Hflags, orb_false_r. destruct flags; reflexivity.
    + assert (He : parse_handles e = negb (too_large bw) /\
                   (too_large bw = true -> e = OverflowError)).
      { unfold py_float in Hw.
        destruct bw; try discriminate;
          try (injection Hw as <-; split; [reflexivity | discriminate]).
        - cbn [too_large]. destruct (nearest_double _); [discriminate |].
          injection Hw as <-. split; reflexivity.
        - destruct (float_of_str s); [discriminate |].
          injection Hw as <-. split; [reflexivity | discriminate]. }
      destruct He as [He Ho]. rewrite He.
      destruct (too_large bw); cbn [negb bind].
      * rewrite (Ho eq_refl). reflexivity.
      * rewrite Hflags, orb_false_r. destruct flags; reflexivity.
  - cbn [bind]. rewrite Hflags, orb_false_r. destruct flags; reflexivity.
Qed.

End Stability.

(** A weight of 10^400 grams is no float. *)
Example check_kmc_stability_overflows :
  @check_kmc_stability example_runtime [("birthWeight", VInt (10 ^ 400))]
  = Raise OverflowError.
Proof. vm_compute. reflexivity. Qed.

Section MoreClassification.
Context `{RT : Runtime}.

Lemma str_lower_text_of (record : dict) (field : string) :
  str_lower (get_or record field (VStr "")) =
  if textual record field then Ok (lower (text_of record field))
  else Raise AttributeError.
Proof.
  unfold textual, text_of, get_or.
  destruct (lookup field record) as [[] |]; reflexivity.
Qed.

(** What [categorize_discharge] answers on a source family *)
Lemma categorize_discharge_table :
  forall (record : dict) (source : string),
    In source SOURCES ->
    categorize_discharge record source =
    if textual record (status_field source)
       && textual record (type_field source)
    then Ok (category_of (lower (text_of record (status_field source)))
                         (lower (text_of record (type_field source))))
    else Raise AttributeError.
Proof.
  intros record source Hs.
  unfold categorize_discharge, status_field, type_field.
  assert (E : forall sf tf,
             (s <- str_lower (get_or record sf (VStr "")) ;;
              t <- str_lower (get_or record tf (VStr "")) ;;
              Ok (category_of s t)) =
             if textual record sf && textual record tf
             then Ok (category_of (lower (text_of record sf))
                                  (lower (text_of record tf)))
             else Raise AttributeError).
  { intros sf tf. rewrite !str_lower_text_of.
    destruct (textual record sf); cbn [bind andb]; [| reflexivity].
    destruct (textual record tf); reflexivity. }
  destruct Hs as [<- | [<- | [<- | []]]]; cbn [String.eqb Ascii.eqb Bool.eqb];
    apply E.
Qed.


(** X6.  A source that is none of the three families gives "other"
    without the record being read, and the two baby families are
    classified alike. *)
Theorem categorize_discharge_sources :
  forall (record : dict),
    (forall source,
        ~ In source SOURCES -> categorize_discharge record source = Ok "other")
    /\ categorize_discharge record "baby"
       = categorize_discharge record "babyBackUp".
Proof.
  intros record. split; [| reflexivity].
  intros source Hs. unfold categorize_discharge, SOURCES in *.
  destruct (source =? "discharges") eqn:E1;
    [apply String.eqb_eq in E1; subst; exfalso; apply Hs; simpl; auto |].
  destruct (source =? "baby") eqn:E2;
    [apply String.eqb_eq in E2; subst; exfalso; apply Hs; simpl; auto |].
  destruct (source =? "babyBackUp") eqn:E3;
    [apply String.eqb_eq in E3; subst; exfalso; apply Hs; simpl; auto |].
  reflexivity.
Qed.

(** X7.  Whatever the status, a record whose type reads "died" in any
    letter case is classified "died". *)
Theorem died_whatever_the_status :
  forall (record : dict) (source : string),
    In source SOURCES ->
    textual record (status_field source) = true ->
    textual record (type_field source) = true ->
    lower (text_of record (type_field source)) = "died" ->
    categorize_discharge record source = Ok "died".
Proof.
  intros record source Hs Hst Hty Hd.
  rewrite (categorize_discharge_table record source Hs), Hst, Hty, Hd.
  cbn [andb]. unfold category_of.
  cbn [String.eqb Ascii.eqb Bool.eqb]. rewrite !andb_false_r. reflexivity.
Qed.

End MoreClassification.


Lemma categorize_discharge_sources_witness :
  categorize_discharge null_status_discharge "lrBabies"
  = Ok "other".
Proof.
  apply (proj1 (categorize_discharge_sources null_status_discharge)).
  intros [H | [H | [H | []]]]; discriminate H.
Defined.

Lemma died_whatever_the_status_witness :
  categorize_discharge
    [("lastDischargeStatus", VStr "stable"); ("lastDischargeType", VStr "Died")]
    "babyBackUp" = Ok "died".
Proof.
  apply died_whatever_the_status;
    [simpl; auto | reflexivity | reflexivity | reflexivity].
Defined.

(** ** Loops *)

(** A loop over records that passes over a record without a uid or with
    a uid it has processed, and that has processed a uid once it is
    through with a record carrying it, gives on a list what it gives on
    the list with only the first record of a uid retained. *)
Section FirstSeenWins.
Variable S : Type.
Variable processed : S -> list pyval.
Variable step : S -> dict -> res S.

Hypothesis skips_empty :
  forall st r, truthy (get r "UID") = false -> step st r = Ok st.
Hypothesis skips_seen :
  forall st r,
    hashable (get r "UID") = true ->
    existsb (py_eqb (get r "UID")) (processed st) = true ->
    step st r = Ok st.
Hypothesis only_appends :
  forall st r st',
    step st r = Ok st' ->
    processed st' = processed st \/
    processed st' = processed st ++ [get r "UID"].
Hypothesis marks :
  forall st r st',
    step st r = Ok st' ->
    truthy (get r "UID") = true -> hashable (get r "UID") = true ->
    existsb (py_eqb (get r "UID")) (processed st') = true.

Lemma guarded_skip (u : pyval) (st : S) (r : dict) :
  skipped_among u (processed st) -> py_eqb (get r "UID") u = true -> step st r = Ok st.
Proof.
  intros [Hu | Hu] He.
  - apply skips_empty. rewrite (py_eqb_truthy _ _ He). exact Hu.
  - apply skips_seen; [exact (py_eqb_hashable _ _ He) |].
    exact (existsb_equal_key u _ _ He Hu).
Qed.

Lemma guarded_kept (u : pyval) (st st' : S) (r : dict) :
  skipped_among u (processed st) -> step st r = Ok st' -> skipped_among u (processed st').
Proof.
  intros [Hu | Hu] H; [left; exact Hu | right].
  destruct (only_appends _ _ _ H) as [-> | ->]; [exact Hu |].
  rewrite existsb_app, Hu. reflexivity.
Qed.

Lemma guarded_first (u : pyval) (st st' : S) (r : dict) :
  py_eqb (get r "UID") u = true -> step st r = Ok st' -> skipped_among u (processed st').
Proof.
  intros He H.
  destruct (truthy (get r "UID")) eqn:Ht.
  - right.
    pose proof (marks _ _ _ H Ht (py_eqb_hashable _ _ He)) as Hm.
    apply existsb_exists in Hm as [p [Hin Hp]].
    apply existsb_exists. exists p. split; [exact Hin |].
    apply (py_eqb_trans p (get r "UID") u); [| exact He].
    rewrite py_eqb_sym. exact Hp.
  - left. rewrite <- (py_eqb_truthy _ _ He). exact Ht.
Qed.

Lemma guarded_without (u : pyval) (l : list dict) (st : S) :
  skipped_among u (processed st) -> for_each step (without_uid u l) st = for_each step l st.
Proof.
  revert st; induction l as [| r l IH]; intros st Hp; [reflexivity |].
  cbn [without_uid filter for_each].
  destruct (py_eqb (get r "UID") u) eqn:He; cbn [negb].
  - rewrite (guarded_skip u st r Hp He). cbn [bind]. apply IH. exact Hp.
  - cbn [for_each].
    destruct (step st r) as [st' | e] eqn:Hs; [| reflexivity].
    cbn [bind]. apply IH. exact (guarded_kept u st st' r Hp Hs).
Qed.

Lemma first_seen_wins (u : pyval) (l : list dict) (st : S) :
  for_each step (retain_first u l) st = for_each step l st.
Proof.
  revert st; induction l as [| r l IH]; intros st; [reflexivity |].
  cbn [retain_first].
  destruct (py_eqb (get r "UID") u) eqn:He; cbn [for_each].
  - destruct (step st r) as [st' | e] eqn:Hs; [| reflexivity].
    cbn [bind]. apply guarded_without.
    exact (guarded_first u st st' r He Hs).
  - destruct (step st r) as [st' | e]; [| reflexivity].
    cbn [bind]. apply IH.
Qed.

End FirstSeenWins.

(** ** kmc_dashboard.py: KMC verification monitoring *)

Lemma verification_status_range (obs_day : dict) (status : string) :
  verification_status obs_day = Ok status -> In status VERIFICATION_STATUSES.
Proof.
  unfold verification_status, VERIFICATION_STATUSES. intros H.
  bind_as H c Hc.
  repeat match type of H with
         | (if ?b then _ else _) = _ => destruct b
         | match ?v with _ => _ end = _ => destruct v
         end;
    try (injection H as <-; simpl; auto 6).
Qed.

Lemma observe_counted (baby : dict) (uid : pyval) (st st' : verification_state)
    (item : pyval) :
  counted st -> observe baby uid st item = Ok st' -> counted st'.
Proof.
  intros [Hsum [Hlen Hall]] H. unfold observe in H.
  bind_as H obs_day Hd. bind_as H status Hst. injection H as <-.
  pose proof (verification_status_range _ _ Hst) as Hin.
  unfold counted; cbn.
  split; [| split].
  - destruct Hin as [<- | [<- | [<- | [<- | []]]]]; cbn; lia.
  - rewrite length_app. cbn. lia.
  - apply Forall_app. split; [exact Hall |].
    constructor; [exact Hin | constructor].
Qed.

Lemma observe_keeps_processed (baby : dict) (uid : pyval)
    (items : list pyval) (st st' : verification_state) :
  for_each (observe baby uid) items st = Ok st' ->
  Dashboard.processed_uids st' = Dashboard.processed_uids st.
Proof.
  revert st; induction items as [| item l IH]; intros st H; simpl in H.
  - injection H as <-. reflexivity.
  - bind_as H st1 H1. rewrite (IH _ H).
    unfold observe in H1. bind_as H1 o Ho. bind_as H1 s Hs.
    injection H1 as <-. reflexivity.
Qed.

Lemma verification_step_counted (st st' : verification_state) (baby : dict) :
  counted st -> verification_step st baby = Ok st' -> counted st'.
Proof.
  intros Hc H. unfold verification_step in H.
  destruct (negb (truthy (get baby "UID"))); [injection H as <-; exact Hc |].
  bind_as H seen Hseen. destruct seen; [injection H as <-; exact Hc |].
  bind_as H days Hdays.
  refine (for_each_invariant counted _ _
            (fun s x s' => observe_counted baby _ s s' x) _ _ _ H).
  exact Hc.
Qed.

Section Verification.

(** X8.  In what [calculate_kmc_verification_monitoring] returns, every
    observation is counted under exactly one status: [total_observations]
    is the sum of the four status counts and the number of rows of
    [detailed_data], and every row carries one of the four statuses. *)
Theorem verification_counts_add_up :
  forall (baby_data : list dict) (r : verification_result),
    calculate_kmc_verification_monitoring baby_data = Ok r ->
    let s := res_verification_stats r in
    total_observations s
    = (correct s + incorrect s + unable_to_verify s + not_verified s)%nat /\
    List.length (res_detailed_data r) = total_observations s /\
    Forall (fun row => In (row_status row) VERIFICATION_STATUSES)
           (res_detailed_data r).
Proof.
  intros baby_data r H. unfold calculate_kmc_verification_monitoring in H.
  bind_as H st Hst. injection H as <-. cbn.
  refine (for_each_invariant counted _ _
            (fun s x s' => verification_step_counted s s' x) _ _ _ Hst).
  repeat split. constructor.
Qed.

(** X9.  [calculate_kmc_verification_monitoring] applies first-seen-wins
    de-duplication: with any number of records sharing a uid it returns
    what it returns on the list with only the first of them retained. *)
Theorem verification_first_seen_wins :
  forall (u : pyval) (baby_data : list dict),
    calculate_kmc_verification_monitoring (retain_first u baby_data)
    = calculate_kmc_verification_monitoring baby_data.
Proof.
  intros u baby_data. unfold calculate_kmc_verification_monitoring.
  rewrite (first_seen_wins verification_state Dashboard.processed_uids
             verification_step); [reflexivity | | | |].
  - intros st r Hu. unfold verification_step. rewrite Hu. reflexivity.
  - intros st r Hh Hs. unfold verification_step, set_mem.
    rewrite Hh, Hs. destruct (negb _); reflexivity.
  - intros st r st' H. unfold verification_step in H.
    destruct (negb _); [injection H as <-; left; reflexivity |].
    bind_as H seen Hseen.
    destruct seen; [injection H as <-; left; reflexivity |].
    bind_as H days Hdays. right.
    rewrite (observe_keeps_processed _ _ _ _ _ H). reflexivity.
  - intros st r st' H Ht Hh. unfold verification_step in H.
    rewrite Ht in H. cbn [negb] in H. unfold set_mem in H. rewrite Hh in H.
    cbn [bind] in H.
    destruct (existsb (py_eqb (get r "UID")) (Dashboard.processed_uids st))
      eqn:Hseen; [injection H as <-; exact Hseen |].
    bind_as H days Hdays.
    rewrite (observe_keeps_processed _ _ _ _ _ H). cbn.
    rewrite existsb_app. cbn. rewrite (py_eqb_refl _ Hh).
    apply orb_true_r.
Qed.

End Verification.

Lemma verification_counts_add_up_witness :
  exists r,
    calculate_kmc_verification_monitoring [observed_baby] = Ok r /\
    total_observations (res_verification_stats r) = 3%nat /\
    List.length (res_detailed_data r) = total_observations
                                          (res_verification_stats r).
Proof.
  eexists. split; [reflexivity |].
  split; [reflexivity |].
  apply (verification_counts_add_up [observed_baby]). reflexivity.
Defined.

(** ** dashboard_metrics.py: mortality *)

Section Mortality.
Context `{RT : Runtime}.

Lemma death_step_sound (st : death_scan) (baby : dict) (st' : death_scan) :
  death_scan_sound st -> death_step st baby = Ok st' -> death_scan_sound st'.
Proof.
  intros Hs H. unfold death_step in H.
  destruct (negb (truthy (get baby "UID"))); [injection H as <-; exact Hs |].
  bind_as H seen Hseen. destruct seen; [injection H as <-; exact Hs |].
  destruct Hs as [H1 [H2 [H3 [H4 [H5 [H6 [H7 [H8 [H9 H10]]]]]]]]].
  assert (Hfresh : existsb (py_eqb (get baby "UID")) (dead_uids st) = false).
  { destruct (existsb (py_eqb (get baby "UID")) (dead_uids st)) eqn:E;
      [| reflexivity].
    apply H10 in E. unfold set_mem in Hseen.
    destruct (hashable _); [| discriminate]. congruence. }
  assert (Hhash : hashable (get baby "UID") = true).
  { unfold set_mem in Hseen. destruct (hashable _); [reflexivity | discriminate]. }
  bind_as H dead Hdead.
  assert (Edead : dead = if py_eqb (get baby "deadBaby") (VBool true)
                         then dead_uids st ++ [get baby "UID"]
                         else dead_uids st).
  { destruct (py_eqb (get baby "deadBaby") (VBool true)).
    - unfold set_add, set_mem in Hdead. rewrite Hhash, Hfresh in Hdead.
      injection Hdead as <-. reflexivity.
    - injection Hdead as <-. reflexivity. }
  bind_as H ht Hht. bind_as H hd Hhd. bind_as H lt Hlt. bind_as H ld Hld.
  bind_as H stability Hstab. bind_as H ages Hages.
  destruct ages as [neonatal infant]. injection H as <-.
  assert (Hages' :
            (neonatal + infant <=
             neonatal_deaths st + infant_deaths st
             + (if py_eqb (get baby "deadBaby") (VBool true) then 1 else 0))%nat
            /\ (neonatal_deaths st + infant_deaths st <= neonatal + infant)%nat).
  { destruct (py_eqb (get baby "deadBaby") (VBool true)).
    - bind_as Hages b Hb. bind_as Hages dd Hdd.
      bind_as Hages b' Hb'.
      destruct b' as [b' |]; [| injection Hages as <- <-; lia].
      bind_as Hages dd' Hdd'.
      destruct dd' as [dd' |]; [| injection Hages as <- <-; lia].
      bind_as Hages age Hage.
      destruct (age <=? 28)%Z; injection Hages as <- <-; lia.
    - injection Hages as <- <-. lia. }
  match goal with
  | |- context [bump_if ?b (inborn_total st)] => generalize b
  end.
  intros inb.
  unfold death_scan_sound;
    cbn [Metrics.processed_uids dead_uids inborn_total inborn_deaths
         outborn_total outborn_deaths kmc_stable_total kmc_stable_deaths
         kmc_unstable_total kmc_unstable_deaths neonatal_deaths
         infant_deaths].
  subst dead. unfold bump_if.
  destruct (py_eqb (get baby "deadBaby") (VBool true));
    destruct inb;
    destruct (stability =? "stable");
    cbn [negb andb]; rewrite ?length_app; cbn [List.length];
    (refine (conj _ (conj _ (conj _ (conj _ (conj _ (conj _ (conj _
               (conj _ (conj _ _)))))))));
     [lia | lia | lia | lia | lia | lia | lia | lia | lia |]);
    intros x Hx; rewrite ?existsb_app in *; cbn [existsb] in *;
    rewrite ?orb_false_r in *;
    try (apply orb_true_iff in Hx as [Hx | Hx];
         [rewrite (H10 x Hx); reflexivity | rewrite Hx; apply orb_true_r]);
    try (rewrite (H10 x Hx); reflexivity).
Qed.

(** X10.  The figures of [calculate_death_rates] are consistent: every
    baby counted is inborn or outborn and is stable or unstable, so are
    the dead; the neonatal and infant deaths together are at most the
    dead babies; and no class has more deaths than babies. *)
Theorem death_figures_are_consistent :
  forall (baby_data : list dict) (r : death_figures),
    death_rates_figures baby_data = Ok r ->
    let '((inborn, inborn_dead), (outborn, outborn_dead)) := birth_place r in
    let '((stable, stable_dead), (unstable, unstable_dead)) :=
      kmc_stability r in
    let '(neonatal, infant) := neonatal_vs_infant r in
    (inborn + outborn = total_babies r)%nat /\
    (stable + unstable = total_babies r)%nat /\
    (inborn_dead + outborn_dead = dead_babies r)%nat /\
    (stable_dead + unstable_dead = dead_babies r)%nat /\
    (neonatal + infant <= dead_babies r)%nat /\
    (inborn_dead <= inborn)%nat /\ (outborn_dead <= outborn)%nat /\
    (stable_dead <= stable)%nat /\ (unstable_dead <= unstable)%nat /\
    (dead_babies r <= total_babies r)%nat.
Proof.
  intros baby_data r H. unfold death_rates_figures in H.
  bind_as H st Hst. bind_as H all_hospitals Hh. injection H as <-. cbn.
  assert (Hs : death_scan_sound st).
  { refine (for_each_invariant death_scan_sound _ _
              (fun s x s' => death_step_sound s x s') _ _ _ Hst).
    unfold death_scan_sound; cbn.
    repeat split; try lia; try (intros x Hx; discriminate). }
  destruct Hs as [H1 [H2 [H3 [H4 [H5 [H6 [H7 [H8 [H9 _]]]]]]]]].
  repeat split; lia.
Qed.

End Mortality.

Lemma death_figures_are_consistent_witness :
  exists r,
    @death_rates_figures example_runtime
      [dead_baby; prompt_baby; light_baby] = Ok r /\
    total_babies r = 3%nat /\ dead_babies r = 1%nat /\
    (dead_babies r <= total_babies r)%nat.
Proof.
  eexists. split; [vm_compute; reflexivity |].
  split; [reflexivity |]. split; [reflexivity |].
  match goal with
  | |- (dead_babies ?r <= _)%nat =>
      assert (E : @death_rates_figures example_runtime
                    [dead_baby; prompt_baby; light_baby] = Ok r)
        by (vm_compute; reflexivity);
      pose proof (@death_figures_are_consistent example_runtime
                    [dead_baby; prompt_baby; light_baby] r E) as H
  end.
  vm_compute in H. decompose [and] H. assumption.
Defined.

(** Hospitals come out in sorted order; a null among the names cannot be
    ordered with a text; one baby in three dead is 33.33333333333333
    per cent, the double next below a third of a hundred. *)
Example hospitals_are_sorted :
  sorted_keys [VStr "H2"; VStr "H1"; VStr "Unknown"]
  = Ok [VStr "H1"; VStr "H2"; VStr "Unknown"] /\
  sorted_keys [VStr "H1"; VNone] = Raise TypeError /\
  sorted_keys [VNone] = Ok [VNone] /\
  (percentage 1 3 == 2345624805922133 # 70368744177664)%Q.
Proof.
  split; [reflexivity |]. split; [reflexivity |]. split; [reflexivity |].
  vm_compute. reflexivity.
Qed.

(** ** dashboard_metrics.py: nurse productivity *)

Lemma credited_cons (k : string) (r : nurse_row) (t : nurse_table) :
  credited ((k, r) :: t) = (discharges r + credited t)%nat.
Proof. reflexivity. Qed.

Lemma credited_app (t1 t2 : nurse_table) :
  credited (t1 ++ t2) = (credited t1 + credited t2)%nat.
Proof.
  induction t1 as [| [k r] t1 IH]; [reflexivity |].
  rewrite <- app_comm_cons, !credited_cons, IH. lia.
Qed.

Lemma credited_ensure (key : string) (n h : pyval) (t : nurse_table) :
  credited (nurse_ensure key n h t) = credited t.
Proof.
  unfold nurse_ensure. destruct (nurse_find key t); [reflexivity |].
  rewrite credited_app, credited_cons. cbn. lia.
Qed.

Lemma credited_update (key : string) (f : nurse_row -> nurse_row)
    (t : nurse_table) :
  (forall r, discharges (f r) = discharges r) ->
  credited (nurse_update key f t) = credited t.
Proof.
  intros Hf. induction t as [| [k r] t IH]; [reflexivity |].
  cbn [nurse_update]. destruct (k =? key).
  - rewrite !credited_cons, Hf. reflexivity.
  - rewrite !credited_cons, IH. reflexivity.
Qed.

Lemma credited_discharge (key : string) (t : nurse_table) :
  nurse_find key t <> None ->
  credited (nurse_update key add_discharge t) = S (credited t).
Proof.
  induction t as [| [k r] t IH]; cbn [nurse_update nurse_find];
    [congruence |].
  destruct (k =? key).
  - intros _. rewrite !credited_cons. cbn. lia.
  - intros H. rewrite !credited_cons, (IH H). lia.
Qed.

Lemma nurse_find_ensured (key : string) (n h : pyval) (t : nurse_table) :
  nurse_find key (nurse_ensure key n h t) <> None.
Proof.
  rewrite nurse_find_ensure, String.eqb_refl.
  destruct (nurse_find key t); discriminate.
Qed.

Section MoreNurses.
Context `{RT : Runtime}.

Lemma followup_step_credited (w : window) (t t' : nurse_table) (baby : dict) :
  followup_step w t baby = Ok t' -> credited t' = credited t.
Proof.
  unfold followup_step. intros H.
  destruct (negb (truthy _)); [injection H as <-; reflexivity |].
  destruct (negb (py_eq_str _ _)); [| injection H as <-; reflexivity].
  bind_as H entries He.
  rewrite <- (credited_ensure
                (nurse_key (get_or baby "nurseName" (VStr "Not specified"))
                           (get_or baby "hospitalName" (VStr "Unknown")))
                (get_or baby "nurseName" (VStr "Not specified"))
                (get_or baby "hospitalName" (VStr "Unknown")) t).
  refine (for_each_invariant (fun x => credited x = _) _ _ _ _ _ eq_refl H).
  intros s x s' Hs Hx. rewrite <- Hs. unfold followup_entry_step in Hx.
  destruct x; try (injection Hx as <-; reflexivity).
  destruct (list_mem _ _); [| injection Hx as <-; reflexivity].
  bind_as Hx fd Hfd. bind_as Hx dated Hdated.
  destruct (_ && _); injection Hx as <-; [| reflexivity].
  apply credited_update. reflexivity.
Qed.

Lemma registration_step_credited (w : window) (t t' : nurse_table)
    (baby : dict) :
  registration_step w t baby = Ok t' -> credited t' = credited t.
Proof.
  unfold registration_step. intros H.
  destruct (negb (py_eq_str _ _)); [| injection H as <-; reflexivity].
  bind_as H rd Hrd. bind_as H dated Hdated.
  destruct dated;
    injection H as <-; rewrite ?credited_update by reflexivity;
    apply credited_ensure.
Qed.

Lemma credit_balanced (w : window) (uid n h : pyval) (d : option moment)
    (pool : discharge_counts -> discharge_counts) (base : nat)
    (st st' : discharge_walk) :
  (forall c, counted_discharges (pool c) = S (counted_discharges c)) ->
  walk_balanced base st ->
  credit_discharge w uid n h d pool st = Ok st' ->
  walk_balanced base st'.
Proof.
  intros Hpool Hb H. unfold credit_discharge in H.
  destruct (negb _); [| injection H as <-; exact Hb].
  bind_as H allowed Hadm.
  destruct allowed; [| injection H as <-; exact Hb].
  destruct (hospital_selected w h); [| injection H as <-; exact Hb].
  bind_as H p Hp. injection H as <-.
  unfold walk_balanced in *; cbn.
  rewrite credited_discharge by apply nurse_find_ensured.
  rewrite credited_ensure, Hb, Hpool. lia.
Qed.

(** X11.  In what [calculate_nurse_activity] returns, the discharges
    credited over all nurses are as many as the three pool counters
    together: every discharge counted is credited to one nurse, once. *)
Theorem nurse_discharges_balance :
  forall (baby_data discharge_data : list dict) (w : window)
         (table : nurse_table) (c : discharge_counts),
    calculate_nurse_activity baby_data discharge_data w = Ok (table, c) ->
    credited table = counted_discharges c.
Proof.
  intros baby_data discharge_data w table c H.
  unfold calculate_nurse_activity in H.
  bind_as H t1 H1. bind_as H t2 H2.
  assert (E1 : credited t1 = 0%nat).
  { refine (for_each_invariant (fun x => credited x = 0%nat) _ _ _ [] _
              eq_refl H1).
    intros s x s' Hs Hx. rewrite (followup_step_credited _ _ _ _ Hx).
    exact Hs. }
  assert (E2 : credited t2 = 0%nat).
  { refine (for_each_invariant (fun x => credited x = 0%nat) _ _ _ _ _
              E1 H2).
    intros s x s' Hs Hx. rewrite (registration_step_credited _ _ _ _ Hx).
    exact Hs. }
  bind_as H s1 Hs1. bind_as H s2 Hs2. bind_as H s3 Hs3.
  injection H as <- <-.
  assert (B1 : walk_balanced 0 s1).
  { refine (for_each_invariant (walk_balanced 0) _ _ _ _ _ _ Hs1).
    - intros s x s' Hs Hx. unfold discharge_pool_step in Hx.
      destruct (negb _); [injection Hx as <-; exact Hs |].
      bind_as Hx seen Hseen. destruct seen; [injection Hx as <-; exact Hs |].
      bind_as Hx dd Hdd.
      refine (credit_balanced _ _ _ _ _ _ _ _ _ _ Hs Hx).
      intros []; reflexivity.
    - unfold walk_balanced; cbn. exact E2. }
  assert (B2 : walk_balanced 0 s2).
  { refine (for_each_invariant (walk_balanced 0) _ _ _ _ _ B1 Hs2).
    intros s x s' Hs Hx. unfold baby_pool_step in Hx.
    destruct (negb (py_eq_str _ _)); [injection Hx as <-; exact Hs |].
    destruct (negb _); [injection Hx as <-; exact Hs |].
    bind_as Hx seen Hseen. destruct seen; [injection Hx as <-; exact Hs |].
    destruct (truthy (get x "discharged")); [| injection Hx as <-; exact Hs].
    bind_as Hx dd Hdd.
    refine (credit_balanced _ _ _ _ _ _ _ _ _ _ Hs Hx).
    intros []; cbn; lia. }
  assert (B3 : walk_balanced 0 s3).
  { refine (for_each_invariant (walk_balanced 0) _ _ _ _ _ B2 Hs3).
    intros s x s' Hs Hx. unfold backup_pool_step in Hx.
    destruct (negb (py_eq_str _ _)); [injection Hx as <-; exact Hs |].
    destruct (negb _); [injection Hx as <-; exact Hs |].
    bind_as Hx seen Hseen. destruct seen; [injection Hx as <-; exact Hs |].
    destruct (truthy (get x "discharged")); [| injection Hx as <-; exact Hs].
    bind_as Hx dd Hdd.
    refine (credit_balanced _ _ _ _ _ _ _ _ _ _ Hs Hx).
    intros []; cbn; lia. }
  exact B3.
Qed.

End MoreNurses.

Lemma nurse_discharges_balance_witness :
  exists table c,
    @calculate_nurse_activity example_runtime
      [undated_baby; registered_baby] [undated_discharge] remote_window
    = Ok (table, c) /\
    credited table = counted_discharges c /\
    counted_discharges c = 1%nat.
Proof.
  eexists. eexists. split; [reflexivity |].
  split; [| reflexivity].
  apply (@nurse_discharges_balance example_runtime
           [undated_baby; registered_baby] [undated_discharge] remote_window).
  reflexivity.
Defined.

(** ** dashboard_metrics.py: the sandbox metrics *)

Lemma for_each_at_most {A : Type} (f : nat -> A -> res nat) (l : list A) :
  (forall n x n', f n x = Ok n' -> (n <= n' <= S n)%nat) ->
  forall n n', for_each f l n = Ok n' ->
               (n <= n' <= n + List.length l)%nat.
Proof.
  intros Hf. induction l as [| x l IH]; intros n n' H; simpl in H.
  - injection H as <-. simpl. lia.
  - bind_as H n1 H1. apply Hf in H1. apply IH in H. simpl. lia.
Qed.

Lemma filter_shorter {A : Type} (f : A -> bool) (l : list A) :
  (List.length (filter f l) <= List.length l)%nat.
Proof.
  induction l as [| x l IH]; simpl; [lia |].
  destruct (f x); simpl; lia.
Qed.

Lemma bin_day_total (h : Q) (b : kmc_bins nat) :
  bin_total (bin_day h b) = S (bin_total b).
Proof.
  unfold bin_day, bin_total.
  destruct (Qltb h 2); [cbn; lia |].
  destruct (Qle_bool 2 h && Qltb h 8); [cbn; lia |].
  destruct (Qle_bool 8 h && Qltb h 12); cbn; lia.
Qed.

Lemma exposure_days_total (m : daymap) (bid : pyval) (days : list date) :
  forall st : kmc_bins nat * nat,
    bin_total (fst st) = snd st ->
    bin_total
      (fst (fold_left
              (fun acc d =>
                 (bin_day (daymap_get (bid, d) m) (fst acc), S (snd acc)))
              days st))
    = snd (fold_left
             (fun acc d =>
                (bin_day (daymap_get (bid, d) m) (fst acc), S (snd acc)))
             days st).
Proof.
  induction days as [| d days IH]; intros st Hst; simpl; [exact Hst |].
  apply IH. simpl. rewrite bin_day_total, Hst. reflexivity.
Qed.

Lemma tally_le_refl (t : tally) : tally_le t t.
Proof.
  unfold tally_le. induction t as [| x t IH]; constructor; auto.
Qed.

Lemma tally_le_bump_both (num : pyval) (c d : tally) :
  tally_le c d -> tally_le (tally_bump num c) (tally_bump num d).
Proof.
  unfold tally_le, tally_bump. induction 1 as [| x y c d [Hk Hn] _ IH];
    simpl; constructor; [| exact IH].
  rewrite <- Hk. destruct (py_eq_int num (fst x)); simpl; split; auto; lia.
Qed.

Lemma tally_le_bump_due (num : pyval) (c d : tally) :
  tally_le c d -> tally_le c (tally_bump num d).
Proof.
  unfold tally_le, tally_bump. induction 1 as [| x y c d [Hk Hn] _ IH];
    simpl; constructor; [| exact IH].
  destruct (py_eq_int num (fst y)); simpl; split; auto; lia.
Qed.

Lemma tally_le_get (k : Z) (c d : tally) :
  tally_le c d -> (tally_get k c <= tally_get k d)%nat.
Proof.
  unfold tally_le. induction 1 as [| [k1 n1] [k2 n2] c d [Hk Hn] _ IH];
    simpl in *; [lia |].
  subst k2. destruct (k1 =? k)%Z; [exact Hn | exact IH].
Qed.

Section Sandbox.
Context `{RT : Runtime}.

Lemma system_eligibility (baby : dict) (is_eligible : bool) :
  system_is_eligible baby = Ok is_eligible ->
  is_eligible = eligible_as_decided baby.
Proof.
  unfold system_is_eligible.
  rewrite (eligibility_shape parse_handles) by reflexivity.
  destruct (_ && _); [discriminate |]. intros H. injection H as <-.
  reflexivity.
Qed.

Lemma program_eligibility (baby : dict) :
  program_is_eligible baby = Ok (eligible_as_decided baby).
Proof. apply (eligibility_shape any_exception); reflexivity. Qed.

Lemma system_select_filters (l : list dict) :
  forall bs ids bs' ids',
    for_each system_select l (bs, ids) = Ok (bs', ids') ->
    bs' = bs ++ filter eligible_as_decided l.
Proof.
  induction l as [| b l IH]; intros bs ids bs' ids' H; simpl in H.
  - injection H as <- <-. rewrite app_nil_r. reflexivity.
  - bind_as H st Hst. destruct st as [bs1 ids1].
    unfold system_select in Hst. bind_as Hst is_eligible He.
    apply system_eligibility in He. subst is_eligible.
    simpl filter. destruct (eligible_as_decided b).
    + bind_as Hst ids2 Hids. injection Hst as <- <-.
      rewrite (IH _ _ _ _ H), <- app_assoc. reflexivity.
    + injection Hst as <- <-. exact (IH _ _ _ _ H).
Qed.

Lemma program_select_filters (l : list dict) :
  forall bs ids bs' ids',
    for_each program_select l (bs, ids) = Ok (bs', ids') ->
    bs' = bs ++ filter eligible_as_decided l.
Proof.
  induction l as [| b l IH]; intros bs ids bs' ids' H; simpl in H.
  - injection H as <- <-. rewrite app_nil_r. reflexivity.
  - bind_as H st Hst. destruct st as [bs1 ids1].
    unfold program_select in Hst. rewrite program_eligibility in Hst.
    cbn [bind] in Hst. simpl filter. destruct (eligible_as_decided b).
    + bind_as Hst ids2 Hids. injection Hst as <- <-.
      rewrite (IH _ _ _ _ H), <- app_assoc. reflexivity.
    + injection Hst as <- <-. exact (IH _ _ _ _ H).
Qed.

Lemma system_early_transfer_step (n : nat) (baby : dict) (n' : nat) :
  system_early_transfer n baby = Ok n' -> (n <= n' <= S n)%nat.
Proof.
  unfold system_early_transfer. intros H.
  destruct (_ || _); [| injection H as <-; lia].
  bind_as H b Hb. bind_as H d Hd.
  bind_as H b' Hb'. destruct b' as [b' |]; [| injection H as <-; lia].
  bind_as H d' Hd'. destruct d' as [d' |]; [| injection H as <-; lia].
  bind_as H hours Hh.
  destruct (Qltb _ 24); injection H as <-; lia.
Qed.

Lemma system_exposure_total (now : datetime) (m : daymap)
    (st : kmc_bins nat * nat) (baby : dict) (st' : kmc_bins nat * nat) :
  bin_total (fst st) = snd st ->
  system_exposure now m st baby = Ok st' ->
  bin_total (fst st') = snd st'.
Proof.
  unfold system_exposure. intros Hst H.
  bind_as H b Hb. bind_as H d Hd.
  bind_as H b' Hb'. destruct b' as [b' |]; [| injection H as <-; exact Hst].
  bind_as H now' Hnow. bind_as H end_dt Hend.
  bind_as H curr Hcurr. bind_as H fin Hfin.
  destruct (days_from_to _ _) eqn:E; [injection H as <-; exact Hst |].
  destruct (hashable _); [| discriminate].
  destruct (_ =? DATE_MAX)%Z; [discriminate |].
  injection H as <-.
  exact (exposure_days_total m (get baby "UID") (_ :: _) st Hst).
Qed.

Lemma system_followup_step_le (st : tally * tally) (f : dict)
    (st' : tally * tally) :
  tally_le (fst st) (snd st) ->
  system_followup_step st f = Ok st' ->
  tally_le (fst st') (snd st').
Proof.
  destruct st as [c d]. unfold system_followup_step. intros Hle H.
  destruct (hashable _); [| discriminate].
  destruct (existsb _ c); [| injection H as <-; exact Hle].
  destruct (existsb _ _); injection H as <-; simpl in *.
  - apply tally_le_bump_both. exact Hle.
  - apply tally_le_bump_due. exact Hle.
Qed.

(** X12.  What [calculate_sandbox_system_metrics] counts as admitted and
    as identified are the babies of the input that are eligible, each
    record once as it comes; the registered are the inborn among them;
    and the babies enrolled or transferred early are never more than
    the babies they are set against. *)
Theorem sandbox_system_headcounts :
  forall (now : datetime)
         (baby_data discharge_data followup_data kmc_session_data : list dict)
         (r : system_metrics),
    calculate_sandbox_system_metrics now baby_data discharge_data
      followup_data kmc_session_data = Ok r ->
    m2_admitted r = List.length (filter eligible_as_decided baby_data) /\
    m4_identified r = m2_admitted r /\
    m1_registered r
    = List.length (filter system_inborn
                     (filter eligible_as_decided baby_data)) /\
    (m1_registered r <= m2_admitted r)%nat /\
    (m6_completeness_num r <= m6_completeness_denom r)%nat /\
    (m7_early_transfer_num r <= m7_early_transfer_denom r)%nat.
Proof.
  intros now baby_data discharge_data followup_data kmc_session_data r H.
  unfold calculate_sandbox_system_metrics in H.
  unbind H. cbv zeta in H. injection H as <-.
  cbn [m1_registered m2_admitted m4_identified m6_completeness_num
       m6_completeness_denom m7_early_transfer_num m7_early_transfer_denom].
  match goal with
  | Hs : for_each system_select _ _ = Ok (?bs, _) |- _ =>
      apply system_select_filters in Hs; simpl in Hs; subst bs
  end.
  match goal with
  | He : for_each system_early_transfer _ _ = Ok _ |- _ =>
      apply (for_each_at_most _ _ system_early_transfer_step) in He
  end.
  refine (conj eq_refl (conj eq_refl (conj eq_refl (conj _ (conj _ _))))).
  - apply filter_shorter.
  - apply filter_shorter.
  - lia.
Qed.

(** X13.  In the exposure distribution of
    [calculate_sandbox_system_metrics] every day analysed falls in one of
    the four bins: the four counts add up to the days analysed. *)
Theorem exposure_bins_add_up :
  forall (now : datetime)
         (baby_data discharge_data followup_data kmc_session_data : list dict)
         (r : system_metrics),
    calculate_sandbox_system_metrics now baby_data discharge_data
      followup_data kmc_session_data = Ok r ->
    bin_total (m13_counts r) = m13_total_days r.
Proof.
  intros now baby_data discharge_data followup_data kmc_session_data r H.
  unfold calculate_sandbox_system_metrics in H.
  unbind H. cbv zeta in H. injection H as <-.
  cbn [m13_counts m13_total_days].
  match goal with
  | He : for_each (system_exposure _ _) _ ?s0 = Ok (?b, ?n) |- _ =>
      exact (for_each_invariant
               (fun st => bin_total (fst st) = snd st) _ _
               (fun s x s' => system_exposure_total _ _ s x s')
               s0 (b, n) eq_refl He)
  end.
Qed.

(** X14.  For each of the follow-up days 7, 14, 21 and 28,
    [calculate_sandbox_system_metrics] never counts more follow-ups made
    than follow-ups due. *)
Theorem followups_made_are_due :
  forall (now : datetime)
         (baby_data discharge_data followup_data kmc_session_data : list dict)
         (r : system_metrics),
    calculate_sandbox_system_metrics now baby_data discharge_data
      followup_data kmc_session_data = Ok r ->
    (m9_d7_num r <= m9_d7_denom r)%nat /\
    (m10_d14_num r <= m10_d14_denom r)%nat /\
    (m11_d21_num r <= m11_d21_denom r)%nat /\
    (m12_d28_num r <= m12_d28_denom r)%nat.
Proof.
  intros now baby_data discharge_data followup_data kmc_session_data r H.
  unfold calculate_sandbox_system_metrics in H.
  unbind H. cbv zeta in H. injection H as <-.
  cbn [m9_d7_num m9_d7_denom m10_d14_num m10_d14_denom m11_d21_num
       m11_d21_denom m12_d28_num m12_d28_denom].
  match goal with
  | He : for_each system_followup_step _ ?s0 = Ok (?c, ?d) |- _ =>
      pose proof (for_each_invariant
                    (fun st => tally_le (fst st) (snd st)) _ _
                    (fun s x s' => system_followup_step_le s x s')
                    s0 (c, d) (tally_le_refl tally_init) He) as Hle
  end.
  simpl in Hle.
  refine (conj _ (conj _ (conj _ _))); apply tally_le_get; exact Hle.
Qed.

Lemma program_tally_sound (f : dict) (t t' : follow_tally) :
  follow_tally_sound t -> program_tally f t = Ok t' -> follow_tally_sound t'.
Proof.
  destruct t as [[contacted kmc] care]. unfold program_tally.
  intros [Hk Hc] H. bind_as H positive Hp. injection H as <-.
  unfold follow_tally_sound.
  destruct positive, (truthy _); split; lia.
Qed.

Lemma program_followup_step_sound (st : follow_tally * follow_tally)
    (f : dict) (st' : follow_tally * follow_tally) :
  follow_tally_sound (fst st) /\ follow_tally_sound (snd st) ->
  program_followup_step st f = Ok st' ->
  follow_tally_sound (fst st') /\ follow_tally_sound (snd st').
Proof.
  destruct st as [d7 d28]. unfold program_followup_step.
  intros [H7 H28] H.
  destruct (existsb _ _); [| injection H as <-; split; assumption].
  destruct (_ || _).
  - bind_as H t Ht. injection H as <-. split; [| exact H28].
    exact (program_tally_sound _ _ _ H7 Ht).
  - destruct (_ || _); [| injection H as <-; split; assumption].
    bind_as H t Ht. injection H as <-. split; [exact H7 |].
    exact (program_tally_sound _ _ _ H28 Ht).
Qed.

Lemma program_critical_le (l : list dict) :
  forall st : nat * nat,
    (fst st <= snd st)%nat ->
    (fst (fold_left program_critical l st)
     <= snd (fold_left program_critical l st))%nat.
Proof.
  induction l as [| b l IH]; intros st Hst; simpl; [exact Hst |].
  apply IH. destruct st as [c a]. unfold program_critical.
  destruct (_ && _); [| exact Hst].
  destruct (_ && _); [| exact Hst].
  simpl in *. destruct (contains "critical" _); simpl; lia.
Qed.

(** X15.  [calculate_sandbox_program_metrics] sets its initiation
    figures against the eligible babies of the input, the same babies
    [calculate_sandbox_system_metrics] counts as admitted; and among the
    babies discharged alive and the follow-ups contacted, those counted
    as critical, as keeping up KMC or as needing care are never more
    than the babies or follow-ups they are set against. *)
Theorem sandbox_program_headcounts :
  forall (now : datetime)
         (baby_data discharge_data followup_data kmc_session_data : list dict)
         (r : program_metrics),
    calculate_sandbox_program_metrics now baby_data discharge_data
      followup_data kmc_session_data = Ok r ->
    m1_any_init_den r = List.length (filter eligible_as_decided baby_data) /\
    m2_init_24h_den r = m1_any_init_den r /\
    (m7_critical_num r <= m7_critical_den r)%nat /\
    (m9_kmc_cont_d7_num r <= m9_kmc_cont_d7_den r)%nat /\
    (m10_kmc_cont_d28_num r <= m10_kmc_cont_d28_den r)%nat /\
    (m11_care_d7_num r <= m11_care_d7_den r)%nat /\
    (m12_care_d28_num r <= m12_care_d28_den r)%nat.
Proof.
  intros now baby_data discharge_data followup_data kmc_session_data r H.
  unfold calculate_sandbox_program_metrics in H.
  unbind H. cbv zeta in H.
  match goal with
  | _ : context [fold_left program_critical ?l ?s] |- _ =>
      pose proof (program_critical_le l s (le_n 0)) as Hcrit
  end.
  destruct (fold_left program_critical _ _) as [critical alive].
  apply bind_Ok in H.
  destruct H as [[[[c7 k7] r7] [[c28 k28] r28]] [Hf H]].
  injection H as <-.
  cbn [m1_any_init_den m2_init_24h_den m7_critical_num m7_critical_den
       m9_kmc_cont_d7_num m9_kmc_cont_d7_den m10_kmc_cont_d28_num
       m10_kmc_cont_d28_den m11_care_d7_num m11_care_d7_den
       m12_care_d28_num m12_care_d28_den].
  match goal with
  | Hs : for_each program_select _ _ = Ok (?bs, _) |- _ =>
      apply program_select_filters in Hs; simpl in Hs; subst bs
  end.
  assert (Hinv : follow_tally_sound (c7, k7, r7) /\
                 follow_tally_sound (c28, k28, r28)).
  { refine (for_each_invariant
              (fun st => follow_tally_sound (fst st) /\
                         follow_tally_sound (snd st)) _ _
              (fun s x s' => program_followup_step_sound s x s')
              _ _ _ Hf).
    cbn. lia. }
  destruct Hinv as [[Hk7 Hr7] [Hk28 Hr28]].
  simpl in Hcrit.
  refine (conj eq_refl (conj eq_refl (conj Hcrit (conj Hk7 (conj Hk28
            (conj Hr7 Hr28)))))).
Qed.

End Sandbox.

Lemma sandbox_system_headcounts_witness :
  exists r,
    @calculate_sandbox_system_metrics example_runtime two_days_on
      [kmc_baby; term_baby; prompt_baby] [] [completed_followup] [kmc_session]
    = Ok r /\
    m2_admitted r = 1%nat /\
    (m1_registered r <= m2_admitted r)%nat.
Proof.
  eexists. split; [vm_compute; reflexivity |].
  split; [reflexivity |].
  match goal with
  | |- (m1_registered ?r <= _)%nat =>
      assert (E : @calculate_sandbox_system_metrics example_runtime
                    two_days_on [kmc_baby; term_baby; prompt_baby] []
                    [completed_followup] [kmc_session] = Ok r)
        by (vm_compute; reflexivity);
      pose proof (@sandbox_system_headcounts example_runtime two_days_on
                    [kmc_baby; term_baby; prompt_baby] []
                    [completed_followup] [kmc_session] r E) as H
  end.
  decompose [and] H. assumption.
Defined.

Lemma exposure_bins_add_up_witness :
  exists r,
    @calculate_sandbox_system_metrics example_runtime two_days_on
      [kmc_baby] [] [] [kmc_session] = Ok r /\
    m13_total_days r = 3%nat /\
    bin_total (m13_counts r) = m13_total_days r.
Proof.
  eexists. split; [vm_compute; reflexivity |].
  split; [reflexivity |].
  apply (@exposure_bins_add_up example_runtime two_days_on
           [kmc_baby] [] [] [kmc_session]).
  vm_compute. reflexivity.
Defined.

Lemma followups_made_are_due_witness :
  exists r,
    @calculate_sandbox_system_metrics example_runtime two_days_on
      [kmc_baby] [] [completed_followup; pending_followup] [] = Ok r /\
    m9_d7_num r = 1%nat /\ m9_d7_denom r = 2%nat /\
    (m9_d7_num r <= m9_d7_denom r)%nat.
Proof.
  eexists. split; [vm_compute; reflexivity |].
  split; [reflexivity |]. split; [reflexivity |].
  apply (@followups_made_are_due example_runtime two_days_on
           [kmc_baby] [] [completed_followup; pending_followup] []).
  vm_compute. reflexivity.
Defined.

Lemma sandbox_program_headcounts_witness :
  exists r,
    @calculate_sandbox_program_metrics example_runtime two_days_on
      [kmc_baby; term_baby] [] [completed_followup] [kmc_session] = Ok r /\
    m1_any_init_den r = 1%nat /\ m9_kmc_cont_d7_den r = 1%nat /\
    (m9_kmc_cont_d7_num r <= m9_kmc_cont_d7_den r)%nat.
Proof.
  eexists. split; [vm_compute; reflexivity |].
  split; [reflexivity |]. split; [reflexivity |].
  apply (@sandbox_program_headcounts example_runtime two_days_on
           [kmc_baby; term_baby] [] [completed_followup] [kmc_session]).
  vm_compute. reflexivity.
Defined.

(** ** dashboard_metrics.py: registration timeliness, when it fails *)

Section MoreTimeliness.
Context `{RT : Runtime}.

Lemma timeliness_step_unreadable (st : nat * nat) (baby : dict) :
  stamp_readable baby = false ->
  natively_stamped baby = true ->
  timeliness_step st baby = Raise AttributeError.
Proof.
  destruct st as [n24 n12].
  unfold stamp_readable, natively_stamped, timeliness_step.
  intros H N. apply andb_prop in N as [N _].
  destruct (native_cases _ N) as [[-> _] | [birth [-> _]]];
    cbn [bind]; revert H; unfold registration_stamp;
    (destruct (truthy (get baby "registrationDate")); [discriminate |]);
    destruct (get_or baby "registrationDataType" (VDict []));
    cbn; intros H; try reflexivity; discriminate.
Qed.

Lemma timeliness_loop_unreadable (l : list dict) (st : nat * nat) :
  forallb stamp_readable l = false ->
  forallb natively_stamped l = true ->
  for_each timeliness_step l st = Raise AttributeError.
Proof.
  revert st; induction l as [| baby l IH]; intros st H N; simpl in H;
    [discriminate |].
  simpl in N. apply andb_prop in N as [Nb Nl].
  cbn [for_each].
  destruct (stamp_readable baby) eqn:Hb.
  - rewrite (timeliness_step_counts st baby Hb Nb). cbn [bind].
    apply IH; assumption.
  - rewrite (timeliness_step_unreadable st baby Hb Nb). reflexivity.
Qed.

(** X16.  Over inborn babies whose stamps are numbers or empty (or are
    otherwise turned into [None] or a naive date-time),
    [calculate_registration_timeliness] fails with an [AttributeError]
    as soon as one of them has no registration date at the top of its
    record and a nested registration record that is not a record, a null
    for instance. *)
Theorem registration_timeliness_raises :
  forall (baby_data : list dict),
    forallb stamp_readable (inborn baby_data) = false ->
    forallb natively_stamped (inborn baby_data) = true ->
    calculate_registration_timeliness baby_data = Raise AttributeError.
Proof.
  intros baby_data H N. unfold calculate_registration_timeliness.
  fold (inborn baby_data).
  rewrite (timeliness_loop_unreadable _ _ H N). reflexivity.
Qed.

End MoreTimeliness.

Lemma registration_timeliness_raises_witness :
  @calculate_registration_timeliness example_runtime
    [prompt_baby; unregistered_baby] = Raise AttributeError.
Proof.
  apply (@registration_timeliness_raises example_runtime
           [prompt_baby; unregistered_baby]); reflexivity.
Defined.

(** ** dashboard_utils.py: the hierarchical discharge date *)

Section Hierarchy.
Context `{RT : Runtime}.

Lemma discharge_walks_agree (baby_uid : pyval) (discharge_data : list dict) :
  natively_dated baby_uid discharge_data = true ->
  forall weight,
    (exists d w,
        discharge_date_walk baby_uid discharge_data = Ok (Some d) /\
        discharge_info_walk baby_uid discharge_data None weight
        = Ok (true, Some d, w)) \/
    (exists w,
        discharge_date_walk baby_uid discharge_data = Ok None /\
        discharge_info_walk baby_uid discharge_data None weight
        = Ok (false, None, w)).
Proof.
  unfold natively_dated.
  induction discharge_data as [| discharge rest IH]; intros N weight;
    cbn [discharge_date_walk discharge_info_walk].
  - right. eauto.
  - cbn [forallb] in N. apply andb_prop in N as [Nd Nr].
    destruct (py_equal (get discharge "UID") baby_uid);
      [| apply IH; exact Nr].
    cbn [negb orb] in Nd.
    destruct (native_cases _ Nd) as [[-> _] | [d [-> _]]];
      cbn [bind when_set is_set].
    + apply IH. exact Nr.
    + left. eauto.
Qed.

(** X17.  When the discharge dates of the records that carry the uid of
    the baby, and the baby's own, are numbers or empty (or are otherwise
    turned into [None] or a naive date-time),
    [get_hierarchical_discharge_date] and
    [get_hierarchical_discharge_info] both return, and the date of the
    second is the date the first returns. *)
Theorem hierarchical_date_and_info_agree :
  forall (baby : dict) (discharge_data : list dict),
    natively_dated (get baby "UID") discharge_data = true ->
    native (py_or (get baby "lastDischargeDate") (get baby "dischargeDate"))
    = true ->
    exists date weight,
      get_hierarchical_discharge_date baby discharge_data = Ok date /\
      get_hierarchical_discharge_info baby discharge_data
      = Ok (date, weight).
Proof.
  intros baby discharge_data N Nown.
  unfold get_hierarchical_discharge_date, get_hierarchical_discharge_info.
  destruct (discharge_walks_agree (get baby "UID") discharge_data N VNone)
    as [[d [w [-> ->]]] | [w [-> ->]]]; cbn [bind].
  - eauto.
  - destruct (truthy (get baby "discharged")); [| eauto].
    destruct (native_cases _ Nown) as [[-> _] | [d [-> _]]];
      cbn [bind when_set is_set]; eauto.
Qed.

Lemma discharge_date_walk_find (baby_uid : pyval)
    (discharge_data : list dict) :
  natively_dated baby_uid discharge_data = true ->
  discharge_date_walk baby_uid discharge_data
  = match find (dated_for baby_uid) discharge_data with
    | Some discharge =>
        convert_unix_to_datetime (get discharge "dischargeDate")
    | None => Ok None
    end.
Proof.
  unfold natively_dated.
  induction discharge_data as [| discharge rest IH]; intros N;
    cbn [discharge_date_walk find]; [reflexivity |].
  cbn [forallb] in N. apply andb_prop in N as [Nd Nr].
  unfold dated_for at 1.
  destruct (py_equal (get discharge "UID") baby_uid); cbn [andb];
    [| exact (IH Nr)].
  cbn [negb orb] in Nd.
  destruct (native_cases _ Nd) as [[E _] | [d [E _]]]; rewrite E;
    cbn [bind when_set is_set];
    [exact (IH Nr) | rewrite E; reflexivity].
Qed.

(** X18.  The discharges collection comes first in
    [get_hierarchical_discharge_date]: when the discharge dates of the
    records that carry the uid of the baby, and the baby's own, are
    numbers or empty (or are otherwise turned into [None] or a naive
    date-time), the date is that of the first record of the collection
    that carries the baby's uid and a date that converts, whatever the
    baby's own record says; only when there is no such record is it the
    baby's own date, and that only for a baby marked discharged. *)
Theorem discharges_collection_comes_first :
  forall (baby : dict) (discharge_data : list dict),
    natively_dated (get baby "UID") discharge_data = true ->
    native (py_or (get baby "lastDischargeDate") (get baby "dischargeDate"))
    = true ->
    get_hierarchical_discharge_date baby discharge_data
    = match find (dated_for (get baby "UID")) discharge_data with
      | Some discharge =>
          convert_unix_to_datetime (get discharge "dischargeDate")
      | None => own_discharge_date baby
      end.
Proof.
  intros baby discharge_data N Nown.
  unfold get_hierarchical_discharge_date.
  rewrite (discharge_date_walk_find _ _ N).
  destruct (find (dated_for (get baby "UID")) discharge_data)
    as [discharge |] eqn:Hf.
  - apply find_some in Hf as [_ Hd]. unfold dated_for in Hd.
    apply andb_prop in Hd as [_ Hd].
    destruct (convert_unix_to_datetime (get discharge "dischargeDate"))
      as [[d |] | e]; try discriminate.
    reflexivity.
  - cbn [bind]. unfold own_discharge_date.
    destruct (truthy (get baby "discharged")); [| reflexivity].
    destruct (native_cases _ Nown) as [[-> _] | [d [-> _]]]; reflexivity.
Qed.

End Hierarchy.

(** The undated record is passed over and the dated one gives the date,
    in both functions. *)
Lemma hierarchical_date_and_info_agree_witness :
  exists weight,
    @get_hierarchical_discharge_date example_runtime discharged_baby
      [undated_record; dated_record]
    = Ok (Some (Naive ((T0 + hours 48 + 19800) * 1000000)%Z)) /\
    @get_hierarchical_discharge_info example_runtime discharged_baby
      [undated_record; dated_record]
    = Ok (Some (Naive ((T0 + hours 48 + 19800) * 1000000)%Z), weight).
Proof.
  destruct (@hierarchical_date_and_info_agree example_runtime
              discharged_baby [undated_record; dated_record]
              eq_refl eq_refl) as [date [weight [Hd Hi]]].
  exists weight.
  assert (E : date = Some (Naive ((T0 + hours 48 + 19800) * 1000000)%Z)).
  { assert (H : @get_hierarchical_discharge_date example_runtime
                  discharged_baby [undated_record; dated_record]
                = Ok (Some (Naive ((T0 + hours 48 + 19800) * 1000000)%Z)))
      by (vm_compute; reflexivity).
    rewrite H in Hd. injection Hd as <-. reflexivity. }
  rewrite <- E. split; [exact Hd | exact Hi].
Defined.

(** With the dated record in the collection the date is its date; with
    the undated one alone it is the baby's own. *)
Lemma discharges_collection_comes_first_witness :
  @get_hierarchical_discharge_date example_runtime discharged_baby
    [undated_record; dated_record]
  = @convert_unix_to_datetime example_runtime (VInt (T0 + hours 48)) /\
  @get_hierarchical_discharge_date example_runtime discharged_baby
    [undated_record]
  = @convert_unix_to_datetime example_runtime (VInt (T0 + hours 24)).
Proof.
  split.
  - exact (@discharges_collection_comes_first example_runtime
             discharged_baby [undated_record; dated_record]
             eq_refl eq_refl).
  - exact (@discharges_collection_comes_first example_runtime
             discharged_baby [undated_record] eq_refl eq_refl).
Defined.

(** The undated record is passed over, the dated one wins over the
    baby's own date, and the weight comes with it. *)
Example hierarchical_discharge_scenario :
  @get_hierarchical_discharge_info example_runtime discharged_baby
    [undated_record; dated_record]
  = Ok (Some (Naive ((T0 + hours 48 + 19800) * 1000000)%Z), VInt 2600) /\
  @get_hierarchical_discharge_info example_runtime discharged_baby
    [undated_record]
  = Ok (Some (Naive ((T0 + hours 24 + 19800) * 1000000)%Z), VInt 2400).
Proof. split; vm_compute; reflexivity. Qed.

(** ** dashboard_metrics.py: discharge outcomes *)

Lemma categorize_discharge_outcome (record : dict) (source category : string) :
  categorize_discharge record source = Ok category -> In category OUTCOMES.
Proof.
  unfold categorize_discharge. intros H.
  destruct (source =? "discharges");
    [| destruct (source =? "baby"); [| destruct (source =? "babyBackUp")]];
    try (bind_as H s Hs; bind_as H t Ht; injection H as <-;
         apply category_of_outcome).
  injection H as <-. unfold OUTCOMES. simpl. auto 6.
Qed.

Lemma count_outcome_sum (c : outcome_counts) (category : string) :
  In category OUTCOMES ->
  outcome_sum (count_outcome c category) = S (outcome_sum c).
Proof.
  unfold OUTCOMES, outcome_sum.
  intros [<- | [<- | [<- | [<- | [<- | []]]]]]; cbn; lia.
Qed.

Lemma outcome_step_counts (selected : list pyval)
    (st st' : list pyval * outcome_counts) (discharge : dict) :
  outcome_sum (snd st) = List.length (fst st) ->
  outcome_step selected st discharge = Ok st' ->
  outcome_sum (snd st') = List.length (fst st').
Proof.
  destruct st as [processed cats]. unfold outcome_step. intros Hs H.
  destruct (negb (truthy _)); [injection H as <-; exact Hs |].
  bind_as H seen Hseen. destruct seen; [injection H as <-; exact Hs |].
  bind_as H known Hknown.
  destruct known; cbn [negb] in H; [| injection H as <-; exact Hs].
  bind_as H category Hc. injection H as <-.
  cbn [fst snd] in *.
  rewrite (count_outcome_sum _ _ (categorize_discharge_outcome _ _ _ Hc)).
  rewrite length_app, Hs. cbn. lia.
Qed.

Lemma outcome_step_grows (selected : list pyval)
    (st st' : list pyval * outcome_counts) (discharge : dict) :
  outcome_step selected st discharge = Ok st' ->
  (List.length (fst st) <= List.length (fst st')
   <= S (List.length (fst st)))%nat.
Proof.
  destruct st as [processed cats]. unfold outcome_step. intros H.
  destruct (negb (truthy _)); [injection H as <-; cbn; lia |].
  bind_as H seen Hseen. destruct seen; [injection H as <-; cbn; lia |].
  bind_as H known Hknown.
  destruct known; cbn [negb] in H; [| injection H as <-; cbn; lia].
  bind_as H category Hc. injection H as <-.
  cbn [fst]. rewrite length_app. cbn. lia.
Qed.

Lemma for_each_grows {A St : Type} (size : St -> nat)
    (f : St -> A -> res St) (l : list A) :
  (forall s x s', f s x = Ok s' -> (size s <= size s' <= S (size s))%nat) ->
  forall s s', for_each f l s = Ok s' ->
               (size s <= size s' <= size s + List.length l)%nat.
Proof.
  intros Hf. induction l as [| x l IH]; intros s s' H; simpl in H.
  - injection H as <-. simpl. lia.
  - bind_as H s1 H1. apply Hf in H1. apply IH in H. simpl. lia.
Qed.

(** X19.  In what [calculate_discharge_outcomes] returns the five
    category counts add up to the number of babies processed: every
    discharge counted falls in exactly one category; and no more babies
    are processed than there are discharge records. *)
Theorem discharge_outcomes_add_up :
  forall (baby_data discharge_data : list dict) (r : discharge_outcomes),
    calculate_discharge_outcomes baby_data discharge_data = Ok r ->
    total_discharged r = unique_babies_processed r /\
    (critical_home (categories r) + stable_home (categories r)
     + critical_referred (categories r) + died (categories r)
     + other (categories r))%nat = unique_babies_processed r /\
    (unique_babies_processed r <= List.length discharge_data)%nat.
Proof.
  intros baby_data discharge_data r H.
  unfold calculate_discharge_outcomes in H.
  bind_as H selected Hsel. bind_as H st Hst.
  destruct st as [processed cats]. injection H as <-.
  cbn [total_discharged unique_babies_processed categories].
  pose proof (for_each_invariant
                (fun st => outcome_sum (snd st) = List.length (fst st)) _ _
                (fun s x s' => outcome_step_counts selected s s' x)
                ([], outcome_counts_init) (processed, cats) eq_refl Hst)
    as Hsum.
  pose proof (for_each_grows (fun st => List.length (fst st)) _ _
                (fun s x s' => outcome_step_grows selected s s' x)
                _ _ Hst) as Hlen.
  cbn [fst snd List.length] in *.
  refine (conj Hsum (conj Hsum _)). lia.
Qed.

Lemma discharge_outcomes_add_up_witness :
  exists r,
    calculate_discharge_outcomes [discharged_baby; light_baby]
      [undated_record; dated_record; null_status_discharge] = Ok r /\
    stable_home (categories r) = 1%nat /\
    total_discharged r = unique_babies_processed r.
Proof.
  eexists. split; [vm_compute; reflexivity |].
  split; [reflexivity |].
  apply (discharge_outcomes_add_up [discharged_baby; light_baby]
           [undated_record; dated_record; null_status_discharge]).
  vm_compute. reflexivity.
Defined.

(** ** dashboard_metrics.py: follow-up completion *)

Lemma requirement_loop (followup_array : pyval) (p2 p7 p14 p28 : nat * nat)
    (stats : followup_stats) :
  for_each (requirement_step followup_array) followup_requirements
    (stats_of p2 p7 p14 p28) = Ok stats ->
  exists c2 c7 c14 c28 : bool,
    stats = stats_of (S (fst p2), bump_if c2 (snd p2))
                     (S (fst p7), bump_if c7 (snd p7))
                     (S (fst p14), bump_if c14 (snd p14))
                     (S (fst p28), bump_if c28 (snd p28)).
Proof.
  destruct p2 as [e2 c2], p7 as [e7 c7], p14 as [e14 c14], p28 as [e28 c28].
  unfold followup_requirements, stats_of. cbn [for_each]. intros H.
  bind_as H s1 H1. unfold requirement_step in H1.
  bind_as H1 entries He. bind_as H1 m2 Hm2. injection H1 as <-.
  bind_as H s2 H2. unfold requirement_step in H2.
  rewrite He in H2. cbn [bind] in H2.
  bind_as H2 m7 Hm7. injection H2 as <-.
  bind_as H s3 H3. unfold requirement_step in H3.
  rewrite He in H3. cbn [bind] in H3.
  bind_as H3 m14 Hm14. injection H3 as <-.
  bind_as H s4 H4. unfold requirement_step in H4.
  rewrite He in H4. cbn [bind] in H4.
  bind_as H4 m28 Hm28. injection H4 as <-.
  injection H as <-.
  exists m2, m7, m14, m28.
  destruct m2, m7, m14, m28; reflexivity.
Qed.

Lemma hospital_find_sound (hospital : pyval) (m : hospital_followups)
    (stats : followup_stats) :
  Forall (fun hs => stats_sound (snd hs)) m ->
  hospital_find hospital m = Some stats -> stats_sound stats.
Proof.
  induction 1 as [| [k v] m Hv _ IH]; cbn [hospital_find]; [discriminate |].
  destruct (py_eqb hospital k); [| exact IH].
  intros E. injection E as <-. exact Hv.
Qed.

Lemma hospital_put_sound (hospital : pyval) (stats : followup_stats)
    (m : hospital_followups) :
  stats_sound stats ->
  Forall (fun hs => stats_sound (snd hs)) m ->
  Forall (fun hs => stats_sound (snd hs)) (hospital_put hospital stats m).
Proof.
  intros Hs. induction 1 as [| [k v] m Hv Hm IH]; cbn [hospital_put].
  - constructor; [exact Hs | constructor].
  - destruct (py_eqb hospital k); constructor; auto.
Qed.

Lemma hospitals_eligible_cons (k : pyval) (v : followup_stats)
    (m : hospital_followups) :
  hospitals_eligible ((k, v) :: m)
  = (stats_eligible v + hospitals_eligible m)%nat.
Proof. reflexivity. Qed.

Lemma hospital_put_eligible (hospital : pyval) (stats : followup_stats)
    (m : hospital_followups) :
  (hospitals_eligible (hospital_put hospital stats m)
   + stats_eligible (match hospital_find hospital m with
                     | Some s => s
                     | None => []
                     end))%nat
  = (hospitals_eligible m + stats_eligible stats)%nat.
Proof.
  induction m as [| [k v] m IH]; cbn [hospital_put hospital_find].
  - rewrite hospitals_eligible_cons.
    change (hospitals_eligible []) with 0%nat.
    change (stats_eligible []) with 0%nat. lia.
  - destruct (py_eqb hospital k); rewrite !hospitals_eligible_cons; lia.
Qed.

Lemma followup_baby_step_sound (st st' : list pyval * hospital_followups)
    (baby : dict) :
  Forall (fun hs => stats_sound (snd hs)) (snd st) /\
  hospitals_eligible (snd st) = (4 * List.length (fst st))%nat ->
  followup_baby_step st baby = Ok st' ->
  Forall (fun hs => stats_sound (snd hs)) (snd st') /\
  hospitals_eligible (snd st') = (4 * List.length (fst st'))%nat.
Proof.
  destruct st as [processed m]. cbn [fst snd]. intros [Hall Hsum] H.
  unfold followup_baby_step in H.
  destruct (negb (truthy _)); [injection H as <-; split; assumption |].
  bind_as H seen Hseen.
  destruct seen; [injection H as <-; split; assumption |].
  destruct (py_eqb (get baby "deadBaby") (VBool true));
    [injection H as <-; split; assumption |].
  destruct (hashable _); [| discriminate].
  bind_as H stats Hstats. injection H as <-. cbn [fst snd].
  assert (Hshape :
            exists p2 p7 p14 p28,
              match hospital_find
                      (get_or baby "hospitalName" (VStr "Unknown")) m with
              | Some s => s
              | None => map (fun req => (fst req, (0%nat, 0%nat)))
                            followup_requirements
              end = stats_of p2 p7 p14 p28 /\
              (snd p2 <= fst p2)%nat /\ (snd p7 <= fst p7)%nat /\
              (snd p14 <= fst p14)%nat /\ (snd p28 <= fst p28)%nat /\
              stats_eligible
                (match hospital_find
                         (get_or baby "hospitalName" (VStr "Unknown")) m with
                 | Some s => s
                 | None => []
                 end)
              = (fst p2 + fst p7 + fst p14 + fst p28)%nat).
  { destruct (hospital_find _ m) as [s |] eqn:Hf.
    - destruct (hospital_find_sound _ _ _ Hall Hf)
        as [p2 [p7 [p14 [p28 [-> [H2 [H7 [H14 [H28 _]]]]]]]]].
      exists p2, p7, p14, p28. cbn. repeat split; try assumption. lia.
    - exists (0, 0)%nat, (0, 0)%nat, (0, 0)%nat, (0, 0)%nat.
      cbn. repeat split; lia. }
  destruct Hshape as [p2 [p7 [p14 [p28 [E [H2 [H7 [H14 [H28 Hold]]]]]]]]].
  rewrite E in Hstats.
  destruct (requirement_loop _ _ _ _ _ _ Hstats) as [c2 [c7 [c14 [c28 ->]]]].
  split.
  - apply hospital_put_sound; [| exact Hall].
    eexists _, _, _, _. split; [reflexivity |]. cbn [fst snd].
    unfold bump_if. destruct c2, c7, c14, c28; repeat split; lia.
  - pose proof (hospital_put_eligible
                  (get_or baby "hospitalName" (VStr "Unknown"))
                  (stats_of (S (fst p2), bump_if c2 (snd p2))
                            (S (fst p7), bump_if c7 (snd p7))
                            (S (fst p14), bump_if c14 (snd p14))
                            (S (fst p28), bump_if c28 (snd p28))) m) as Hput.
    rewrite Hold in Hput. cbn [stats_eligible stats_of fold_right fst snd]
      in Hput.
    rewrite length_app. cbn [List.length]. lia.
Qed.

Lemma rows_eligible_app (a b : list followup_row) :
  rows_eligible (a ++ b) = (rows_eligible a + rows_eligible b)%nat.
Proof.
  unfold rows_eligible. induction a as [| x a IH]; simpl; [reflexivity |].
  rewrite IH. lia.
Qed.

Lemma rows_completed_app (a b : list followup_row) :
  rows_completed (a ++ b) = (rows_completed a + rows_completed b)%nat.
Proof.
  unfold rows_completed. induction a as [| x a IH]; simpl; [reflexivity |].
  rewrite IH. lia.
Qed.

Lemma followup_summary_sound (m : hospital_followups) :
  Forall (fun hs => stats_sound (snd hs)) m ->
  rows_eligible (followup_summary_of m) = hospitals_eligible m /\
  (rows_completed (followup_summary_of m)
   <= rows_eligible (followup_summary_of m))%nat /\
  Forall (fun row => (0 < eligible row)%nat /\
                     (completed row <= eligible row)%nat)
         (followup_summary_of m).
Proof.
  induction 1 as [| [k v] m Hv _ [IH1 [IH2 IH3]]].
  - cbn. repeat split; [lia | constructor].
  - destruct Hv as [[e2 c2] [[e7 c7] [[e14 c14] [[e28 c28] Hv]]]].
    cbn [fst snd] in Hv.
    destruct Hv as [Hv [H2 [H7 [H14 [H28 [P2 [P7 [P14 P28]]]]]]]].
    cbn [snd] in Hv. subst v.
    change (followup_summary_of
              ((k, stats_of (e2, c2) (e7, c7) (e14, c14) (e28, c28)) :: m))
      with ((flat_map
               (fun kv =>
                  if (0 <? fst (snd kv))%nat then
                    [{| row_hospital := k;
                        followup_type := fst kv;
                        eligible := fst (snd kv);
                        completed := snd (snd kv);
                        completion_rate :=
                          Qred (count (snd (snd kv)) / count (fst (snd kv))
                                * 100) |}]
                  else [])
               (stats_of (e2, c2) (e7, c7) (e14, c14) (e28, c28)))
            ++ followup_summary_of m).
    unfold stats_of. cbn [flat_map fst snd app].
    apply Nat.ltb_lt in P2, P7, P14, P28.
    rewrite P2, P7, P14, P28. cbn [app].
    cbn [rows_eligible rows_completed fold_right eligible completed
         hospitals_eligible stats_eligible snd fst].
    fold (rows_eligible (followup_summary_of m)).
    fold (rows_completed (followup_summary_of m)).
    fold (hospitals_eligible m).
    apply Nat.ltb_lt in P2, P7, P14, P28.
    split; [lia |]. split; [lia |].
    repeat (constructor; [cbn; lia |]). exact IH3.
Qed.

(** X20.  In what [calculate_followup_metrics] returns, every baby
    processed is eligible for each of the four follow-ups, so the
    eligible total is four times the babies processed; no more
    follow-ups are completed than are eligible, in total and in every
    row of the summary; and no row has nobody eligible. *)
Theorem followup_totals_add_up :
  forall (followup_data baby_data : list dict) (r : followup_metrics),
    calculate_followup_metrics followup_data baby_data = Ok r ->
    total_eligible r = (4 * followup_babies_processed r)%nat /\
    (total_completed r <= total_eligible r)%nat /\
    Forall (fun row => (0 < eligible row)%nat /\
                       (completed row <= eligible row)%nat)
           (hospital_summary r).
Proof.
  intros followup_data baby_data r H.
  unfold calculate_followup_metrics in H.
  bind_as H st Hst. destruct st as [processed m]. cbv zeta in H.
  injection H as <-.
  cbn [total_eligible total_completed hospital_summary
       followup_babies_processed].
  assert (Hinv : Forall (fun hs => stats_sound (snd hs)) m /\
                 hospitals_eligible m = (4 * List.length processed)%nat).
  { refine (for_each_invariant
              (fun st => Forall (fun hs => stats_sound (snd hs)) (snd st) /\
                         hospitals_eligible (snd st)
                         = (4 * List.length (fst st))%nat) _ _
              (fun s x s' => followup_baby_step_sound s s' x)
              ([], []) (processed, m) _ Hst).
    split; [constructor | reflexivity]. }
  destruct Hinv as [Hall Hsum].
  destruct (followup_summary_sound m Hall) as [E1 [E2 E3]].
  unfold rows_eligible in E1, E2. unfold rows_completed in E2.
  rewrite E1. refine (conj Hsum (conj _ E3)).
  rewrite <- E1. exact E2.
Qed.

Lemma followup_totals_add_up_witness :
  exists r,
    calculate_followup_metrics []
      [followed_baby; dead_baby; followed_baby_again; light_baby] = Ok r /\
    followup_babies_processed r = 2%nat /\
    total_completed r = 2%nat /\
    total_eligible r = (4 * followup_babies_processed r)%nat.
Proof.
  eexists. split; [vm_compute; reflexivity |].
  split; [reflexivity |]. split; [reflexivity |].
  apply (followup_totals_add_up []
           [followed_baby; dead_baby; followed_baby_again; light_baby]).
  vm_compute. reflexivity.
Defined.

(** ** kmc_dashboard.py: critical reasons *)

Lemma reasons_total_cons (k : string) (v : nat * list dict)
    (m : critical_reasons) :
  reasons_total ((k, v) :: m) = (fst v + reasons_total m)%nat.
Proof. reflexivity. Qed.

Lemma reasons_total_app (a b : critical_reasons) :
  reasons_total (a ++ b) = (reasons_total a + reasons_total b)%nat.
Proof.
  induction a as [| [k v] a IH]; [reflexivity |].
  rewrite <- app_comm_cons, !reasons_total_cons, IH. lia.
Qed.

Lemma reasons_find_app (reason : string) (a b : critical_reasons) :
  reasons_find reason (a ++ b)
  = match reasons_find reason a with
    | Some v => Some v
    | None => reasons_find reason b
    end.
Proof.
  induction a as [| [k v] a IH]; cbn [app reasons_find]; [reflexivity |].
  destruct (k =? reason); [reflexivity | exact IH].
Qed.

Lemma reasons_ensure_total (reason : string) (m : critical_reasons) :
  reasons_total (reasons_ensure reason m) = reasons_total m.
Proof.
  unfold reasons_ensure. destruct (reasons_find reason m); [reflexivity |].
  rewrite reasons_total_app, reasons_total_cons. cbn. lia.
Qed.

Lemma reasons_find_ensured (reason : string) (m : critical_reasons) :
  reasons_find reason (reasons_ensure reason m) <> None.
Proof.
  unfold reasons_ensure.
  destruct (reasons_find reason m) eqn:E; [rewrite E; discriminate |].
  rewrite reasons_find_app, E. cbn [reasons_find].
  rewrite String.eqb_refl. discriminate.
Qed.

Lemma reasons_ensure_filed (reason : string) (m : critical_reasons) :
  reason <> "" ->
  Forall reason_filed m -> Forall reason_filed (reasons_ensure reason m).
Proof.
  intros Hr Hm. unfold reasons_ensure.
  destruct (reasons_find reason m); [exact Hm |].
  apply Forall_app. split; [exact Hm |].
  constructor; [| constructor].
  unfold reason_filed; cbn. repeat split; [exact Hr | constructor].
Qed.

Lemma reasons_file_total (reason : string) (row : dict)
    (m : critical_reasons) :
  reasons_find reason m <> None ->
  reasons_total (reasons_file reason row m) = S (reasons_total m).
Proof.
  induction m as [| [k [n rows]] m IH]; cbn [reasons_find reasons_file];
    [congruence |].
  destruct (k =? reason).
  - intros _. rewrite !reasons_total_cons. cbn. lia.
  - intros H. rewrite !reasons_total_cons, (IH H). lia.
Qed.

Lemma reasons_file_filed (reason : string) (row : dict)
    (m : critical_reasons) :
  get row "criticalReason" = VStr reason ->
  Forall reason_filed m -> Forall reason_filed (reasons_file reason row m).
Proof.
  intros Hrow. induction 1 as [| [k [n rows]] m Hk Hm IH];
    cbn [reasons_file]; [constructor |].
  destruct (k =? reason) eqn:E.
  - constructor; [| exact Hm].
    apply String.eqb_eq in E. subst k.
    destruct Hk as [Hn [Hne Hrows]]. cbn [fst snd] in *.
    unfold reason_filed; cbn [fst snd].
    refine (conj _ (conj Hne _)).
    + rewrite length_app. cbn. lia.
    + apply Forall_app. split; [exact Hrows |].
      constructor; [exact Hrow | constructor].
  - constructor; [exact Hk | exact IH].
Qed.

Lemma reason_step_filed (st st' : reason_scan) (discharge : dict) :
  Forall reason_filed (discharge_critical_reasons st) /\
  (reasons_total (discharge_critical_reasons st)
   <= List.length (discharge_processed_uids st))%nat ->
  reason_step st discharge = Ok st' ->
  Forall reason_filed (discharge_critical_reasons st') /\
  (reasons_total (discharge_critical_reasons st')
   <= List.length (discharge_processed_uids st'))%nat.
Proof.
  intros [Hall Hle] H. unfold reason_step in H.
  destruct (negb (truthy _)); [injection H as <-; split; assumption |].
  bind_as H seen Hseen.
  destruct seen; [injection H as <-; split; assumption |].
  destruct (get_or discharge "criticalReasons" (VStr "")) as
    [| b | z | q | text | l | d];
    try (injection H as <-;
         cbn [discharge_critical_reasons discharge_processed_uids];
         rewrite length_app; cbn [List.length];
         split; [exact Hall | lia]).
  destruct (truthy (VStr (strip text))) eqn:Ht;
    injection H as <-; cbn [discharge_critical_reasons
                             discharge_processed_uids];
    rewrite length_app; cbn [List.length]; [| split; [exact Hall | lia]].
  assert (Hne : strip text <> "").
  { intros E. rewrite E in Ht. discriminate. }
  split.
  - apply reasons_file_filed; [reflexivity |].
    apply reasons_ensure_filed; assumption.
  - rewrite reasons_file_total by apply reasons_find_ensured.
    rewrite reasons_ensure_total. lia.
Qed.

(** X21.  In what [calculate_critical_reason_classification] returns,
    the count of every reason is the number of discharges filed under
    it, no reason is the empty text, every discharge filed carries the
    reason it is filed under, and the discharges with a reason are never
    more than the discharges processed. *)
Theorem critical_reasons_are_filed :
  forall (discharge_data : list dict) (r : reason_classification),
    calculate_critical_reason_classification discharge_data = Ok r ->
    Forall reason_filed (res_discharge_critical_reasons r) /\
    total_discharges_with_reasons r
    = reasons_total (res_discharge_critical_reasons r) /\
    (total_discharges_with_reasons r <= total_discharges r)%nat.
Proof.
  intros discharge_data r H.
  unfold calculate_critical_reason_classification in H.
  bind_as H st Hst. injection H as <-.
  cbn [res_discharge_critical_reasons total_discharges_with_reasons
       total_discharges].
  assert (Hinv :
            Forall reason_filed (discharge_critical_reasons st) /\
            (reasons_total (discharge_critical_reasons st)
             <= List.length (discharge_processed_uids st))%nat).
  { refine (for_each_invariant
              (fun st =>
                 Forall reason_filed (discharge_critical_reasons st) /\
                 (reasons_total (discharge_critical_reasons st)
                  <= List.length (discharge_processed_uids st))%nat) _ _
              (fun s x s' => reason_step_filed s s' x) _ _ _ Hst).
    split; [constructor | cbn; lia]. }
  destruct Hinv as [Hall Hle].
  refine (conj Hall (conj eq_refl Hle)).
Qed.

(** X22.  [calculate_critical_reason_classification] applies
    first-seen-wins de-duplication: with any number of discharges
    sharing a uid it returns what it returns on the list with only the
    first of them retained. *)
Theorem critical_reasons_first_seen_wins :
  forall (u : pyval) (discharge_data : list dict),
    calculate_critical_reason_classification (retain_first u discharge_data)
    = calculate_critical_reason_classification discharge_data.
Proof.
  intros u discharge_data.
  unfold calculate_critical_reason_classification.
  rewrite (first_seen_wins reason_scan discharge_processed_uids
             reason_step); [reflexivity | | | |].
  - intros st r Hu. unfold reason_step. rewrite Hu. reflexivity.
  - intros st r Hh Hs. unfold reason_step, set_mem.
    rewrite Hh, Hs. destruct (negb _); reflexivity.
  - intros st r st' H. unfold reason_step in H.
    destruct (negb _); [injection H as <-; left; reflexivity |].
    bind_as H seen Hseen.
    destruct seen; [injection H as <-; left; reflexivity |].
    right.
    destruct (get_or r "criticalReasons" (VStr ""));
      try (injection H as <-; reflexivity).
    destruct (truthy _); injection H as <-; reflexivity.
  - intros st r st' H Ht Hh. unfold reason_step in H.
    rewrite Ht in H. cbn [negb] in H. unfold set_mem in H. rewrite Hh in H.
    cbn [bind] in H.
    destruct (existsb (py_eqb (get r "UID")) (discharge_processed_uids st))
      eqn:Hseen; [injection H as <-; exact Hseen |].
    assert (Hp : discharge_processed_uids st'
                 = discharge_processed_uids st ++ [get r "UID"]).
    { destruct (get_or r "criticalReasons" (VStr ""));
        try (injection H as <-; reflexivity).
      destruct (truthy _); injection H as <-; reflexivity. }
    rewrite Hp, existsb_app. cbn. rewrite (py_eqb_refl _ Hh).
    apply orb_true_r.
Qed.

Lemma critical_reasons_are_filed_witness :
  exists r,
    calculate_critical_reason_classification
      [septic_discharge; plain_discharge; septic_discharge_too;
       septic_discharge] = Ok r /\
    total_discharges r = 3%nat /\
    total_discharges_with_reasons r = 2%nat /\
    List.length (res_discharge_critical_reasons r) = 1%nat /\
    Forall reason_filed (res_discharge_critical_reasons r).
Proof.
  eexists. split; [vm_compute; reflexivity |].
  split; [reflexivity |]. split; [reflexivity |]. split; [reflexivity |].
  apply (critical_reasons_are_filed
           [septic_discharge; plain_discharge; septic_discharge_too;
            septic_discharge]).
  vm_compute. reflexivity.
Defined.

(** ** kmc_dashboard.py: the filter *)

Lemma keep_loop_filter {A : Type} (keeps : A -> res bool) (l : list A) :
  forall acc out,
    for_each (fun filtered x =>
                keep <- keeps x ;;
                Ok (if keep then filtered ++ [x] else filtered)) l acc
    = Ok out ->
    out = acc ++ filter (fun x => match keeps x with
                                  | Ok true => true
                                  | _ => false
                                  end) l.
Proof.
  induction l as [| x l IH]; intros acc out H; cbn [for_each filter] in *.
  - injection H as <-. rewrite app_nil_r. reflexivity.
  - bind_as H s Hs. bind_as Hs keep Hk. injection Hs as <-.
    rewrite Hk. rewrite (IH _ _ H).
    destruct keep; [rewrite <- app_assoc |]; reflexivity.
Qed.

Lemma keep_loop_all {A : Type} (keeps : A -> res bool) (l : list A) :
  Forall (fun x => keeps x = Ok true) l ->
  forall acc,
    for_each (fun filtered x =>
                keep <- keeps x ;;
                Ok (if keep then filtered ++ [x] else filtered)) l acc
    = Ok (acc ++ l).
Proof.
  induction 1 as [| x l Hx _ IH]; intros acc; cbn [for_each].
  - rewrite app_nil_r. reflexivity.
  - rewrite Hx. cbn [bind]. rewrite IH, <- app_assoc. reflexivity.
Qed.

Lemma filter_kept {A : Type} (keeps : A -> res bool) (l : list A) :
  Forall (fun x => keeps x = Ok true)
         (filter (fun x => match keeps x with
                           | Ok true => true
                           | _ => false
                           end) l).
Proof.
  apply Forall_forall. intros x Hx. apply filter_In in Hx as [_ Hx].
  destruct (keeps x) as [[|] | e]; try discriminate. reflexivity.
Qed.

Section Filter.
Context `{RT : Runtime}.

Lemma selection_set_none (selected : option (list pyval)) :
  no_selection selected = true -> selection_set selected = Ok [].
Proof.
  destruct selected as [[| v l] |]; try discriminate; reflexivity.
Qed.

(** X23.  With no hospital and no location selected and one end of the
    date range missing, [_filter_data] returns the babies as they came,
    all of them and in their order, whatever they hold, and reports no
    error. *)
Theorem filter_without_criteria :
  forall (baby_data : list dict) (start_date end_date : option date)
         (selected_hospitals selected_locations : option (list pyval)),
    no_selection selected_hospitals = true ->
    no_selection selected_locations = true ->
    start_date = None \/ end_date = None ->
    _filter_data baby_data start_date end_date
      selected_hospitals selected_locations = (baby_data, false).
Proof.
  intros baby_data start_date end_date hs ls Hh Hl Hd.
  unfold _filter_data, filter_data_body.
  rewrite (selection_set_none _ Hh), (selection_set_none _ Hl).
  cbn [bind].
  rewrite (keep_loop_all
             (filter_keeps [] [] start_date end_date) baby_data);
    [reflexivity |].
  apply Forall_forall. intros baby _. unfold filter_keeps. cbn.
  destruct Hd as [-> | ->]; [reflexivity |].
  destruct start_date; reflexivity.
Qed.

(** X24.  [_filter_data] never keeps a baby it was not given, and
    filtering what it returned once more, by the same criteria, changes
    nothing. *)
Theorem filter_is_idempotent :
  forall (baby_data : list dict) (start_date end_date : option date)
         (selected_hospitals selected_locations : option (list pyval)),
    incl (fst (_filter_data baby_data start_date end_date
                 selected_hospitals selected_locations)) baby_data /\
    (List.length (fst (_filter_data baby_data start_date end_date
                         selected_hospitals selected_locations))
     <= List.length baby_data)%nat /\
    fst (_filter_data
           (fst (_filter_data baby_data start_date end_date
                   selected_hospitals selected_locations))
           start_date end_date selected_hospitals selected_locations)
    = fst (_filter_data baby_data start_date end_date
             selected_hospitals selected_locations).
Proof.
  intros baby_data start_date end_date hs ls.
  unfold _filter_data, filter_data_body.
  destruct (selection_set hs) as [hset | e]; cbn [bind fst];
    [| refine (conj _ (conj _ eq_refl)); [intros x [] | cbn; lia]].
  destruct (selection_set ls) as [lset | e]; cbn [bind fst];
    [| refine (conj _ (conj _ eq_refl)); [intros x [] | cbn; lia]].
  destruct (for_each _ baby_data []) as [out | e] eqn:Hout; cbn [fst].
  - apply (keep_loop_filter
             (filter_keeps hset lset start_date end_date)) in Hout.
    cbn [app] in Hout. subst out.
    refine (conj _ (conj _ _)).
    + apply incl_filter.
    + apply filter_shorter.
    + rewrite (keep_loop_all
                 (filter_keeps hset lset start_date end_date)
                 _ (filter_kept _ baby_data)).
      reflexivity.
  - refine (conj _ (conj _ eq_refl)); [intros x [] | cbn; lia].
Qed.

End Filter.

Lemma filter_without_criteria_witness :
  @_filter_data example_runtime [unregistered_baby; light_baby]
    (Some 0%Z) None None (Some [])
  = ([unregistered_baby; light_baby], false).
Proof.
  apply (@filter_without_criteria example_runtime
           [unregistered_baby; light_baby] (Some 0%Z) None None (Some []));
    [reflexivity | reflexivity | right; reflexivity].
Defined.

(** ** dashboard_metrics.py: the discharge outcomes of the dead *)

Lemma distinct_keys_snoc (l : list pyval) (u : pyval) :
  distinct_keys l -> existsb (py_eqb u) l = false ->
  distinct_keys (l ++ [u]).
Proof.
  induction l as [| x l IH]; cbn [distinct_keys app existsb].
  - intros _ _. split; [reflexivity | exact I].
  - intros [Hx Hl] Hu. apply orb_false_iff in Hu as [Hux Hul].
    split; [| exact (IH Hl Hul)].
    rewrite existsb_app, Hx. cbn. rewrite py_eqb_sym, Hux. reflexivity.
Qed.

(** Distinct keys that all occur among [d] are no more than [d] holds. *)
Lemma distinct_keys_bounded (l : list pyval) :
  forall d,
    distinct_keys l ->
    Forall (fun u => existsb (py_eqb u) d = true) l ->
    (List.length l <= List.length d)%nat.
Proof.
  induction l as [| x l IH]; intros d Hd Hall; [cbn; lia |].
  destruct Hd as [Hx Hl].
  inversion Hall as [| ? ? Hxd Hld]; subst.
  apply existsb_exists in Hxd as [y [Hy Hxy]].
  apply in_split in Hy as [d1 [d2 ->]].
  assert (Hrest : Forall (fun u => existsb (py_eqb u) (d1 ++ d2) = true) l).
  { apply Forall_forall. intros u Hu.
    pose proof (proj1 (Forall_forall _ _) Hld u Hu) as Hud.
    cbv beta in Hud.
    rewrite existsb_app in Hud. cbn [existsb] in Hud.
    rewrite existsb_app.
    destruct (existsb (py_eqb u) d1); [reflexivity |].
    destruct (py_eqb u y) eqn:Huy; [| exact Hud].
    exfalso.
    assert (Hxu : py_eqb x u = true).
    { apply (py_eqb_trans x y u); [exact Hxy |].
      rewrite py_eqb_sym. exact Huy. }
    assert (Hex : existsb (py_eqb x) l = true).
    { apply existsb_exists. exists u. split; assumption. }
    congruence. }
  specialize (IH (d1 ++ d2) Hl Hrest).
  rewrite length_app in *. cbn [List.length]. lia.
Qed.

Lemma file_baby_match (c : outcome_counts) (m : outcome_babies)
    (category : string) (record : dict) :
  In category OUTCOMES ->
  outcomes_match c m ->
  outcomes_match (count_outcome c category) (file_baby category record m).
Proof.
  intros Hc [l1 [l2 [l3 [l4 [l5 [-> [H1 [H2 [H3 [H4 H5]]]]]]]]]].
  unfold OUTCOMES in Hc.
  destruct Hc as [<- | [<- | [<- | [<- | [<- | []]]]]];
    cbn [file_baby map fst snd];
    repeat match goal with
           | |- context [(?a =? ?b)%string] =>
               let v := eval vm_compute in (a =? b)%string in
               change (a =? b)%string with v
           end;
    cbv iota;
    eexists _, _, _, _, _; (split; [reflexivity |]);
    cbn [count_outcome critical_home stable_home critical_referred died
         other];
    repeat match goal with
           | |- context [(?a =? ?b)%string] =>
               let v := eval vm_compute in (a =? b)%string in
               change (a =? b)%string with v
           end;
    cbv iota; rewrite ?length_app; cbn [List.length];
    repeat split; lia.
Qed.

Lemma file_dead_sound (dead : list pyval) (st : dead_walk) (uid : pyval)
    (category : string) (record : dict) :
  dead_walk_sound dead st ->
  set_mem uid dead = Ok true ->
  set_mem uid (processed_discharge_uids_dead st) = Ok false ->
  In category OUTCOMES ->
  dead_walk_sound dead (file_dead st uid category record).
Proof.
  intros [Hd [Hall [Hsum Hm]]] Hdead Hseen Hc.
  unfold set_mem in Hdead, Hseen.
  destruct (hashable uid); [| discriminate].
  injection Hdead as Hdead. injection Hseen as Hseen.
  unfold dead_walk_sound, file_dead;
    cbn [processed_discharge_uids_dead dead_counts dead_filed].
  refine (conj _ (conj _ (conj _ _))).
  - apply distinct_keys_snoc; assumption.
  - apply Forall_app. split; [exact Hall |].
    constructor; [exact Hdead | constructor].
  - rewrite (count_outcome_sum _ _ Hc), length_app, Hsum. cbn. lia.
  - apply file_baby_match; assumption.
Qed.

Lemma dead_discharge_step_sound (dead : list pyval) (st st' : dead_walk)
    (discharge : dict) :
  dead_walk_sound dead st ->
  dead_discharge_step dead st discharge = Ok st' ->
  dead_walk_sound dead st'.
Proof.
  intros Hs H. unfold dead_discharge_step in H.
  bind_as H is_dead Hdead.
  destruct is_dead; [| injection H as <-; exact Hs].
  bind_as H seen Hseen.
  destruct seen; cbn [negb] in H; [injection H as <-; exact Hs |].
  bind_as H category Hc. injection H as <-.
  exact (file_dead_sound _ _ _ _ _ Hs Hdead Hseen
           (categorize_discharge_outcome _ _ _ Hc)).
Qed.

Lemma dead_baby_step_sound (dead : list pyval) (st st' : dead_walk)
    (baby : dict) :
  dead_walk_sound dead st ->
  dead_baby_step dead st baby = Ok st' ->
  dead_walk_sound dead st'.
Proof.
  intros Hs H. unfold dead_baby_step in H.
  bind_as H is_dead Hdead.
  destruct is_dead; [| injection H as <-; exact Hs].
  bind_as H seen Hseen.
  destruct seen; cbn [negb andb] in H; [injection H as <-; exact Hs |].
  destruct (truthy (get baby "discharged"));
    [| injection H as <-; exact Hs].
  destruct (py_eq_str _ "baby").
  - bind_as H category Hc. injection H as <-.
    exact (file_dead_sound _ _ _ _ _ Hs Hdead Hseen
             (categorize_discharge_outcome _ _ _ Hc)).
  - destruct (py_eq_str _ "babyBackUp"); [| injection H as <-; exact Hs].
    bind_as H category Hc. injection H as <-.
    exact (file_dead_sound _ _ _ _ _ Hs Hdead Hseen
             (categorize_discharge_outcome _ _ _ Hc)).
Qed.

Section DeadOutcomes.
Context `{RT : Runtime}.

(** X25.  The discharge outcomes [calculate_death_rates] works out for
    the dead never count more discharges than there are dead babies:
    each dead baby is counted at most once, in one category, with one
    record filed under that category. *)
Theorem dead_outcomes_within_the_dead :
  forall (baby_data discharge_data : list dict)
         (figures : death_figures) (outcomes : dead_outcomes),
    calculate_death_rates baby_data discharge_data = Ok (figures, outcomes) ->
    (dead_total_discharged outcomes <= dead_babies figures)%nat /\
    (dead_babies figures <= total_babies figures)%nat /\
    outcomes_match (dead_categories outcomes)
                   (dead_categories_babies outcomes).
Proof.
  intros baby_data discharge_data figures outcomes H.
  unfold calculate_death_rates in H.
  bind_as H st Hscan. bind_as H w1 Hw1. bind_as H w2 Hw2.
  bind_as H f Hf. injection H as <- <-.
  pose proof Hf as Hfig.
  unfold death_rates_figures in Hf. rewrite Hscan in Hf. cbn [bind] in Hf.
  bind_as Hf all_hospitals Hh. injection Hf as <-.
  cbn [dead_total_discharged dead_babies total_babies dead_categories
       dead_categories_babies].
  assert (H1 : dead_walk_sound (dead_uids st) w1).
  { refine (for_each_invariant (dead_walk_sound (dead_uids st)) _ _
              (fun s x s' => dead_discharge_step_sound _ s s' x) _ _ _ Hw1).
    unfold dead_walk_sound, dead_walk_init; cbn.
    refine (conj I (conj (Forall_nil _) (conj eq_refl _))).
    eexists _, _, _, _, _. repeat split. }
  assert (H2 : dead_walk_sound (dead_uids st) w2).
  { exact (for_each_invariant (dead_walk_sound (dead_uids st)) _ _
             (fun s x s' => dead_baby_step_sound _ s s' x) _ _ H1 Hw2). }
  destruct H2 as [Hd [Hall [Hsum Hm]]].
  assert (Hscan_sound : death_scan_sound st).
  { refine (for_each_invariant death_scan_sound _ _
              (fun s x s' => death_step_sound s x s') _ _ _ Hscan).
    unfold death_scan_sound; cbn.
    repeat split; try lia; try (intros x Hx; discriminate). }
  destruct Hscan_sound as [S1 [_ [S3 [_ [_ [S6 [S7 _]]]]]]].
  refine (conj _ (conj _ Hm)).
  - rewrite Hsum. exact (distinct_keys_bounded _ _ Hd Hall).
  - lia.
Qed.

End DeadOutcomes.

Lemma dead_outcomes_within_the_dead_witness :
  exists figures outcomes,
    @calculate_death_rates example_runtime [dead_baby; prompt_baby]
      [death_record; death_record; undated_discharge]
    = Ok (figures, outcomes) /\
    dead_babies figures = 1%nat /\
    died (dead_categories outcomes) = 1%nat /\
    (dead_total_discharged outcomes <= dead_babies figures)%nat.
Proof.
  eexists. eexists. split; [vm_compute; reflexivity |].
  split; [reflexivity |]. split; [reflexivity |].
  apply (@dead_outcomes_within_the_dead example_runtime
           [dead_baby; prompt_baby]
           [death_record; death_record; undated_discharge]).
  vm_compute. reflexivity.
Defined.

(** ** dashboard_metrics.py: discharged without KMC *)

Lemma summed_cons (figure : hospital_discharges -> nat) (k : pyval)
    (v : hospital_discharges) (m : discharges_by_hospital) :
  summed figure ((k, v) :: m) = (figure v + summed figure m)%nat.
Proof. reflexivity. Qed.

Lemma summed_app (figure : hospital_discharges -> nat)
    (a b : discharges_by_hospital) :
  summed figure (a ++ b) = (summed figure a + summed figure b)%nat.
Proof.
  induction a as [| [k v] a IH]; [reflexivity |].
  rewrite <- app_comm_cons, !summed_cons, IH. lia.
Qed.

Lemma summed_map (figure : hospital_discharges -> nat)
    (h : hospital_discharges -> hospital_discharges)
    (m : discharges_by_hospital) :
  (forall d, figure (h d) = figure d) ->
  summed figure (map (fun kv => (fst kv, h (snd kv))) m) = summed figure m.
Proof.
  intros Hh. induction m as [| [k v] m IH]; [reflexivity |].
  cbn [map fst snd]. rewrite !summed_cons, Hh, IH. reflexivity.
Qed.

Lemma discharges_update_app (hospital : pyval)
    (f : hospital_discharges -> hospital_discharges)
    (a b : discharges_by_hospital) :
  discharges_find hospital a = None ->
  discharges_update hospital f (a ++ b)
  = a ++ discharges_update hospital f b.
Proof.
  induction a as [| [k v] a IH]; cbn [app discharges_find discharges_update];
    [reflexivity |].
  destruct (py_eqb hospital k); [discriminate |].
  intros H. rewrite (IH H). reflexivity.
Qed.

Lemma discharges_update_twice (hospital : pyval)
    (f g : hospital_discharges -> hospital_discharges)
    (m : discharges_by_hospital) :
  discharges_update hospital g (discharges_update hospital f m)
  = discharges_update hospital (fun d => g (f d)) m.
Proof.
  induction m as [| [k v] m IH]; cbn [discharges_update]; [reflexivity |].
  destruct (py_eqb hospital k) eqn:E; cbn [discharges_update]; rewrite E.
  - reflexivity.
  - rewrite IH. reflexivity.
Qed.

Section UpdateEnsure.
Variable hospital : pyval.
Variable f : hospital_discharges -> hospital_discharges.
Hypothesis hospital_hashable : hashable hospital = true.

Lemma update_Forall (P : hospital_discharges -> Prop)
    (m : discharges_by_hospital) :
  (forall d, P d -> P (f d)) ->
  Forall (fun kv => P (snd kv)) m ->
  Forall (fun kv => P (snd kv)) (discharges_update hospital f m).
Proof.
  intros Hf. induction 1 as [| [k v] m Hv Hm IH];
    cbn [discharges_update]; [constructor |].
  destruct (py_eqb hospital k); constructor; cbn [snd] in *; auto.
Qed.

Lemma update_ensure_Forall (P : hospital_discharges -> Prop)
    (m : discharges_by_hospital) :
  (forall d, P d -> P (f d)) -> P (f FRESH_HOSPITAL) ->
  Forall (fun kv => P (snd kv)) m ->
  Forall (fun kv => P (snd kv))
         (discharges_update hospital f (discharges_ensure hospital m)).
Proof.
  intros Hf H0 Hm. unfold discharges_ensure.
  destruct (discharges_find hospital m) eqn:E.
  - apply update_Forall; assumption.
  - rewrite (discharges_update_app _ _ _ _ E).
    apply Forall_app. split; [exact Hm |].
    cbn [discharges_update]. rewrite (py_eqb_refl _ hospital_hashable).
    constructor; [exact H0 | constructor].
Qed.

Lemma update_summed (figure : hospital_discharges -> nat) (delta : nat)
    (m : discharges_by_hospital) :
  (forall d, figure (f d) = (figure d + delta)%nat) ->
  discharges_find hospital m <> None ->
  summed figure (discharges_update hospital f m)
  = (summed figure m + delta)%nat.
Proof.
  intros Hf. induction m as [| [k v] m IH];
    cbn [discharges_find discharges_update]; [congruence |].
  destruct (py_eqb hospital k).
  - intros _. rewrite !summed_cons, Hf. lia.
  - intros H. rewrite !summed_cons, (IH H). lia.
Qed.

Lemma update_ensure_summed (figure : hospital_discharges -> nat)
    (delta : nat) (m : discharges_by_hospital) :
  figure FRESH_HOSPITAL = 0%nat ->
  (forall d, figure (f d) = (figure d + delta)%nat) ->
  summed figure (discharges_update hospital f (discharges_ensure hospital m))
  = (summed figure m + delta)%nat.
Proof.
  intros H0 Hf. unfold FRESH_HOSPITAL in H0. unfold discharges_ensure.
  destruct (discharges_find hospital m) eqn:E.
  - apply update_summed; [exact Hf | congruence].
  - rewrite (discharges_update_app _ _ _ _ E), summed_app.
    cbn [discharges_update]. rewrite (py_eqb_refl _ hospital_hashable).
    rewrite summed_cons, Hf, H0. cbn. lia.
Qed.

End UpdateEnsure.

Lemma without_kmc_step_sound (discharged_uids : list pyval)
    (st st' : without_kmc_scan) (baby : dict) :
  without_kmc_sound st ->
  without_kmc_step discharged_uids st baby = Ok st' ->
  without_kmc_sound st'.
Proof.
  intros Hs H. unfold without_kmc_step in H.
  destruct (negb (truthy _)); [injection H as <-; exact Hs |].
  bind_as H in_collection Hin.
  destruct (negb (in_collection || _)); [injection H as <-; exact Hs |].
  destruct (hashable (get_or baby "hospitalName" (VStr "Unknown")))
    eqn:Hh; [| discriminate].
  bind_as H days Hdays. bind_as H has_kmc Hk.
  destruct Hs as [Hall [Ht [Hw Hle]]].
  destruct has_kmc; cbn [negb] in H; injection H as <-;
    unfold without_kmc_sound;
    cbn [scan_hospital_data scan_total_discharged scan_total_without_kmc];
    rewrite ?discharges_update_twice.
  - refine (conj _ (conj _ (conj _ _))).
    + apply update_ensure_Forall; [exact Hh | | | exact Hall].
      * intros d [D1 [D2 D3]]. unfold hospital_sound; cbn.
        repeat split; lia.
      * unfold hospital_sound; cbn. repeat split; lia.
    + rewrite (update_ensure_summed _ _ Hh _ 1);
        [lia | reflexivity | intros d; cbn; lia].
    + rewrite (update_ensure_summed _ _ Hh _ 0);
        [lia | reflexivity | intros d; cbn; lia].
    + lia.
  - refine (conj _ (conj _ (conj _ _))).
    + apply update_ensure_Forall; [exact Hh | | | exact Hall].
      * intros d [D1 [D2 D3]]. unfold hospital_sound; cbn.
        rewrite length_app. cbn. repeat split; lia.
      * unfold hospital_sound; cbn. repeat split; lia.
    + rewrite (update_ensure_summed _ _ Hh _ 1);
        [lia | reflexivity | intros d; cbn; lia].
    + rewrite (update_ensure_summed _ _ Hh _ 1);
        [lia | reflexivity | intros d; cbn; lia].
    + lia.
Qed.

(** X26.  In what [calculate_discharged_babies_without_kmc] returns, the
    discharged babies of the hospitals add up to the total discharged
    and their babies without KMC to the total without KMC; in every
    hospital listed somebody was discharged, the babies without KMC are
    as many as are listed for it and never more than its discharged; and
    so the total without KMC is at most the total discharged. *)
Theorem without_kmc_totals_add_up :
  forall (baby_data discharge_data : list dict) (r : without_kmc_result),
    calculate_discharged_babies_without_kmc baby_data discharge_data = Ok r ->
    summed hospital_total_discharged (without_hospital_data r)
    = without_total_discharged r /\
    summed without_kmc (without_hospital_data r) = total_without_kmc r /\
    (total_without_kmc r <= without_total_discharged r)%nat /\
    Forall (fun kv => hospital_sound (snd kv)) (without_hospital_data r).
Proof.
  intros baby_data discharge_data r H.
  unfold calculate_discharged_babies_without_kmc in H.
  bind_as H discharged_uids Hu. bind_as H st Hst. cbv zeta in H.
  injection H as <-.
  cbn [without_hospital_data without_total_discharged total_without_kmc].
  assert (Hs : without_kmc_sound st).
  { refine (for_each_invariant without_kmc_sound _ _
              (fun s x s' => without_kmc_step_sound _ s s' x) _ _ _ Hst).
    unfold without_kmc_sound; cbn.
    refine (conj (Forall_nil _) (conj eq_refl (conj eq_refl _))). lia. }
  destruct Hs as [Hall [Ht [Hw Hle]]].
  set (finish := fun d : hospital_discharges =>
                   if (0 <? hospital_total_discharged d)%nat then
                     {| hospital_total_discharged :=
                          hospital_total_discharged d;
                        without_kmc := without_kmc d;
                        babies_without_kmc := babies_without_kmc d;
                        percentage_without_kmc :=
                          VFloat (Qred (count (without_kmc d)
                                        / count (hospital_total_discharged d)
                                        * 100)) |}
                   else d).
  change (map _ (scan_hospital_data st))
    with (map (fun kv => (fst kv, finish (snd kv))) (scan_hospital_data st)).
  assert (Hf1 : forall d,
             hospital_total_discharged (finish d)
             = hospital_total_discharged d).
  { intros d. unfold finish. destruct (0 <? _)%nat; reflexivity. }
  assert (Hf2 : forall d, without_kmc (finish d) = without_kmc d).
  { intros d. unfold finish. destruct (0 <? _)%nat; reflexivity. }
  assert (Hf3 : forall d, babies_without_kmc (finish d)
                          = babies_without_kmc d).
  { intros d. unfold finish. destruct (0 <? _)%nat; reflexivity. }
  rewrite (summed_map _ finish _ Hf1), (summed_map _ finish _ Hf2).
  refine (conj Ht (conj Hw (conj Hle _))).
  apply Forall_map. eapply Forall_impl; [| exact Hall].
  intros [k d] Hd. cbn [fst snd] in *. unfold hospital_sound in *.
  rewrite Hf1, Hf2, Hf3. exact Hd.
Qed.

Lemma without_kmc_totals_add_up_witness :
  exists r,
    calculate_discharged_babies_without_kmc
      [held_baby; unheld_baby; light_baby] [unheld_record] = Ok r /\
    without_total_discharged r = 2%nat /\
    total_without_kmc r = 1%nat /\
    summed hospital_total_discharged (without_hospital_data r)
    = without_total_discharged r.
Proof.
  eexists. split; [vm_compute; reflexivity |].
  split; [reflexivity |]. split; [reflexivity |].
  apply (without_kmc_totals_add_up
           [held_baby; unheld_baby; light_baby] [unheld_record]).
  vm_compute. reflexivity.
Defined.

(** ** dashboard_metrics.py: skin contact *)

Lemma positive_number_of (v : pyval) :
  positive_number v -> (0 < number_of v)%Q.
Proof.
  intros [q [E Hq]]. unfold number_of. rewrite E. exact Hq.
Qed.

Lemma contact_step_positive (contacts : list pyval) (followup : pyval) :
  Forall positive_number contacts ->
  Forall positive_number (contact_step contacts followup).
Proof.
  intros H. unfold contact_step.
  destruct followup; try exact H.
  destruct (list_mem _ _); [| exact H].
  destruct (as_number _) as [q |] eqn:E; [| exact H].
  destruct (truthy _); cbn [andb]; [| exact H].
  destruct (Qltb 0 q) eqn:Hq; [| exact H].
  apply Forall_app. split; [exact H |].
  constructor; [| constructor].
  exists q. split; [exact E | apply Qltb_lt; exact Hq].
Qed.

Lemma contacts_positive (followups : list pyval) :
  forall contacts,
    Forall positive_number contacts ->
    Forall positive_number (fold_left contact_step followups contacts).
Proof.
  induction followups as [| f l IH]; intros contacts H; cbn [fold_left];
    [exact H |].
  apply IH, contact_step_positive, H.
Qed.

Lemma skin_contact_step_sound (st st' : nat * list pyval) (baby : dict) :
  Forall positive_number (snd st) /\
  (fst st <= List.length (snd st))%nat /\
  (fst st = 0%nat -> snd st = []) ->
  skin_contact_step st baby = Ok st' ->
  Forall positive_number (snd st') /\
  (fst st' <= List.length (snd st'))%nat /\
  (fst st' = 0%nat -> snd st' = []).
Proof.
  destruct st as [total contacts]. cbn [fst snd]. intros [Hall [Hle Hz]] H.
  unfold skin_contact_step in H.
  destruct (negb (truthy _)); [injection H as <-; repeat split; assumption |].
  bind_as H followups Hf.
  pose proof (contacts_positive followups [] (Forall_nil _)) as Hnew.
  destruct (fold_left contact_step followups []) as [| c cs];
    cbn [truthy] in H; injection H as <-; cbn [fst snd];
    [repeat split; assumption |].
  split; [apply Forall_app; split; assumption |].
  split; [| discriminate].
  rewrite length_app. cbn [List.length]. lia.
Qed.

Lemma skin_contact_step_grows (st st' : nat * list pyval) (baby : dict) :
  skin_contact_step st baby = Ok st' ->
  (fst st <= fst st' <= S (fst st))%nat.
Proof.
  destruct st as [total contacts]. unfold skin_contact_step. intros H.
  destruct (negb (truthy _)); [injection H as <-; cbn; lia |].
  bind_as H followups Hf.
  destruct (truthy _); injection H as <-; cbn; lia.
Qed.

Lemma py_min_of_least (rest : list pyval) :
  forall first,
    In (py_min_of first rest) (first :: rest) /\
    Forall (fun x => (number_of (py_min_of first rest) <= number_of x)%Q)
           (first :: rest).
Proof.
  unfold py_min_of.
  induction rest as [| x rest IH]; intros first; cbn [fold_left].
  - split; [left; reflexivity |].
    constructor; [apply Qle_refl | constructor].
  - destruct (Qltb (number_of x) (number_of first)) eqn:E.
    + destruct (IH x) as [Hin Hall]. split.
      * right. exact Hin.
      * inversion Hall as [| ? ? Hx Hrest]; subst.
        constructor; [| constructor; assumption].
        apply Qltb_lt in E. lra.
    + destruct (IH first) as [Hin Hall]. split.
      * destruct Hin as [<- | Hin]; [left; reflexivity | right; right; exact Hin].
      * inversion Hall as [| ? ? Hf Hrest]; subst.
        constructor; [exact Hf |]. constructor; [| exact Hrest].
        assert (Hn : ~ (number_of x < number_of first)%Q).
        { intros Hlt. apply Qltb_lt in Hlt. congruence. }
        lra.
Qed.

Lemma py_max_of_most (rest : list pyval) :
  forall first,
    Forall (fun x => (number_of x <= number_of (py_max_of first rest))%Q)
           (first :: rest).
Proof.
  unfold py_max_of.
  induction rest as [| x rest IH]; intros first; cbn [fold_left].
  - constructor; [apply Qle_refl | constructor].
  - destruct (Qltb (number_of first) (number_of x)) eqn:E.
    + pose proof (IH x) as Hall.
      inversion Hall as [| ? ? Hx Hrest]; subst.
      constructor; [| constructor; assumption].
      apply Qltb_lt in E. lra.
    + pose proof (IH first) as Hall.
      inversion Hall as [| ? ? Hf Hrest]; subst.
      constructor; [exact Hf |]. constructor; [| exact Hrest].
      assert (Hn : ~ (number_of first < number_of x)%Q).
      { intros Hlt. apply Qltb_lt in Hlt. congruence. }
      lra.
Qed.

(** X27.  In what [calculate_skin_contact_metrics] returns, the babies
    with data are no more than the babies given; when a baby has data
    the minimum is above zero and at most the maximum, only contacts
    above zero being kept, and there is an average; when none has, the
    minimum and the maximum are the integer 0 and so is the average. *)
Theorem skin_contact_extremes :
  forall `{RT : Runtime} (baby_data : list dict) (r : skin_contact_metrics),
    calculate_skin_contact_metrics baby_data = Ok r ->
    (total_babies_with_data r <= List.length baby_data)%nat /\
    (number_of (min_skin_contact r) <= number_of (max_skin_contact r))%Q /\
    ((0 < total_babies_with_data r)%nat ->
     (0 < number_of (min_skin_contact r))%Q /\
     average_skin_contact r <> NoMean) /\
    (total_babies_with_data r = 0%nat ->
     average_skin_contact r = NoMean /\
     min_skin_contact r = VInt 0 /\ max_skin_contact r = VInt 0).
Proof.
  intros RT baby_data r H. unfold calculate_skin_contact_metrics in H.
  bind_as H st Hst. destruct st as [total contacts].
  pose proof (for_each_grows fst _ _
                (fun s x s' => skin_contact_step_grows s s' x) _ _ Hst)
    as Hgrow.
  assert (Hinv : Forall positive_number contacts /\
                 (total <= List.length contacts)%nat /\
                 (total = 0%nat -> contacts = [])).
  { exact (for_each_invariant
             (fun st => Forall positive_number (snd st) /\
                        (fst st <= List.length (snd st))%nat /\
                        (fst st = 0%nat -> snd st = [])) _ _
             (fun s x s' => skin_contact_step_sound s s' x)
             (0%nat, []) (total, contacts)
             (conj (Forall_nil _) (conj (le_n 0) (fun _ => eq_refl))) Hst). }
  destruct Hinv as [Hpos [Hle Hzero]]. cbn [fst] in Hgrow.
  destruct contacts as [| first rest].
  - injection H as <-.
    cbn [total_babies_with_data average_skin_contact min_skin_contact
         max_skin_contact].
    refine (conj _ (conj _ (conj _ _))); [lia | apply Qle_refl | lia |].
    intros _. repeat split.
  - bind_as H average Havg. injection H as <-.
    cbn [total_babies_with_data average_skin_contact min_skin_contact
         max_skin_contact].
    destruct (py_min_of_least rest first) as [Hin Hmin].
    pose proof (py_max_of_most rest first) as Hmax.
    refine (conj _ (conj _ (conj _ _))).
    + cbn [List.length] in Hgrow. lia.
    + apply Qle_trans with (number_of first).
      * exact (proj1 (Forall_forall _ _) Hmin first (or_introl eq_refl)).
      * exact (proj1 (Forall_forall _ _) Hmax first (or_introl eq_refl)).
    + intros _. split.
      * apply positive_number_of.
        exact (proj1 (Forall_forall _ _) Hpos _ Hin).
      * unfold mean_of in Havg.
        destruct (forallb whole (first :: rest)).
        -- destruct (nearest_double _); [| discriminate].
           injection Havg as <-. discriminate.
        -- bind_as Havg f Hf. injection Havg as <-. discriminate.
    + intros Hz. specialize (Hzero Hz). discriminate.
Qed.

(** Contacts of 3 and 5.0 at the follow-ups of days 2 and 7, the 100 of
    day 28 not counted: one baby, between 3 and 5, 4.0 on average. *)
Lemma skin_contact_extremes_witness :
  exists r,
    @calculate_skin_contact_metrics example_runtime
      [contact_baby; light_baby] = Ok r /\
    total_babies_with_data r = 1%nat /\
    average_skin_contact r = Mean (FFin 4) /\
    min_skin_contact r = VInt 3 /\
    max_skin_contact r = VFloat 5 /\
    (number_of (min_skin_contact r) <= number_of (max_skin_contact r))%Q.
Proof.
  eexists. split; [vm_compute; reflexivity |].
  split; [reflexivity |]. split; [reflexivity |]. split; [reflexivity |].
  split; [reflexivity |].
  apply (@skin_contact_extremes example_runtime [contact_baby; light_baby]).
  vm_compute. reflexivity.
Defined.
